(** * WatchPLB radio driver (radio.c): shallow embedding and verification

    The radio driver programs a sub-GHz transceiver over SPI and is driven
    by a polling loop that calls [RADIO_Process].  This file embeds
    [RADIO_Init], [RADIO_Process], [RADIO_SetFrame], [RADIO_GetState] and
    the static helpers [Transmit10], [SetReg], [GetReg], [DumpRegister]
    as functions over an explicit world (millisecond tick and SPI device)
    and proves properties of the state machine.

    Conventions.
    - C unsigned integers are [Z] values; the wrap-around of every
      addition the code performs is written out with [u32].
    - A pointer that the code compares with 0 is an [option]: [None] is
      the null pointer.
    - The SPI driver (SPI_CS_Enable, SPI_CS_Disable, SPI_WriteRead) and
      the frame capacity RADIO_FRAME_LENGTH are not part of radio.c; they
      are the fields of the [Platform] class.
    - Every register transaction is recorded as a [BusOp]; the list of
      operations a call performs is returned next to its result.
    - LOG(...) only prints; it is not modelled. *)

From Stdlib Require Import ZArith List Bool Lia.
Import ListNotations.
Open Scope Z_scope.

(** ** Constants of radio.c *)

Definition SPI_TIMEOUT : Z := 100.
Definition MAX_ADDR : Z := 0x50.

Definition SPI_READ : Z := 0.
Definition SPI_WRITE : Z := Z.shiftl 1 7.

Definition ADDR_PWRMODE : Z := 0x02.
Definition ADDR_XTALOSC : Z := 0x03.
Definition ADDR_FIFOCTRL : Z := 0x04.
Definition ADDR_FIFODATA : Z := 0x05.
Definition ADDR_MODULATION : Z := 0x10.
Definition ADDR_ENCODING : Z := 0x11.
Definition ADDR_FRAMING : Z := 0x12.
Definition ADDR_FREQ3 : Z := 0x20.
Definition ADDR_FREQ2 : Z := 0x21.
Definition ADDR_FREQ1 : Z := 0x22.
Definition ADDR_FREQ0 : Z := 0x23.
Definition ADDR_FSKDEV2 : Z := 0x25.
Definition ADDR_FSKDEV1 : Z := 0x26.
Definition ADDR_FSKDEV0 : Z := 0x27.
Definition ADDR_PLLLOOP : Z := 0x2C.
Definition ADDR_PLLRANGING : Z := 0x2D.
Definition ADDR_TXPWR : Z := 0x30.
Definition ADDR_TXRATEHI : Z := 0x31.
Definition ADDR_TXRATEMID : Z := 0x32.
Definition ADDR_TXRATELO : Z := 0x33.

Definition CONF_XTALOSC : Z := 0x18.
Definition CONF_MODULATION : Z := 0x06.
Definition CONF_ENCODING : Z := 0x00.
Definition CONF_FRAMING : Z := 0x00.
Definition CONF_FREQ3 : Z := 0x19.
Definition CONF_FREQ2 : Z := 0x60.
Definition CONF_FREQ1 : Z := 0xC8.
Definition CONF_FREQ0 : Z := 0xB5.
Definition CONF_TXPWR : Z := 0x0f.
Definition CONF_TXRATEHI : Z := 0x01.
Definition CONF_TXRATEMID : Z := 0x99.
Definition CONF_TXRATELO : Z := 0x9a.
Definition CONF_PLLRANGING : Z := 0x18.
Definition CONF_PLLLOOP : Z := 0x29.
Definition CONF_FSKDEV2 : Z := 0x00.
Definition CONF_FSKDEV1 : Z := 0x00.
Definition CONF_FSKDEV0 : Z := 0x00.

Definition MASK_PLLRANGING_START : Z := 0x10.
Definition MASK_PLLRANGING_ERROR : Z := 0x20.

Definition STATE_S3_FIFO_FULL : Z := Z.shiftl 1 3.

Definition PWRMODE_STANDBY : Z := 0x05.
Definition PWRMODE_SYNTHTX : Z := 0x0C.
Definition PWRMODE_FULLTX : Z := 0x0D.

Definition IQ_1 : Z := 0x369.
Definition IQ_0 : Z := 0x097.

Definition PREAMBLE_MSG : Z := 0x55.

Definition CONFIGURATION_DELAY : Z := 5.
Definition STARTUP_DELAY : Z := 1.
Definition PREAMBLE_DURATION : Z := 160.
Definition AR_INTERVAL : Z := 5 * 60 * 1000.

(** Value of a [uint32_t] expression. *)
Definition u32 (z : Z) : Z := z mod 2 ^ 32.

(** ** The platform radio.c is compiled against *)

(** The SPI driver and the frame capacity come from headers that are not
    part of radio.c.  [SPI_WriteRead spi tx timeout d] sends the byte
    [tx] and gives the byte received during the same transfer; like the
    code, the model takes the transfer to complete and to store the
    received byte. *)
Class Platform : Type := {
  SPI_Init_Struct : Type;
  Device : Type;
  SPI_CS_Enable : SPI_Init_Struct -> Device -> Device;
  SPI_CS_Disable : SPI_Init_Struct -> Device -> Device;
  SPI_WriteRead : SPI_Init_Struct -> Z -> Z -> Device -> Z * Device;
  RADIO_FRAME_LENGTH : Z
}.

(** Modelled from the spec: the enumeration RADIO_State is declared in
    radio.h, which is missing.  The constructors are the states radio.c
    names, listed in the order of the state table of the specification.
    Neither radio.c nor the specification gives the enumerators their
    integer values. *)
Inductive RADIO_State : Type :=
| RADIO_STATE_CONFIGURE
| RADIO_STATE_WAIT_CONF
| RADIO_STATE_IDLE
| RADIO_STATE_START_TX
| RADIO_STATE_WAIT_TX
| RADIO_STATE_WAIT_AR
| RADIO_STATE_PREAMBLE
| RADIO_STATE_FRAME
| RADIO_STATE_POSTAMBLE.

(** A number for each state, to compare two states as == does in C.
    These are not the integer values of the enumerators, which radio.h
    would give: only that different states have different numbers is
    used. *)
Definition RADIO_State_tag (s : RADIO_State) : Z :=
  match s with
  | RADIO_STATE_CONFIGURE => 0
  | RADIO_STATE_WAIT_CONF => 1
  | RADIO_STATE_IDLE => 2
  | RADIO_STATE_START_TX => 3
  | RADIO_STATE_WAIT_TX => 4
  | RADIO_STATE_WAIT_AR => 5
  | RADIO_STATE_PREAMBLE => 6
  | RADIO_STATE_FRAME => 7
  | RADIO_STATE_POSTAMBLE => 8
  end.

Definition RADIO_State_eqb (a b : RADIO_State) : bool :=
  RADIO_State_tag a =? RADIO_State_tag b.

(** A register transaction as seen on the bus: the address and value
    handed to [SetReg] with the status byte it returned, or the address
    handed to [GetReg] with the status byte and the value read. *)
Inductive BusOp : Type :=
| RegWrite (addr data status : Z)
| RegRead (addr status value : Z).

Section Radio.
Context {P : Platform}.

(** Modelled from the spec: the struct RADIO_Instance is declared in
    radio.h, which is missing.  The fields are those radio.c uses; the
    specification's data model gives their roles.  [idx] holds a
    deadline or a buffer position and [nextAR] a deadline, both compared
    with the 32-bit tick, so all three counters are taken as uint32_t. *)
Record RADIO_Instance : Type := mkInstance {
  spi : SPI_Init_Struct;
  state : RADIO_State;
  frame : list Z;
  idx : Z;
  len : Z;
  nextAR : Z
}.

Definition set_state (i : RADIO_Instance) (s : RADIO_State) :=
  mkInstance (spi i) s (frame i) (idx i) (len i) (nextAR i).
Definition set_idx (i : RADIO_Instance) (v : Z) :=
  mkInstance (spi i) (state i) (frame i) v (len i) (nextAR i).
Definition set_len (i : RADIO_Instance) (v : Z) :=
  mkInstance (spi i) (state i) (frame i) (idx i) v (nextAR i).
Definition set_nextAR (i : RADIO_Instance) (v : Z) :=
  mkInstance (spi i) (state i) (frame i) (idx i) (len i) v.
Definition set_frame (i : RADIO_Instance) (f : list Z) :=
  mkInstance (spi i) (state i) f (idx i) (len i) (nextAR i).
Definition set_spi (i : RADIO_Instance) (s : SPI_Init_Struct) :=
  mkInstance s (state i) (frame i) (idx i) (len i) (nextAR i).

(** *** World and the bus monad *)

(** What the driver sees outside its own instance: the millisecond
    counter behind HAL_GetTick and the device on the SPI bus.  SPI
    transfers act on the device; the tick is advanced by the host
    between two calls of [RADIO_Process]. *)
Record World : Type := mkWorld { tick : Z; dev : Device }.

Definition Bus (A : Type) : Type := World -> A * World * list BusOp.

Definition ret {A} (a : A) : Bus A := fun w => (a, w, []).

Definition bind {A B} (m : Bus A) (k : A -> Bus B) : Bus B := fun w =>
  let '(a, w1, l1) := m w in
  let '(b, w2, l2) := k a w1 in
  (b, w2, l1 ++ l2).

Definition emit (op : BusOp) : Bus unit := fun w => (tt, w, [op]).

Definition on_device {A} (f : Device -> A * Device) : Bus A := fun w =>
  let '(a, d) := f (dev w) in (a, mkWorld (tick w) d, []).

(** HAL_GetTick returns the uint32_t millisecond counter.  Bus transfers
    leave [tick] alone, so every HAL_GetTick() of one call of
    [RADIO_Process] reads the same value, the [now] of the
    specification. *)
Definition HAL_GetTick : Bus Z := fun w => (u32 (tick w), w, []).

End Radio.

Declare Scope bus_scope.
Delimit Scope bus_scope with bus.
Notation "x <- m ;; k" := (bind m (fun x => k))
  (at level 61, m at next level, right associativity) : bus_scope.
Notation "m ;; k" := (bind m (fun _ => k))
  (at level 61, right associativity) : bus_scope.
Open Scope bus_scope.

Section Driver.
Context {P : Platform}.

(** *** Register access *)

Definition SetReg (inst : RADIO_Instance) (addr data : Z) : Bus Z :=
  (* chip select -> 0 *)
  on_device (fun d => (tt, SPI_CS_Enable (spi inst) d)) ;;
  (* write address with write flag *)
  status <- on_device (SPI_WriteRead (spi inst)
              (Z.lor SPI_WRITE (Z.land addr 0x7F)) SPI_TIMEOUT) ;;
  (* write data *)
  tmp <- on_device (SPI_WriteRead (spi inst) data SPI_TIMEOUT) ;;
  (* chip select -> 1 *)
  on_device (fun d => (tt, SPI_CS_Disable (spi inst) d)) ;;
  emit (RegWrite addr data status) ;;
  ret status.

(** [GetReg] gives the status byte and the value stored through the
    [data] pointer. *)
Definition GetReg (inst : RADIO_Instance) (addr : Z) : Bus (Z * Z) :=
  on_device (fun d => (tt, SPI_CS_Enable (spi inst) d)) ;;
  status <- on_device (SPI_WriteRead (spi inst)
              (Z.lor SPI_READ (Z.land addr 0x7F)) SPI_TIMEOUT) ;;
  data <- on_device (SPI_WriteRead (spi inst) 0xff SPI_TIMEOUT) ;;
  on_device (fun d => (tt, SPI_CS_Disable (spi inst) d)) ;;
  emit (RegRead addr status data) ;;
  ret (status, data).

(** for (uint8_t i = 0; i <= MAX_ADDR; i++) GetReg(inst, i, &reg); *)
Fixpoint DumpRegister_from (inst : RADIO_Instance) (n : nat) (i : Z) : Bus unit :=
  match n with
  | O => ret tt
  | S n' => GetReg inst i ;; DumpRegister_from inst n' (i + 1)
  end.

Definition DumpRegister (inst : RADIO_Instance) : Bus unit :=
  DumpRegister_from inst (Z.to_nat (MAX_ADDR + 1)) 0.

(** *** Symbol encoder *)

Definition Transmit10 (inst : RADIO_Instance) (data : Z) : Bus Z :=
  let tx := if data =? 0 then IQ_0 else IQ_1 in
  r <- SetReg inst ADDR_FIFOCTRL (Z.shiftr tx 8) ;;
  (if Z.land r STATE_S3_FIFO_FULL =? 0
   then SetReg inst ADDR_FIFODATA (Z.land tx 0xFF) ;; ret tt
   else ret tt) ;;
  ret (if Z.land r STATE_S3_FIFO_FULL =? 0 then 1 else 0).

(** *** Public operations *)

Definition RADIO_Init (inst : option RADIO_Instance)
    (spi0 : option SPI_Init_Struct) : option RADIO_Instance :=
  match inst, spi0 with
  | Some i, Some s =>
      Some (set_state (set_len (set_idx (set_spi i s) 0) 0) RADIO_STATE_CONFIGURE)
  | _, _ => inst
  end.

(** inst->frame[i].  The code reads it only for i < len; the default 0
    stands for a read past the end of the buffer. *)
Definition frame_at (inst : RADIO_Instance) (i : Z) : Z :=
  nth (Z.to_nat i) (frame inst) 0.

(** while (inst->idx < inst->len && Transmit10(inst, inst->frame[inst->idx]))
      inst->idx++;
    Every iteration but the last raises [idx], so [len - idx]
    iterations are enough fuel (lemma [frame_loop_fuel]). *)
Fixpoint frame_loop (fuel : nat) (inst : RADIO_Instance) : Bus RADIO_Instance :=
  match fuel with
  | O => ret inst
  | S fuel' =>
      if idx inst <? len inst then
        ok <- Transmit10 inst (frame_at inst (idx inst)) ;;
        if ok =? 0 then ret inst
        else frame_loop fuel' (set_idx inst (u32 (idx inst + 1)))
      else ret inst
  end.

Definition Process_switch (inst : RADIO_Instance) : Bus RADIO_Instance :=
  match state inst with
  | RADIO_STATE_CONFIGURE =>
      SetReg inst ADDR_PWRMODE PWRMODE_STANDBY ;;
      now <- HAL_GetTick ;;
      let inst := set_idx inst (u32 (now + CONFIGURATION_DELAY)) in
      SetReg inst ADDR_XTALOSC CONF_XTALOSC ;;
      SetReg inst ADDR_PLLLOOP CONF_PLLLOOP ;;
      SetReg inst ADDR_FREQ3 CONF_FREQ3 ;;
      SetReg inst ADDR_FREQ2 CONF_FREQ2 ;;
      SetReg inst ADDR_FREQ1 CONF_FREQ1 ;;
      SetReg inst ADDR_FREQ0 CONF_FREQ0 ;;
      SetReg inst ADDR_TXPWR CONF_TXPWR ;;
      SetReg inst ADDR_FSKDEV2 CONF_FSKDEV2 ;;
      SetReg inst ADDR_FSKDEV1 CONF_FSKDEV1 ;;
      SetReg inst ADDR_FSKDEV0 CONF_FSKDEV0 ;;
      SetReg inst ADDR_TXRATEHI CONF_TXRATEHI ;;
      SetReg inst ADDR_TXRATEMID CONF_TXRATEMID ;;
      SetReg inst ADDR_TXRATELO CONF_TXRATELO ;;
      SetReg inst ADDR_MODULATION CONF_MODULATION ;;
      SetReg inst ADDR_ENCODING CONF_ENCODING ;;
      SetReg inst ADDR_FRAMING CONF_FRAMING ;;
      let inst := set_nextAR inst 0 in
      DumpRegister inst ;;
      ret (set_state inst RADIO_STATE_WAIT_CONF)
  | RADIO_STATE_WAIT_CONF =>
      now <- HAL_GetTick ;;
      if now >? idx inst then ret (set_state inst RADIO_STATE_IDLE)
      else ret inst
  | RADIO_STATE_START_TX =>
      SetReg inst ADDR_PWRMODE PWRMODE_SYNTHTX ;;
      now <- HAL_GetTick ;;
      let inst := set_idx inst (u32 (now + STARTUP_DELAY)) in
      ret (set_state inst RADIO_STATE_WAIT_TX)
  | RADIO_STATE_WAIT_TX =>
      now <- HAL_GetTick ;;
      if now >? idx inst then
        now <- HAL_GetTick ;;
        if now >? nextAR inst then
          SetReg inst ADDR_PWRMODE PWRMODE_FULLTX ;;
          now <- HAL_GetTick ;;
          let inst := set_idx inst (u32 (now + PREAMBLE_DURATION)) in
          ret (set_state inst RADIO_STATE_PREAMBLE)
        else
          SetReg inst ADDR_PLLRANGING CONF_PLLRANGING ;;
          ret (set_state inst RADIO_STATE_WAIT_AR)
      else ret inst
  | RADIO_STATE_WAIT_AR =>
      sr <- GetReg inst ADDR_PLLRANGING ;;
      let reg := snd sr in
      if negb (Z.land reg MASK_PLLRANGING_ERROR =? 0) then
        ret (set_state inst RADIO_STATE_CONFIGURE)
      else if Z.land reg MASK_PLLRANGING_START =? 0 then
        SetReg inst ADDR_PWRMODE PWRMODE_FULLTX ;;
        let inst := set_state inst RADIO_STATE_PREAMBLE in
        now <- HAL_GetTick ;;
        let inst := set_nextAR inst (u32 (now + AR_INTERVAL)) in
        now <- HAL_GetTick ;;
        let inst := set_idx inst (u32 (now + PREAMBLE_DURATION)) in
        ret inst
      else ret inst
  | RADIO_STATE_PREAMBLE =>
      now <- HAL_GetTick ;;
      if now <? idx inst then
        SetReg inst ADDR_FIFODATA PREAMBLE_MSG ;;
        ret inst
      else
        let inst := set_idx inst 0 in
        ret (set_state inst RADIO_STATE_FRAME)
  | RADIO_STATE_FRAME =>
      if idx inst >=? len inst then
        let inst := set_state inst RADIO_STATE_POSTAMBLE in
        ret (set_idx inst 0)
      else
        frame_loop (Z.to_nat (len inst - idx inst)) inst
  | RADIO_STATE_POSTAMBLE =>
      Transmit10 inst 0 ;;
      if idx inst =? 0 then
        ret (set_idx inst (u32 (idx inst + 1)))
      else
        SetReg inst ADDR_PWRMODE PWRMODE_STANDBY ;;
        let inst := set_state inst RADIO_STATE_IDLE in
        ret (set_idx inst 0)
  | RADIO_STATE_IDLE => ret inst
  end.

Definition RADIO_Process (inst : option RADIO_Instance) : Bus (option RADIO_Instance) :=
  match inst with
  | Some i => i' <- Process_switch i ;; ret (Some i')
  | None => ret None
  end.

(** memcpy(dst, src, n) on a destination buffer [dst]. *)
Definition memcpy (dst src : list Z) (n : Z) : list Z :=
  firstn (Z.to_nat n) src ++ skipn (Z.to_nat n) dst.

Definition RADIO_SetFrame (inst : option RADIO_Instance)
    (data : option (list Z)) (len0 : Z) : option RADIO_Instance :=
  match inst, data with
  | Some i, Some bytes =>
      if RADIO_State_eqb (state i) RADIO_STATE_IDLE
         && negb (len0 =? 0) && (len0 <? RADIO_FRAME_LENGTH)
      then
        let i := set_frame i (memcpy (frame i) bytes len0) in
        let i := set_len i len0 in
        let i := set_idx i 0 in
        Some (set_state i RADIO_STATE_START_TX)
      else inst
  | _, _ => inst
  end.

(** The result is the integer the function returns.  The integer
    values of the enumerators of RADIO_State are declared in radio.h,
    which is missing: [value] stands for them. *)
Definition RADIO_GetState (value : RADIO_State -> Z)
    (inst : option RADIO_Instance) : Z :=
  match inst with
  | Some i => value (state i)
  | None => 0
  end.

End Driver.

(** ** The host loop and a simulated transceiver *)

Section Host.
Context {P : Platform}.

(** One call of [RADIO_Process] on a live instance at tick [now]. *)
Definition poll (now : Z) (inst : RADIO_Instance) (d : Device)
    : RADIO_Instance * Device * list BusOp :=
  let '(r, w, ops) := RADIO_Process (Some inst) (mkWorld now d) in
  (match r with Some i => i | None => inst end, dev w, ops).

(** [n] polls of the host loop; poll number [k] runs at tick [clk k],
    and [elapse] is what happens to the device between two polls. *)
Fixpoint run (clk : nat -> Z) (elapse : Device -> Device) (n k : nat)
    (inst : RADIO_Instance) (d : Device)
    : RADIO_Instance * Device * list BusOp :=
  match n with
  | O => (inst, d, [])
  | S n' =>
      let '(i1, d1, l1) := poll (clk k) inst d in
      let '(i2, d2, l2) := run clk elapse n' (S k) i1 (elapse d1) in
      (i2, d2, l1 ++ l2)
  end.

(** What a host can do with a live instance, in any order: call
    [RADIO_Process] at some tick, call [RADIO_SetFrame], or let the
    device evolve on its own. *)
Inductive HostCall : Type :=
| HostProcess (now : Z)
| HostSetFrame (data : option (list Z)) (len0 : Z)
| HostElapse (f : Device -> Device).

Definition host_step (c : HostCall) (inst : RADIO_Instance) (d : Device)
    : RADIO_Instance * Device * list BusOp :=
  match c with
  | HostProcess now => poll now inst d
  | HostSetFrame data len0 =>
      (match RADIO_SetFrame (Some inst) data len0 with
       | Some i => i
       | None => inst
       end, d, [])
  | HostElapse f => (inst, f d, [])
  end.

Fixpoint host (calls : list HostCall) (inst : RADIO_Instance) (d : Device)
    : RADIO_Instance * Device * list BusOp :=
  match calls with
  | [] => (inst, d, [])
  | c :: cs =>
      let '(i1, d1, l1) := host_step c inst d in
      let '(i2, d2, l2) := host cs i1 d1 in
      (i2, d2, l1 ++ l2)
  end.

(** Projections of a bus trace. *)
Definition reg_writes (ops : list BusOp) : list (Z * Z) :=
  flat_map (fun op => match op with
                      | RegWrite a v _ => [(a, v)]
                      | RegRead _ _ _ => []
                      end) ops.

Definition writes_to (addr : Z) (ops : list BusOp) : list Z :=
  flat_map (fun op => match op with
                      | RegWrite a v _ => if a =? addr then [v] else []
                      | RegRead _ _ _ => []
                      end) ops.

End Host.

(** ** Views of the bus and of a run, used to state the properties *)

Section Views.
Context {P : Platform}.

(** Status byte and device after the two transfers of [SetReg]. *)
Definition reg_write (s : SPI_Init_Struct) (addr data : Z) (d : Device)
    : Z * Device :=
  let d1 := SPI_CS_Enable s d in
  let '(status, d2) :=
    SPI_WriteRead s (Z.lor SPI_WRITE (Z.land addr 0x7F)) SPI_TIMEOUT d1 in
  let '(_, d3) := SPI_WriteRead s data SPI_TIMEOUT d2 in
  (status, SPI_CS_Disable s d3).

(** Status byte, value read and device after the two transfers of
    [GetReg]. *)
Definition reg_read (s : SPI_Init_Struct) (addr : Z) (d : Device)
    : Z * Z * Device :=
  let d1 := SPI_CS_Enable s d in
  let '(status, d2) :=
    SPI_WriteRead s (Z.lor SPI_READ (Z.land addr 0x7F)) SPI_TIMEOUT d1 in
  let '(data, d3) := SPI_WriteRead s 0xff SPI_TIMEOUT d2 in
  (status, data, SPI_CS_Disable s d3).

(** The 10-bit symbol [Transmit10] selects for its argument. *)
Definition symbol (data : Z) : Z := if data =? 0 then IQ_0 else IQ_1.

Definition fifo_full (status : Z) : bool :=
  negb (Z.land status STATE_S3_FIFO_FULL =? 0).

(** World, status byte and trace entry of one [SetReg]. *)
Definition after_write (inst : RADIO_Instance) (addr data : Z) (w : World) : World :=
  mkWorld (tick w) (snd (reg_write (spi inst) addr data (dev w))).

Definition write_status (inst : RADIO_Instance) (addr data : Z) (w : World) : Z :=
  fst (reg_write (spi inst) addr data (dev w)).

Definition write_op (inst : RADIO_Instance) (addr data : Z) (w : World) : BusOp :=
  RegWrite addr data (write_status inst addr data w).

(** World, value read and trace entry of one [GetReg]. *)
Definition after_read (inst : RADIO_Instance) (addr : Z) (w : World) : World :=
  mkWorld (tick w) (snd (reg_read (spi inst) addr (dev w))).

Definition read_value (inst : RADIO_Instance) (addr : Z) (w : World) : Z :=
  snd (fst (reg_read (spi inst) addr (dev w))).

Definition read_op (inst : RADIO_Instance) (addr : Z) (w : World) : BusOp :=
  RegRead addr (fst (fst (reg_read (spi inst) addr (dev w)))) (read_value inst addr w).

(** The request [RADIO_SetFrame] accepts. *)
Definition accepted (inst : option RADIO_Instance) (data : option (list Z))
    (len0 : Z) : Prop :=
  exists i bytes,
    inst = Some i /\ data = Some bytes /\
    state i = RADIO_STATE_IDLE /\ 0 < len0 < RADIO_FRAME_LENGTH.

(** [op] put in front of the trace of a result. *)
Definition cons_op {A} (op : BusOp) (r : A * World * list BusOp)
    : A * World * list BusOp :=
  let '(a, w, l) := r in (a, w, op :: l).

Definition sym_hi (b : Z) : Z := Z.shiftr (symbol b) 8.

Definition sym_lo (b : Z) : Z := Z.land (symbol b) 0xFF.

(** Trace of one [Transmit10 b] that the FIFO took: the high byte,
    answered with a status whose FIFO-full flag is clear, then the low
    byte. *)
Definition sym_accept (b : Z) (ops : list BusOp) : Prop :=
  exists st st2,
    fifo_full st = false /\
    ops = [RegWrite ADDR_FIFOCTRL (sym_hi b) st;
           RegWrite ADDR_FIFODATA (sym_lo b) st2].

(** Trace of one [Transmit10 b] that the FIFO refused: the high byte,
    answered with FIFO-full, and nothing else. *)
Definition sym_reject (b : Z) (ops : list BusOp) : Prop :=
  exists st,
    fifo_full st = true /\ ops = [RegWrite ADDR_FIFOCTRL (sym_hi b) st].

(** Trace of one [Transmit10 b], taken or refused. *)
Definition sym_attempt (b : Z) (ops : list BusOp) : Prop :=
  sym_accept b ops \/ sym_reject b ops.

(** [sent bs ops]: [ops] pushes the symbols of the bytes [bs], one
    symbol per byte, in order, each taken at once. *)
Inductive sent : list Z -> list BusOp -> Prop :=
| sent_nil : sent [] []
| sent_cons b bs o t :
    sym_accept b o -> sent bs t -> sent (b :: bs) (o ++ t).

(** [frame_trace bs ops]: [ops] pushes the symbols of [bs], one symbol
    per byte, in order; a refused symbol is tried again, and the next
    byte is not started before the current one is taken. *)
Inductive frame_trace : list Z -> list BusOp -> Prop :=
| ft_nil : frame_trace [] []
| ft_reject b bs o t :
    sym_reject b o -> frame_trace (b :: bs) t -> frame_trace (b :: bs) (o ++ t)
| ft_accept b bs o t :
    sym_accept b o -> frame_trace bs t -> frame_trace (b :: bs) (o ++ t).

(** The bytes frame[from], ..., frame[from + n - 1]. *)
Definition frame_slice (inst : RADIO_Instance) (from : Z) (n : nat) : list Z :=
  map (fun j => frame_at inst (from + Z.of_nat j)) (seq 0 n).

(** The configuration [RADIO_Process] writes in the state CONFIGURE, in
    the order of the code. *)
Definition CONFIGURATION : list (Z * Z) :=
  [ (ADDR_PWRMODE, PWRMODE_STANDBY);
    (ADDR_XTALOSC, CONF_XTALOSC);
    (ADDR_PLLLOOP, CONF_PLLLOOP);
    (ADDR_FREQ3, CONF_FREQ3);
    (ADDR_FREQ2, CONF_FREQ2);
    (ADDR_FREQ1, CONF_FREQ1);
    (ADDR_FREQ0, CONF_FREQ0);
    (ADDR_TXPWR, CONF_TXPWR);
    (ADDR_FSKDEV2, CONF_FSKDEV2);
    (ADDR_FSKDEV1, CONF_FSKDEV1);
    (ADDR_FSKDEV0, CONF_FSKDEV0);
    (ADDR_TXRATEHI, CONF_TXRATEHI);
    (ADDR_TXRATEMID, CONF_TXRATEMID);
    (ADDR_TXRATELO, CONF_TXRATELO);
    (ADDR_MODULATION, CONF_MODULATION);
    (ADDR_ENCODING, CONF_ENCODING);
    (ADDR_FRAMING, CONF_FRAMING) ].

(** What holds of an instance all along a run that starts with
    RADIO_Init: it is never waiting for an auto-ranging, and once the
    configuration has been written its auto-range deadline is 0. *)
Definition never_ranges (inst : RADIO_Instance) : Prop :=
  state inst <> RADIO_STATE_WAIT_AR /\
  (state inst = RADIO_STATE_CONFIGURE \/ nextAR inst = 0) /\
  (state inst = RADIO_STATE_WAIT_TX -> 0 <= idx inst).

(** [is_write a v op]: [op] is a write of [v] to the register [a]. *)
Definition is_write (a v : Z) (op : BusOp) : Prop :=
  exists st, op = RegWrite a v st.

(** The tick the driver reads at poll [k]. *)
Definition tick_at (clk : nat -> Z) (k : nat) : Z := u32 (clk k).

(** The device as it is when the driver comes back to a symbol that
    the FIFO has just refused. *)
Definition retry (elapse : Device -> Device) (s : SPI_Init_Struct)
    (hi : Z) (d : Device) : Device :=
  elapse (snd (reg_write s ADDR_FIFOCTRL hi d)).

(** Back-pressure ends: a symbol that is offered again at every poll is
    taken after finitely many polls. *)
Definition fifo_relents (elapse : Device -> Device)
    (s : SPI_Init_Struct) : Prop :=
  forall (hi : Z) (d : Device),
    exists m : nat,
      fifo_full (fst (reg_write s ADDR_FIFOCTRL hi
                        (Nat.iter m (retry elapse s hi) d))) = false.

(** The high bytes of the symbols the FIFO took, in order: every symbol
    of the encoder starts with one write of the FIFO-control register,
    and the FIFO takes the symbol when the status of that write has the
    FIFO-full flag clear. *)
Definition symbols_taken (ops : list BusOp) : list Z :=
  flat_map (fun op => match op with
                      | RegWrite a v st =>
                          if (a =? ADDR_FIFOCTRL) && negb (fifo_full st)
                          then [v] else []
                      | RegRead _ _ _ => []
                      end) ops.

(** C3 in the words of the specification: what the FIFO takes during a
    transmission of [n] bytes is preamble symbols, then 8 symbols for
    each frame byte, then one terminating zero symbol. *)
Definition spec_transmission_symbols (n : Z) (ops : list BusOp) : Prop :=
  exists pre frm : list Z,
    symbols_taken ops = pre ++ frm ++ [sym_hi 0] /\
    length frm = (8 * Z.to_nat n)%nat.

(** C9 in the words of the specification: a PREAMBLE call before the
    deadline pushes the preamble byte through the symbol encoder as 8
    symbol attempts, each of them one write of the FIFO-control
    register. *)
Definition spec_preamble_attempts (ops : list BusOp) : Prop :=
  length (writes_to ADDR_FIFOCTRL ops) = 8%nat.

End Views.

(** A transceiver simulated at the level of SPI transfers: a transmit
    FIFO of [capacity] words that reports FIFO-full in the status byte,
    and a PLL-ranging register.  It is the concrete platform on which the
    theorems below are instantiated. *)
Module Sim.

(** Words the simulated transmit FIFO holds. *)
Definition capacity : nat := 2.

Record SimDevice : Type := mkSim {
  pending : option Z;   (* address byte of the transaction under way *)
  level : nat;          (* words waiting in the transmit FIFO *)
  pushed : list Z;      (* every word the FIFO has taken, oldest first *)
  ranging : Z;          (* content of the PLL-ranging register *)
  ranging_fails : bool  (* the PLL never locks *)
}.

Definition status_byte (d : SimDevice) : Z :=
  if (capacity <=? level d)%nat then STATE_S3_FIFO_FULL else 0.

Definition select (d : SimDevice) : SimDevice :=
  mkSim None (level d) (pushed d) (ranging d) (ranging_fails d).

Definition transfer (tx : Z) (d : SimDevice) : Z * SimDevice :=
  match pending d with
  | None =>
      (status_byte d,
       mkSim (Some tx) (level d) (pushed d) (ranging d) (ranging_fails d))
  | Some a =>
      if a =? Z.lor SPI_WRITE ADDR_FIFODATA then
        if (level d <? capacity)%nat
        then (0, mkSim None (S (level d)) (pushed d ++ [tx])
                       (ranging d) (ranging_fails d))
        else (0, select d)
      else if a =? Z.lor SPI_WRITE ADDR_PLLRANGING then
        (0, mkSim None (level d) (pushed d)
                  (if ranging_fails d
                   then Z.lor (Z.land tx 0x0F) MASK_PLLRANGING_ERROR
                   else Z.land tx 0x0F)
                  (ranging_fails d))
      else if a =? Z.lor SPI_READ ADDR_PLLRANGING then
        (ranging d, select d)
      else (0, select d)
  end.

(** Between two polls the radio sends one word of its FIFO. *)
Definition drain (d : SimDevice) : SimDevice :=
  mkSim (pending d) (Nat.pred (level d)) (pushed d)
        (ranging d) (ranging_fails d).

#[export] Instance platform : Platform := {|
  SPI_Init_Struct := unit;
  Device := SimDevice;
  SPI_CS_Enable := fun _ d => select d;
  SPI_CS_Disable := fun _ d => select d;
  SPI_WriteRead := fun _ tx _ d => transfer tx d;
  RADIO_FRAME_LENGTH := 64
|}.

(** An empty FIFO; the PLL-ranging register holds [r]. *)
Definition fresh (r : Z) : SimDevice := mkSim None 0 [] r false.

(** An instance as it is before RADIO_Init: arbitrary memory. *)
Definition blank : RADIO_Instance :=
  mkInstance tt RADIO_STATE_POSTAMBLE (repeat 0xEE 64) 7 9 123456.

(** An instance in the state [s] with cursor [i], the frame [f] of
    length [n] in its buffer and the auto-range deadline [ar]. *)
Definition inst_in (s : RADIO_State) (f : list Z) (i n ar : Z) : RADIO_Instance :=
  mkInstance tt s f i n ar.

(** The world at tick [t] with the device [d]. *)
Definition world (t : Z) (d : SimDevice) : World := mkWorld t d.

(** Instances and devices on which the theorems are instantiated. *)
Definition waiting_tx : RADIO_Instance := inst_in RADIO_STATE_WAIT_TX [] 5 0 1000.
Definition waiting_ar : RADIO_Instance := inst_in RADIO_STATE_WAIT_AR [] 0 0 0.
Definition in_preamble : RADIO_Instance := inst_in RADIO_STATE_PREAMBLE [] 260 0 0.
Definition in_frame : RADIO_Instance := inst_in RADIO_STATE_FRAME [1; 0; 7] 0 3 0.
Definition configuring : RADIO_Instance := inst_in RADIO_STATE_CONFIGURE [] 3 4 5.
Definition idle : RADIO_Instance := inst_in RADIO_STATE_IDLE (repeat 0 64) 0 0 0.
Definition one_byte : RADIO_Instance :=
  inst_in RADIO_STATE_START_TX (0xFF :: repeat 0 63) 0 1 0.
Definition failed_pll : SimDevice := mkSim None 0 [] MASK_PLLRANGING_ERROR true.

(** A host that polls every 100 ms. *)
Definition every_100ms (k : nat) : Z := 100 * Z.of_nat k.

End Sim.

(** ** Further views: the state graph, the SPI wire, bounds *)

(** The moves of the state machine: [may_step a b] is true when the
    switch of RADIO_Process has a path from the case [a] that ends with
    the state [b]. *)
Definition may_step (a b : RADIO_State) : bool :=
  match a, b with
  | RADIO_STATE_CONFIGURE, RADIO_STATE_WAIT_CONF
  | RADIO_STATE_WAIT_CONF, RADIO_STATE_WAIT_CONF
  | RADIO_STATE_WAIT_CONF, RADIO_STATE_IDLE
  | RADIO_STATE_IDLE, RADIO_STATE_IDLE
  | RADIO_STATE_START_TX, RADIO_STATE_WAIT_TX
  | RADIO_STATE_WAIT_TX, RADIO_STATE_WAIT_TX
  | RADIO_STATE_WAIT_TX, RADIO_STATE_WAIT_AR
  | RADIO_STATE_WAIT_TX, RADIO_STATE_PREAMBLE
  | RADIO_STATE_WAIT_AR, RADIO_STATE_WAIT_AR
  | RADIO_STATE_WAIT_AR, RADIO_STATE_CONFIGURE
  | RADIO_STATE_WAIT_AR, RADIO_STATE_PREAMBLE
  | RADIO_STATE_PREAMBLE, RADIO_STATE_PREAMBLE
  | RADIO_STATE_PREAMBLE, RADIO_STATE_FRAME
  | RADIO_STATE_FRAME, RADIO_STATE_FRAME
  | RADIO_STATE_FRAME, RADIO_STATE_POSTAMBLE
  | RADIO_STATE_POSTAMBLE, RADIO_STATE_POSTAMBLE
  | RADIO_STATE_POSTAMBLE, RADIO_STATE_IDLE => true
  | _, _ => false
  end.

(** What the SPI driver is asked to do, call by call. *)
Inductive SpiEvent : Type :=
| CsEnable
| CsDisable
| Transfer (tx timeout : Z).

(** The SPI calls of one register transaction: chip select, the address
    byte with its read/write flag, the data byte (0xff for a read), chip
    deselect. *)
Definition spi_frame (op : BusOp) : list SpiEvent :=
  match op with
  | RegWrite addr data _ =>
      [CsEnable; Transfer (SPI_WRITE + addr mod 128) SPI_TIMEOUT;
       Transfer data SPI_TIMEOUT; CsDisable]
  | RegRead addr _ _ =>
      [CsEnable; Transfer (addr mod 128) SPI_TIMEOUT;
       Transfer 0xff SPI_TIMEOUT; CsDisable]
  end.

(** The register a bus operation names. *)
Definition op_addr (op : BusOp) : Z :=
  match op with
  | RegWrite a _ _ => a
  | RegRead a _ _ => a
  end.

(** A platform that behaves as [B] and keeps the list of the calls made
    to its SPI driver. *)
Definition Recorder (B : Platform) : Platform := {|
  SPI_Init_Struct := @SPI_Init_Struct B;
  Device := (@Device B * list SpiEvent)%type;
  SPI_CS_Enable := fun s d => (@SPI_CS_Enable B s (fst d), snd d ++ [CsEnable]);
  SPI_CS_Disable := fun s d => (@SPI_CS_Disable B s (fst d), snd d ++ [CsDisable]);
  SPI_WriteRead := fun s tx timeout d =>
    (fst (@SPI_WriteRead B s tx timeout (fst d)),
     (snd (@SPI_WriteRead B s tx timeout (fst d)), snd d ++ [Transfer tx timeout]));
  RADIO_FRAME_LENGTH := @RADIO_FRAME_LENGTH B
|}.

(** The calls recorded so far. *)
Definition wire {B : Platform} (w : @World (Recorder B)) : list SpiEvent :=
  snd (@dev (Recorder B) w).

(** [framed m]: whatever [m] does on the SPI bus is the transactions of
    the bus operations it reports, one after the other. *)
Definition framed {B : Platform} {A : Type} (m : @Bus (Recorder B) A) : Prop :=
  forall w : @World (Recorder B),
    wire (snd (fst (m w))) = wire w ++ flat_map spi_frame (snd (m w)).

(** The operands of a bus operation fit the device and the bus: the
    address is in the register map, 0 to MAX_ADDR, and a value written is
    a byte. *)
Definition byte_operands (op : BusOp) : Prop :=
  0 <= op_addr op <= MAX_ADDR /\
  match op with
  | RegWrite _ v _ => 0 <= v < 256
  | RegRead _ _ _ => True
  end.

Section MoreViews.
Context {P : Platform}.

(** [ops_all Q m]: every bus operation [m] makes satisfies [Q]. *)
Definition ops_all (Q : BusOp -> Prop) {A : Type} (m : Bus A) : Prop :=
  forall w : World, Forall Q (snd (m w)).

(** Most bus operations one call of RADIO_Process can make on [inst]. *)
Definition ops_bound (inst : RADIO_Instance) : nat :=
  match state inst with
  | RADIO_STATE_CONFIGURE => 17 + Z.to_nat (MAX_ADDR + 1)
  | RADIO_STATE_FRAME => 2 * Z.to_nat (len inst - idx inst)
  | RADIO_STATE_POSTAMBLE => 3
  | RADIO_STATE_WAIT_AR => 2
  | RADIO_STATE_IDLE | RADIO_STATE_WAIT_CONF => 0
  | _ => 1
  end.

(** The length is a frame length RADIO_SetFrame can have stored, and the
    cursor is a uint32_t that has not run past the frame while the frame
    is being sent. *)
Definition in_bounds (inst : RADIO_Instance) : Prop :=
  (len inst = 0 \/ 0 < len inst < RADIO_FRAME_LENGTH) /\
  len inst < 2 ^ 16 /\
  0 <= idx inst < 2 ^ 32 /\
  (state inst = RADIO_STATE_FRAME -> idx inst <= len inst).

(** The length of a RADIO_SetFrame call is a uint16_t. *)
Definition uint16_call (c : HostCall) : Prop :=
  match c with
  | HostSetFrame _ len0 => 0 <= len0 < 2 ^ 16
  | _ => True
  end.

(** Two instances that differ at most in their frame buffers, which have
    zero bytes at the same places. *)
Definition same_zero_pattern (i1 i2 : RADIO_Instance) : Prop :=
  spi i1 = spi i2 /\ state i1 = state i2 /\ idx i1 = idx i2 /\
  len i1 = len i2 /\ nextAR i1 = nextAR i2 /\
  forall j : Z, (frame_at i1 j =? 0) = (frame_at i2 j =? 0).

(** The device as it is when the driver comes back to the PLL-ranging
    register at the next poll. *)
Definition reread (elapse : Device -> Device) (s : SPI_Init_Struct)
    (d : Device) : Device :=
  elapse (snd (reg_read s ADDR_PLLRANGING d)).

(** The value the driver reads from the PLL-ranging register. *)
Definition ranging_value (s : SPI_Init_Struct) (d : Device) : Z :=
  snd (fst (reg_read s ADDR_PLLRANGING d)).

End MoreViews.

(** More inputs on the simulated transceiver. *)
Module SimMore.

(** A FIFO that holds [n] words. *)
Definition filled (n : nat) : Sim.SimDevice := Sim.mkSim None n [] 0 false.

(** A PLL-ranging register that holds [r]. *)
Definition pll (r : Z) : Sim.SimDevice := Sim.mkSim None 0 [] r false.

Definition in_postamble : RADIO_Instance :=
  Sim.inst_in RADIO_STATE_POSTAMBLE [1; 0; 7] 0 3 0.

(** An instance in WAIT_AR that holds the frame 1, 0, 7 to send, with
    the start-up deadline 201 in the cursor. *)
Definition ranging_a_frame : RADIO_Instance :=
  Sim.inst_in RADIO_STATE_WAIT_AR [1; 0; 7] 201 3 60000.

(** The frame of [Sim.in_frame] with other non-zero bytes. *)
Definition in_frame_other : RADIO_Instance :=
  Sim.inst_in RADIO_STATE_FRAME [0xFF; 0; 0x80] 0 3 0.

(** A host that polls every millisecond, from tick 0. *)
Definition every_ms (k : nat) : Z := Z.of_nat k.

(** A host whose first poll is at tick 2^32 - 6 and that polls every
    100 ms. *)
Definition late_clock (k : nat) : Z := 2 ^ 32 - 6 + 100 * Z.of_nat k.

(** Between two polls the PLL finishes its ranging. *)
Definition finish_ranging (d : Sim.SimDevice) : Sim.SimDevice :=
  Sim.mkSim (Sim.pending d) (Sim.level d) (Sim.pushed d) 0 (Sim.ranging_fails d).

(** A host that boots, submits a frame and polls on. *)
Definition some_calls : list (HostCall (P := Sim.platform)) :=
  [HostProcess (P := Sim.platform) 0; HostProcess 100;
   HostSetFrame (Some [1; 0; 7]) 3; HostProcess 200; HostProcess 300;
   HostElapse (P := Sim.platform) Sim.drain; HostProcess 500;
   HostSetFrame (Some [4]) 1; HostProcess 501].

(** For every move of the state graph, an instance and a world on which
    one call makes it. *)
Definition edge_case (a b : RADIO_State) : RADIO_Instance * World :=
  match a, b with
  | RADIO_STATE_WAIT_CONF, RADIO_STATE_IDLE =>
      (Sim.inst_in a [] 5 0 0, Sim.world 9 (Sim.fresh 0))
  | RADIO_STATE_WAIT_TX, RADIO_STATE_WAIT_AR =>
      (Sim.inst_in a [] 5 0 1000, Sim.world 9 (Sim.fresh 0))
  | RADIO_STATE_WAIT_TX, RADIO_STATE_PREAMBLE =>
      (Sim.inst_in a [] 5 0 0, Sim.world 9 (Sim.fresh 0))
  | RADIO_STATE_WAIT_AR, RADIO_STATE_WAIT_AR =>
      (Sim.inst_in a [] 0 0 0, Sim.world 9 (pll MASK_PLLRANGING_START))
  | RADIO_STATE_WAIT_AR, RADIO_STATE_CONFIGURE =>
      (Sim.inst_in a [] 0 0 0, Sim.world 9 (pll MASK_PLLRANGING_ERROR))
  | RADIO_STATE_PREAMBLE, RADIO_STATE_FRAME =>
      (Sim.inst_in a [] 5 0 0, Sim.world 9 (Sim.fresh 0))
  | RADIO_STATE_FRAME, RADIO_STATE_FRAME =>
      (Sim.inst_in a [1; 0; 7] 0 3 0, Sim.world 9 (Sim.fresh 0))
  | RADIO_STATE_FRAME, RADIO_STATE_POSTAMBLE =>
      (Sim.inst_in a [1; 0; 7] 3 3 0, Sim.world 9 (Sim.fresh 0))
  | RADIO_STATE_POSTAMBLE, RADIO_STATE_POSTAMBLE =>
      (Sim.inst_in a [1; 0; 7] 0 3 0, Sim.world 9 (Sim.fresh 0))
  | RADIO_STATE_POSTAMBLE, RADIO_STATE_IDLE =>
      (Sim.inst_in a [1; 0; 7] 1 3 0, Sim.world 9 (Sim.fresh 0))
  | _, _ => (Sim.inst_in a [] 100 0 0, Sim.world 9 (Sim.fresh 0))
  end.

End SimMore.

(** * Properties *)

(** ** Register transactions seen from the device *)

Section DeviceView.
Context {P : Platform}.

Lemma SetReg_eq (inst : RADIO_Instance) (addr data : Z) (w : World) :
  SetReg inst addr data w =
    (fst (reg_write (spi inst) addr data (dev w)),
     mkWorld (tick w) (snd (reg_write (spi inst) addr data (dev w))),
     [RegWrite addr data (fst (reg_write (spi inst) addr data (dev w)))]).
Proof.
  unfold SetReg, reg_write, bind, ret, emit, on_device; simpl.
  destruct (SPI_WriteRead _ _ _ _) as [status d2]; simpl.
  destruct (SPI_WriteRead _ _ _ _) as [tmp d3]; reflexivity.
Qed.

Lemma GetReg_eq (inst : RADIO_Instance) (addr : Z) (w : World) :
  GetReg inst addr w =
    (fst (reg_read (spi inst) addr (dev w)),
     mkWorld (tick w) (snd (reg_read (spi inst) addr (dev w))),
     [RegRead addr (fst (fst (reg_read (spi inst) addr (dev w))))
                   (snd (fst (reg_read (spi inst) addr (dev w))))]).
Proof.
  unfold GetReg, reg_read, bind, ret, emit, on_device; simpl.
  destruct (SPI_WriteRead _ _ _ _) as [status d2]; simpl.
  destruct (SPI_WriteRead _ _ _ _) as [data d3]; reflexivity.
Qed.

Lemma Transmit10_eq (inst : RADIO_Instance) (data : Z) (w : World) :
  Transmit10 inst data w =
    let hi := Z.shiftr (symbol data) 8 in
    let lo := Z.land (symbol data) 0xFF in
    let r1 := reg_write (spi inst) ADDR_FIFOCTRL hi (dev w) in
    if fifo_full (fst r1)
    then (0, mkWorld (tick w) (snd r1), [RegWrite ADDR_FIFOCTRL hi (fst r1)])
    else
      let r2 := reg_write (spi inst) ADDR_FIFODATA lo (snd r1) in
      (1, mkWorld (tick w) (snd r2),
       [RegWrite ADDR_FIFOCTRL hi (fst r1); RegWrite ADDR_FIFODATA lo (fst r2)]).
Proof.
  unfold Transmit10, symbol, fifo_full.
  unfold bind at 1. rewrite SetReg_eq.
  destruct (Z.land _ STATE_S3_FIFO_FULL =? 0) eqn:E; simpl.
  - unfold bind, ret. rewrite SetReg_eq. reflexivity.
  - reflexivity.
Qed.

End DeviceView.

(** ** One call at a time *)

Section Steps.
Context {P : Platform}.

Lemma SetReg_step inst addr data w :
  SetReg inst addr data w =
    (write_status inst addr data w, after_write inst addr data w,
     [write_op inst addr data w]).
Proof. apply SetReg_eq. Qed.

Lemma GetReg_step inst addr w :
  GetReg inst addr w =
    (fst (reg_read (spi inst) addr (dev w)), after_read inst addr w,
     [read_op inst addr w]).
Proof. apply GetReg_eq. Qed.

Lemma Transmit10_step inst data w :
  Transmit10 inst data w =
    let hi := Z.shiftr (symbol data) 8 in
    let lo := Z.land (symbol data) 0xFF in
    if fifo_full (write_status inst ADDR_FIFOCTRL hi w)
    then (0, after_write inst ADDR_FIFOCTRL hi w,
          [write_op inst ADDR_FIFOCTRL hi w])
    else (1, after_write inst ADDR_FIFODATA lo (after_write inst ADDR_FIFOCTRL hi w),
          [write_op inst ADDR_FIFOCTRL hi w;
           write_op inst ADDR_FIFODATA lo (after_write inst ADDR_FIFOCTRL hi w)]).
Proof. rewrite Transmit10_eq. reflexivity. Qed.

(** C5.  [Transmit10] sends the fixed symbol IQ_0 for the bit 0 and the
    different fixed symbol IQ_1 for the bit 1, both 10 bits wide.  It
    always writes the high byte of the symbol to the FIFO-control
    register.  When the FIFO-full flag of the status byte returned by
    that write is clear, it then writes the low byte to the FIFO-data
    register and returns 1; when the flag is set it writes nothing more
    and returns 0. *)
Theorem Transmit10_symbol_and_backpressure (inst : RADIO_Instance) (w : World) :
  symbol 0 = IQ_0 /\ symbol 1 = IQ_1 /\ IQ_0 <> IQ_1 /\
  0 <= IQ_0 < 2 ^ 10 /\ 0 <= IQ_1 < 2 ^ 10 /\
  forall bit : Z,
    let hi := Z.shiftr (symbol bit) 8 in
    let lo := Z.land (symbol bit) 0xFF in
    let status := write_status inst ADDR_FIFOCTRL hi w in
    let w1 := after_write inst ADDR_FIFOCTRL hi w in
    (Z.land status STATE_S3_FIFO_FULL = 0 ->
       Transmit10 inst bit w =
         (1, after_write inst ADDR_FIFODATA lo w1,
          [RegWrite ADDR_FIFOCTRL hi status; write_op inst ADDR_FIFODATA lo w1])) /\
    (Z.land status STATE_S3_FIFO_FULL <> 0 ->
       Transmit10 inst bit w = (0, w1, [RegWrite ADDR_FIFOCTRL hi status])).
Proof.
  split; [reflexivity|]. split; [reflexivity|].
  split; [vm_compute; congruence|].
  split; [vm_compute; split; congruence|].
  split; [vm_compute; split; congruence|].
  intros bit hi lo status w1.
  split; intros Hflag; rewrite Transmit10_step; unfold fifo_full; cbv zeta;
    subst status hi lo w1.
  - rewrite Hflag. reflexivity.
  - destruct (Z.eqb_spec
      (Z.land (write_status inst ADDR_FIFOCTRL (Z.shiftr (symbol bit) 8) w)
              STATE_S3_FIFO_FULL) 0) as [E|E]; [contradiction|reflexivity].
Qed.

Lemma RADIO_State_eqb_eq (a b : RADIO_State) :
  RADIO_State_eqb a b = true <-> a = b.
Proof.
  unfold RADIO_State_eqb. rewrite Z.eqb_eq. split.
  - destruct a, b; simpl; intros H; congruence || discriminate H.
  - intros ->. reflexivity.
Qed.

(** C4.  For a uint16_t length, [RADIO_SetFrame] changes the instance
    exactly when the instance is live and IDLE, the data pointer is not
    null and 0 < length < RADIO_FRAME_LENGTH.  It then copies [length]
    bytes to the start of the frame buffer, stores the length, sets the
    cursor to 0 and enters START_TX.  In every other case the instance,
    with its frame buffer, length, cursor and state, is returned as it
    was (a null instance stays null). *)
Theorem SetFrame_accepts_iff (inst : option RADIO_Instance)
    (data : option (list Z)) (len0 : Z) :
  0 <= len0 < 2 ^ 16 ->
  (RADIO_SetFrame inst data len0 <> inst <-> accepted inst data len0) /\
  (forall i bytes,
     inst = Some i -> data = Some bytes ->
     state i = RADIO_STATE_IDLE -> 0 < len0 < RADIO_FRAME_LENGTH ->
     RADIO_SetFrame inst data len0 =
       Some (mkInstance (spi i) RADIO_STATE_START_TX
               (firstn (Z.to_nat len0) bytes ++ skipn (Z.to_nat len0) (frame i))
               0 len0 (nextAR i))) /\
  (~ accepted inst data len0 -> RADIO_SetFrame inst data len0 = inst).
Proof.
  intros Hlen.
  assert (Hacc : forall i bytes,
     inst = Some i -> data = Some bytes ->
     state i = RADIO_STATE_IDLE -> 0 < len0 < RADIO_FRAME_LENGTH ->
     RADIO_SetFrame inst data len0 =
       Some (mkInstance (spi i) RADIO_STATE_START_TX
               (firstn (Z.to_nat len0) bytes ++ skipn (Z.to_nat len0) (frame i))
               0 len0 (nextAR i))).
  { intros i bytes -> -> Hst Hr. unfold RADIO_SetFrame. rewrite Hst.
    replace (len0 =? 0) with false by (symmetry; apply Z.eqb_neq; lia).
    replace (len0 <? RADIO_FRAME_LENGTH) with true by (symmetry; apply Z.ltb_lt; lia).
    reflexivity. }
  assert (Hrej : ~ accepted inst data len0 -> RADIO_SetFrame inst data len0 = inst).
  { intros Hn. unfold RADIO_SetFrame.
    destruct inst as [i|]; [|reflexivity].
    destruct data as [bytes|]; [|reflexivity].
    destruct (RADIO_State_eqb (state i) RADIO_STATE_IDLE) eqn:Es; [|reflexivity].
    destruct (Z.eqb_spec len0 0) as [|Hz]; [reflexivity|].
    destruct (Z.ltb_spec len0 RADIO_FRAME_LENGTH) as [Hlt|]; [|reflexivity].
    exfalso. apply Hn. exists i, bytes. apply RADIO_State_eqb_eq in Es.
    repeat split; auto; lia. }
  split; [|split]; auto.
  split.
  - intros Hne.
    destruct inst as [i|]; [|exfalso; apply Hne; reflexivity].
    destruct data as [bytes|];
      [|exfalso; apply Hne; reflexivity].
    destruct (RADIO_State_eqb (state i) RADIO_STATE_IDLE) eqn:Es;
      [|exfalso; apply Hne; unfold RADIO_SetFrame; rewrite Es; reflexivity].
    destruct (Z.eqb_spec len0 0) as [Hz|Hz];
      [exfalso; apply Hne; unfold RADIO_SetFrame; rewrite Es;
       replace (len0 =? 0) with true by (symmetry; apply Z.eqb_eq; exact Hz);
       reflexivity|].
    destruct (Z.ltb_spec len0 RADIO_FRAME_LENGTH) as [Hlt|Hge];
      [|exfalso; apply Hne; unfold RADIO_SetFrame; rewrite Es;
        replace (len0 <? RADIO_FRAME_LENGTH) with false
          by (symmetry; apply Z.ltb_ge; exact Hge);
        rewrite andb_false_r; reflexivity].
    exists i, bytes. apply RADIO_State_eqb_eq in Es. repeat split; auto; lia.
  - intros (i & bytes & Hi & Hd & Hst & Hr).
    rewrite (Hacc i bytes Hi Hd Hst Hr). subst inst.
    intros Heq. injection Heq as Heq.
    assert (Hs : state i = RADIO_STATE_START_TX) by (rewrite <- Heq; reflexivity).
    rewrite Hst in Hs. discriminate Hs.
Qed.

End Steps.

(** ** Equations of the bus monad *)

Section BusEquations.
Context {P : Platform}.

Lemma bind_ret {A B} (a : A) (k : A -> Bus B) (w : World) :
  bind (ret a) k w = k a w.
Proof. unfold bind, ret. destruct (k a w) as [[b w2] l2]. reflexivity. Qed.

Lemma bind_HAL_GetTick {B} (k : Z -> Bus B) (w : World) :
  bind HAL_GetTick k w = k (u32 (tick w)) w.
Proof.
  unfold bind, HAL_GetTick. destruct (k _ w) as [[b w2] l2]. reflexivity.
Qed.

Lemma bind_SetReg {B} inst addr data (k : Z -> Bus B) (w : World) :
  bind (SetReg inst addr data) k w =
    cons_op (write_op inst addr data w)
      (k (write_status inst addr data w) (after_write inst addr data w)).
Proof.
  unfold bind. rewrite SetReg_step.
  destruct (k _ _) as [[b w2] l2]. reflexivity.
Qed.

Lemma bind_GetReg {B} inst addr (k : Z * Z -> Bus B) (w : World) :
  bind (GetReg inst addr) k w =
    cons_op (read_op inst addr w)
      (k (fst (reg_read (spi inst) addr (dev w))) (after_read inst addr w)).
Proof.
  unfold bind. rewrite GetReg_step.
  destruct (k _ _) as [[b w2] l2]. reflexivity.
Qed.

Lemma cons_op_ret {A} op (a : A) w : cons_op op (ret a w) = (a, w, [op]).
Proof. reflexivity. Qed.

Lemma tick_after_write inst addr data w :
  tick (after_write inst addr data w) = tick w.
Proof. reflexivity. Qed.

Lemma tick_after_read inst addr w : tick (after_read inst addr w) = tick w.
Proof. reflexivity. Qed.

Lemma RADIO_Process_Some (i : RADIO_Instance) (w : World) :
  RADIO_Process (Some i) w =
    let '(i', w', l) := Process_switch i w in (Some i', w', l).
Proof.
  unfold RADIO_Process, bind, ret.
  destruct (Process_switch i w) as [[i' w'] l]. rewrite app_nil_r. reflexivity.
Qed.

End BusEquations.

Create Rewrite HintDb bus.
#[global] Hint Rewrite @bind_ret @bind_HAL_GetTick @bind_SetReg @bind_GetReg
  @cons_op_ret @tick_after_write @tick_after_read : bus.

(** ** Symbols on the bus and the frame loop *)

Section Loop.
Context {P : Platform}.

Lemma sent_frame_trace bs oa rest t :
  sent bs oa -> frame_trace rest t -> frame_trace (bs ++ rest) (oa ++ t).
Proof.
  induction 1 as [|b bs o t' Ha Hs IH]; intros Hr; simpl; [exact Hr|].
  rewrite <- app_assoc. apply ft_accept; auto.
Qed.

Lemma frame_slice_S inst from n :
  frame_slice inst from (S n) =
    frame_at inst from :: frame_slice inst (from + 1) n.
Proof.
  unfold frame_slice. simpl. rewrite Z.add_0_r. f_equal.
  rewrite <- seq_shift, map_map. apply map_ext. intros j.
  f_equal. lia.
Qed.

Lemma frame_slice_app inst from n m :
  frame_slice inst from (n + m) =
    frame_slice inst from n ++ frame_slice inst (from + Z.of_nat n) m.
Proof.
  revert from. induction n as [|n IH]; intros from.
  - simpl. rewrite Z.add_0_r. reflexivity.
  - change (S n + m)%nat with (S (n + m)). rewrite !frame_slice_S, IH.
    simpl. do 3 f_equal. lia.
Qed.

Lemma frame_slice_set_idx inst v from n :
  frame_slice (set_idx inst v) from n = frame_slice inst from n.
Proof. reflexivity. Qed.





Lemma set_idx_same (inst : RADIO_Instance) : set_idx inst (idx inst) = inst.
Proof. destruct inst; reflexivity. Qed.

Lemma u32_small z : 0 <= z < 2 ^ 32 -> u32 z = z.
Proof. intros H. unfold u32. apply Z.mod_small. exact H. Qed.

Lemma u32_range z : 0 <= u32 z < 2 ^ 32.
Proof. unfold u32. apply Z.mod_pos_bound. lia. Qed.

Lemma bind_Transmit10 {B} inst data (k : Z -> Bus B) (w : World) :
  bind (Transmit10 inst data) k w =
    let w1 := after_write inst ADDR_FIFOCTRL (sym_hi data) w in
    if fifo_full (write_status inst ADDR_FIFOCTRL (sym_hi data) w)
    then cons_op (write_op inst ADDR_FIFOCTRL (sym_hi data) w) (k 0 w1)
    else cons_op (write_op inst ADDR_FIFOCTRL (sym_hi data) w)
           (cons_op (write_op inst ADDR_FIFODATA (sym_lo data) w1)
              (k 1 (after_write inst ADDR_FIFODATA (sym_lo data) w1))).
Proof.
  unfold bind. rewrite Transmit10_step. cbv zeta. fold (sym_hi data) (sym_lo data).
  destruct (fifo_full _).
  - destruct (k 0 _) as [[b w2] l2]. reflexivity.
  - destruct (k 1 _) as [[b w2] l2]. reflexivity.
Qed.

(** What one run of the while loop of the FRAME state does: it takes
    [k] symbols, for the bytes at the cursor and after, moves the cursor
    by [k] and changes nothing else of the instance; it stops at the end
    of the frame, or at the first refused symbol, whose byte stays under
    the cursor. *)
Lemma frame_loop_spec (fuel : nat) :
  forall (inst : RADIO_Instance) (w : World),
    0 <= idx inst -> len inst < 2 ^ 32 ->
    len inst - idx inst <= Z.of_nat fuel ->
    exists (k : nat) (oa orj : list BusOp),
      let r := frame_loop fuel inst w in
      fst (fst r) = set_idx inst (idx inst + Z.of_nat k) /\
      tick (snd (fst r)) = tick w /\
      snd r = oa ++ orj /\
      sent (frame_slice inst (idx inst) k) oa /\
      ((len inst <= idx inst + Z.of_nat k /\ orj = [] /\
        (idx inst <= len inst -> idx inst + Z.of_nat k = len inst)) \/
       (idx inst + Z.of_nat k < len inst /\
        sym_reject (frame_at inst (idx inst + Z.of_nat k)) orj)) /\
      (idx inst < len inst ->
       if fifo_full (write_status inst ADDR_FIFOCTRL
                       (sym_hi (frame_at inst (idx inst))) w)
       then k = 0%nat /\
            snd (fst r) = after_write inst ADDR_FIFOCTRL
                            (sym_hi (frame_at inst (idx inst))) w
       else (1 <= k)%nat).
Proof.
  induction fuel as [|fuel IH]; intros inst w Hidx Hlen Hfuel.
  - exists 0%nat, [], []. cbv zeta. simpl frame_loop. unfold ret. simpl.
    rewrite Z.add_0_r, set_idx_same.
    split; [reflexivity|]. split; [reflexivity|]. split; [reflexivity|].
    split; [constructor|].
    split; [left; repeat split; simpl in Hfuel; lia|].
    intros Hlt. exfalso. simpl in Hfuel. lia.
  - cbv zeta. simpl frame_loop.
    destruct (Z.ltb_spec (idx inst) (len inst)) as [Hlt|Hge].
    + rewrite bind_Transmit10. cbv zeta.
      set (b := frame_at inst (idx inst)).
      destruct (fifo_full (write_status inst ADDR_FIFOCTRL (sym_hi b) w)) eqn:Hfull.
      * (* refused: the loop ends, the cursor stays *)
        exists 0%nat, [], [write_op inst ADDR_FIFOCTRL (sym_hi b) w].
        change (0 =? 0) with true. cbv iota. rewrite cons_op_ret. simpl.
        rewrite Z.add_0_r, set_idx_same.
        split; [reflexivity|]. split; [reflexivity|]. split; [reflexivity|].
        split; [constructor|].
        split.
        -- right. split; [lia|]. fold b.
           exists (write_status inst ADDR_FIFOCTRL (sym_hi b) w). auto.
        -- intros _. auto.
      * (* taken: the cursor moves and the loop goes on *)
        change (1 =? 0) with false. cbv iota.
        rewrite (u32_small (idx inst + 1)) by lia.
        set (w2 := after_write inst ADDR_FIFODATA (sym_lo b)
                     (after_write inst ADDR_FIFOCTRL (sym_hi b) w)).
        destruct (IH (set_idx inst (idx inst + 1)) w2) as
          (k & oa & orj & Hi & Ht & Hops & Hsent & Hend & _);
          [simpl; lia | simpl; lia | simpl; lia |].
        cbv zeta in Hi, Ht, Hops.
        destruct (frame_loop fuel (set_idx inst (idx inst + 1)) w2)
          as [[i' w'] l'] eqn:El.
        simpl in Hi, Ht, Hops, Hend. subst i' l'.
        exists (S k),
          ([write_op inst ADDR_FIFOCTRL (sym_hi b) w;
            write_op inst ADDR_FIFODATA (sym_lo b)
              (after_write inst ADDR_FIFOCTRL (sym_hi b) w)] ++ oa), orj.
        simpl fst. simpl snd.
        split; [unfold set_idx; simpl; f_equal; lia|].
        split; [rewrite Ht; reflexivity|].
        split; [reflexivity|].
        split.
        { rewrite frame_slice_S. fold b. apply sent_cons.
          - exists (write_status inst ADDR_FIFOCTRL (sym_hi b) w),
              (write_status inst ADDR_FIFODATA (sym_lo b)
                 (after_write inst ADDR_FIFOCTRL (sym_hi b) w)).
            split; [exact Hfull | reflexivity].
          - rewrite frame_slice_set_idx in Hsent. exact Hsent. }
        split.
        { replace (idx inst + Z.of_nat (S k)) with (idx inst + 1 + Z.of_nat k) by lia.
          destruct Hend as [(H1 & H2 & H3)|(H1 & H2)].
          - left. repeat split; auto. intros _. apply H3. lia.
          - right. split; [exact H1|exact H2]. }
        intros _. lia.
    + exists 0%nat, [], []. unfold ret. simpl.
      rewrite Z.add_0_r, set_idx_same.
      split; [reflexivity|]. split; [reflexivity|]. split; [reflexivity|].
      split; [constructor|].
      split; [left; repeat split; lia|].
      intros Hlt. lia.
Qed.

Lemma reg_writes_app (l1 l2 : list BusOp) :
  reg_writes (l1 ++ l2) = reg_writes l1 ++ reg_writes l2.
Proof. apply flat_map_app. Qed.

(** [DumpRegister] only reads, and uses nothing of the instance but the
    bus handle. *)
Lemma DumpRegister_from_reads inst (n : nat) :
  forall (i : Z) (w : World),
    reg_writes (snd (DumpRegister_from inst n i w)) = [].
Proof.
  induction n as [|n IH]; intros i w; simpl DumpRegister_from.
  - reflexivity.
  - rewrite bind_GetReg.
    specialize (IH (i + 1) (after_read inst i w)).
    destruct (DumpRegister_from inst n (i + 1) _) as [[u w'] l].
    simpl in *. exact IH.
Qed.

Lemma DumpRegister_from_spi (i1 i2 : RADIO_Instance) (n : nat) :
  spi i1 = spi i2 ->
  forall (i : Z) (w : World),
    DumpRegister_from i1 n i w = DumpRegister_from i2 n i w.
Proof.
  intros Hs. induction n as [|n IH]; intros i w; simpl DumpRegister_from.
  - reflexivity.
  - rewrite !bind_GetReg. unfold read_op, read_value, after_read.
    rewrite Hs, IH. reflexivity.
Qed.

(** The loop only ever writes the cursor. *)
Lemma frame_loop_fields (fuel : nat) :
  forall (inst : RADIO_Instance) (w : World),
    exists v, fst (fst (frame_loop fuel inst w)) = set_idx inst v.
Proof.
  induction fuel as [|fuel IH]; intros inst w; simpl frame_loop.
  - exists (idx inst). rewrite set_idx_same. reflexivity.
  - destruct (idx inst <? len inst).
    + rewrite bind_Transmit10. cbv zeta.
      destruct (fifo_full _).
      * exists (idx inst). change (0 =? 0) with true. cbv iota.
        rewrite cons_op_ret, set_idx_same. reflexivity.
      * change (1 =? 0) with false. cbv iota.
        match goal with
        | |- context [frame_loop fuel ?i ?w0] =>
            destruct (IH i w0) as [v Hv];
            destruct (frame_loop fuel i w0) as [[i' w'] l']
        end.
        simpl in Hv. subst i'. exists v. reflexivity.
    + exists (idx inst). rewrite set_idx_same. reflexivity.
Qed.

End Loop.

(** Runs [RADIO_Process] on an instance whose state is known. *)
Ltac process_in Hst :=
  rewrite RADIO_Process_Some; unfold Process_switch; rewrite Hst;
  autorewrite with bus.

Section StepTheorems.
Context {P : Platform}.

(** C2.  In WAIT_TX, with now the tick read by the call: when now is
    past the start-up deadline and not past the auto-range deadline, the
    call writes the ranging-start value to the PLL-ranging register and
    enters WAIT_AR; when now is past both deadlines it writes the
    full-tx power mode, stores now + PREAMBLE_DURATION (as uint32_t) in
    the cursor/deadline field and enters PREAMBLE; when now is not past
    the start-up deadline, nothing changes and nothing is written. *)
Theorem WAIT_TX_branches (inst : RADIO_Instance) (w : World) :
  state inst = RADIO_STATE_WAIT_TX ->
  let now := u32 (tick w) in
  Z.land CONF_PLLRANGING MASK_PLLRANGING_START <> 0 /\
  (now > idx inst -> now <= nextAR inst ->
     RADIO_Process (Some inst) w =
       (Some (set_state inst RADIO_STATE_WAIT_AR),
        after_write inst ADDR_PLLRANGING CONF_PLLRANGING w,
        [write_op inst ADDR_PLLRANGING CONF_PLLRANGING w])) /\
  (now > idx inst -> now > nextAR inst ->
     RADIO_Process (Some inst) w =
       (Some (mkInstance (spi inst) RADIO_STATE_PREAMBLE (frame inst)
                (u32 (now + PREAMBLE_DURATION)) (len inst) (nextAR inst)),
        after_write inst ADDR_PWRMODE PWRMODE_FULLTX w,
        [write_op inst ADDR_PWRMODE PWRMODE_FULLTX w])) /\
  (now <= idx inst -> RADIO_Process (Some inst) w = (Some inst, w, [])).
Proof.
  intros Hst now. split; [vm_compute; congruence|].
  split; [|split].
  - intros H1 H2. process_in Hst. fold now.
    replace (now >? idx inst) with true by (symmetry; apply Z.gtb_lt; lia).
    autorewrite with bus. fold now.
    replace (now >? nextAR inst) with false
      by (symmetry; rewrite Z.gtb_ltb; apply Z.ltb_ge; lia).
    autorewrite with bus. reflexivity.
  - intros H1 H2. process_in Hst. fold now.
    replace (now >? idx inst) with true by (symmetry; apply Z.gtb_lt; lia).
    autorewrite with bus. fold now.
    replace (now >? nextAR inst) with true by (symmetry; apply Z.gtb_lt; lia).
    autorewrite with bus. reflexivity.
  - intros H1. process_in Hst. fold now.
    replace (now >? idx inst) with false
      by (symmetry; rewrite Z.gtb_ltb; apply Z.ltb_ge; lia).
    autorewrite with bus. destruct inst; reflexivity.
Qed.

(** C7.  In WAIT_AR the call reads the PLL-ranging register.  With the
    error flag set the state becomes CONFIGURE and nothing else
    changes; otherwise, with the ranging-in-progress flag clear, the
    call writes the full-tx power mode, stores now + AR_INTERVAL in the
    auto-range deadline and now + PREAMBLE_DURATION in the
    cursor/deadline field (as uint32_t) and enters PREAMBLE; with
    ranging still in progress the instance is unchanged.  No call
    enters CONFIGURE from any other state, or from WAIT_AR without the
    error flag: the ranging error is the only way back to the
    configuration sequence. *)
Theorem WAIT_AR_branches (inst : RADIO_Instance) (w : World) :
  let now := u32 (tick w) in
  let reg := read_value inst ADDR_PLLRANGING w in
  let w1 := after_read inst ADDR_PLLRANGING w in
  (state inst = RADIO_STATE_WAIT_AR ->
     (Z.land reg MASK_PLLRANGING_ERROR <> 0 ->
        RADIO_Process (Some inst) w =
          (Some (set_state inst RADIO_STATE_CONFIGURE), w1,
           [read_op inst ADDR_PLLRANGING w])) /\
     (Z.land reg MASK_PLLRANGING_ERROR = 0 ->
      Z.land reg MASK_PLLRANGING_START = 0 ->
        RADIO_Process (Some inst) w =
          (Some (mkInstance (spi inst) RADIO_STATE_PREAMBLE (frame inst)
                   (u32 (now + PREAMBLE_DURATION)) (len inst)
                   (u32 (now + AR_INTERVAL))),
           after_write inst ADDR_PWRMODE PWRMODE_FULLTX w1,
           [read_op inst ADDR_PLLRANGING w;
            write_op inst ADDR_PWRMODE PWRMODE_FULLTX w1])) /\
     (Z.land reg MASK_PLLRANGING_ERROR = 0 ->
      Z.land reg MASK_PLLRANGING_START <> 0 ->
        RADIO_Process (Some inst) w =
          (Some inst, w1, [read_op inst ADDR_PLLRANGING w]))) /\
  (forall inst', fst (fst (RADIO_Process (Some inst) w)) = Some inst' ->
     state inst' = RADIO_STATE_CONFIGURE ->
     state inst = RADIO_STATE_WAIT_AR /\
     Z.land reg MASK_PLLRANGING_ERROR <> 0).
Proof.
  intros now reg w1.
  assert (Hreg : snd (fst (reg_read (spi inst) ADDR_PLLRANGING (dev w))) = reg)
    by reflexivity.
  split.
  - intros Hst. split; [|split].
    + intros He. process_in Hst. rewrite Hreg.
      destruct (Z.eqb_spec (Z.land reg MASK_PLLRANGING_ERROR) 0); [contradiction|].
      reflexivity.
    + intros He Hs. process_in Hst. rewrite Hreg, He, Hs. change (0 =? 0) with true. cbv beta iota delta [negb].
      autorewrite with bus. reflexivity.
    + intros He Hs. process_in Hst. rewrite Hreg, He. change (0 =? 0) with true. cbv beta iota delta [negb].
      destruct (Z.eqb_spec (Z.land reg MASK_PLLRANGING_START) 0); [contradiction|].
      autorewrite with bus. destruct inst; reflexivity.
  - intros inst' Hres Hc.
    rewrite RADIO_Process_Some in Hres. unfold Process_switch in Hres.
    destruct (state inst) eqn:Hst.
    + (* CONFIGURE *)
      autorewrite with bus in Hres. unfold bind in Hres.
      repeat match type of Hres with
             | context [DumpRegister ?i ?w0] =>
                 destruct (DumpRegister i w0) as [[u wd] ld]
             end.
      simpl in Hres. injection Hres as <-. discriminate Hc.
    + autorewrite with bus in Hres.
      destruct (u32 (tick w) >? idx inst); autorewrite with bus in Hres;
        simpl in Hres; injection Hres as <-; simpl in Hc; congruence.
    + autorewrite with bus in Hres. simpl in Hres.
      injection Hres as <-. congruence.
    + autorewrite with bus in Hres. simpl in Hres.
      injection Hres as <-. discriminate Hc.
    + autorewrite with bus in Hres.
      destruct (u32 (tick w) >? idx inst); autorewrite with bus in Hres;
        [destruct (u32 (tick w) >? nextAR inst); autorewrite with bus in Hres|];
        simpl in Hres; injection Hres as <-; simpl in Hc; congruence.
    + split; [reflexivity|].
      autorewrite with bus in Hres. rewrite Hreg in Hres.
      destruct (Z.eqb_spec (Z.land reg MASK_PLLRANGING_ERROR) 0) as [E|E];
        [|exact E].
      cbv beta iota delta [negb] in Hres.
      destruct (Z.land reg MASK_PLLRANGING_START =? 0);
        autorewrite with bus in Hres; simpl in Hres;
        injection Hres as <-; simpl in Hc; congruence.
    + autorewrite with bus in Hres.
      destruct (u32 (tick w) <? idx inst); autorewrite with bus in Hres;
        simpl in Hres; injection Hres as <-; simpl in Hc; congruence.
    + destruct (idx inst >=? len inst).
      * simpl in Hres. injection Hres as <-. discriminate Hc.
      * destruct (frame_loop_fields (Z.to_nat (len inst - idx inst)) inst w)
          as [v Hv].
        destruct (frame_loop _ inst w) as [[i' w'] l'].
        simpl in Hv, Hres. injection Hres as <-. subst i'.
        simpl in Hc. congruence.
    + rewrite bind_Transmit10 in Hres. cbv zeta in Hres.
      destruct (fifo_full _); destruct (idx inst =? 0);
        autorewrite with bus in Hres; simpl in Hres;
        injection Hres as <-; simpl in Hc; congruence.
Qed.


(** C9, as the code has it.  In PREAMBLE, with now the tick read by the
    call: while now is before the stored deadline the call writes the
    preamble byte 0x55 once, directly to the FIFO-data register (one
    register write, no symbol of the encoder, no look at FIFO-full) and
    leaves the instance as it is; once now has reached the deadline the
    call writes nothing, sets the cursor to 0 and enters FRAME. *)
Theorem PREAMBLE_raw_byte (inst : RADIO_Instance) (w : World) :
  state inst = RADIO_STATE_PREAMBLE ->
  let now := u32 (tick w) in
  (now < idx inst ->
     RADIO_Process (Some inst) w =
       (Some inst, after_write inst ADDR_FIFODATA PREAMBLE_MSG w,
        [write_op inst ADDR_FIFODATA PREAMBLE_MSG w])) /\
  (idx inst <= now ->
     RADIO_Process (Some inst) w =
       (Some (mkInstance (spi inst) RADIO_STATE_FRAME (frame inst) 0
                (len inst) (nextAR inst)), w, [])).
Proof.
  intros Hst now. split; intros H; process_in Hst; fold now.
  - replace (now <? idx inst) with true by (symmetry; apply Z.ltb_lt; lia).
    autorewrite with bus. reflexivity.
  - replace (now <? idx inst) with false by (symmetry; apply Z.ltb_ge; lia).
    autorewrite with bus. reflexivity.
Qed.


End StepTheorems.

(** ** Runs from RADIO_Init: auto-ranging *)

Section Reachability.
Context {P : Platform}.

Lemma writes_to_app addr (l1 l2 : list BusOp) :
  writes_to addr (l1 ++ l2) = writes_to addr l1 ++ writes_to addr l2.
Proof. apply flat_map_app. Qed.

Lemma writes_to_reg_writes addr (ops : list BusOp) :
  writes_to addr ops =
    flat_map (fun av => if fst av =? addr then [snd av] else []) (reg_writes ops).
Proof.
  induction ops as [|op ops IH]; [reflexivity|].
  destruct op as [a v st|a st v]; simpl.
  - rewrite IH. destruct (a =? addr); reflexivity.
  - exact IH.
Qed.

Lemma CONFIGURE_reg_writes (i : RADIO_Instance) (w : World) :
  state i = RADIO_STATE_CONFIGURE ->
  reg_writes (snd (Process_switch i w)) = CONFIGURATION.
Proof.
  intros Hs. unfold Process_switch. rewrite Hs. autorewrite with bus.
  unfold bind.
  match goal with
  | |- context [DumpRegister ?j ?w1] =>
      pose proof (DumpRegister_from_reads j (Z.to_nat (MAX_ADDR + 1)) 0 w1) as Hd;
      fold (DumpRegister j) in Hd;
      destruct (DumpRegister j w1) as [[u wd] ld]
  end.
  simpl in Hd. simpl. rewrite app_nil_r, Hd. reflexivity.
Qed.

Lemma CONFIGURE_result (i : RADIO_Instance) (w : World) :
  state i = RADIO_STATE_CONFIGURE ->
  fst (fst (Process_switch i w)) =
    mkInstance (spi i) RADIO_STATE_WAIT_CONF (frame i)
      (u32 (u32 (tick w) + CONFIGURATION_DELAY)) (len i) 0.
Proof.
  intros Hs. unfold Process_switch. rewrite Hs. autorewrite with bus.
  unfold bind.
  match goal with
  | |- context [DumpRegister ?j ?w1] =>
      destruct (DumpRegister j w1) as [[u wd] ld]
  end.
  reflexivity.
Qed.

Lemma frame_loop_no_ranging (fuel : nat) :
  forall (inst : RADIO_Instance) (w : World),
    writes_to ADDR_PLLRANGING (snd (frame_loop fuel inst w)) = [].
Proof.
  induction fuel as [|fuel IH]; intros inst w; simpl frame_loop.
  - reflexivity.
  - destruct (idx inst <? len inst); [|reflexivity].
    rewrite bind_Transmit10. cbv zeta.
    destruct (fifo_full _).
    + change (0 =? 0) with true. cbv iota. rewrite cons_op_ret. reflexivity.
    + change (1 =? 0) with false. cbv iota.
      match goal with
      | |- context [frame_loop fuel ?i ?w0] =>
          specialize (IH i w0);
          destruct (frame_loop fuel i w0) as [[i' w'] l']
      end.
      simpl in IH. simpl. exact IH.
Qed.

Lemma never_ranges_Process (inst : RADIO_Instance) (w : World) :
  never_ranges inst ->
  never_ranges (fst (fst (Process_switch inst w))) /\
  writes_to ADDR_PLLRANGING (snd (Process_switch inst w)) = [].
Proof.
  intros (Hnar & Hcfg & Hidx).
  destruct (state inst) eqn:Hst.
  - (* CONFIGURE *)
    rewrite CONFIGURE_result by exact Hst.
    rewrite writes_to_reg_writes, CONFIGURE_reg_writes by exact Hst.
    split; [|reflexivity].
    repeat split; simpl; auto; discriminate.
  - unfold Process_switch. rewrite Hst. autorewrite with bus.
    destruct (u32 (tick w) >? idx inst); autorewrite with bus; simpl;
      (split; [|reflexivity]); unfold never_ranges; simpl;
      rewrite ?Hst; repeat split; try discriminate;
      destruct Hcfg as [Hc|Hc]; try discriminate Hc; auto.
  - unfold Process_switch. rewrite Hst. simpl.
    split; [|reflexivity]. unfold never_ranges. rewrite Hst.
    repeat split; try discriminate. exact Hcfg.
  - unfold Process_switch. rewrite Hst. autorewrite with bus. simpl.
    split; [|reflexivity]. unfold never_ranges. simpl.
    repeat split; try discriminate.
    + destruct Hcfg as [Hc|Hc]; [discriminate Hc | auto].
    + intros _. apply u32_range.
  - (* WAIT_TX: with the deadline at 0 the ranging branch is dead *)
    destruct Hcfg as [Hc|Hc]; [discriminate Hc|].
    specialize (Hidx eq_refl).
    unfold Process_switch. rewrite Hst. autorewrite with bus.
    destruct (Z.gtb_spec (u32 (tick w)) (idx inst)) as [Hgt|Hle].
    + autorewrite with bus. rewrite Hc.
      replace (u32 (tick w) >? 0) with true by (symmetry; apply Z.gtb_lt; lia).
      autorewrite with bus. simpl.
      split; [|reflexivity]. unfold never_ranges. simpl.
      repeat split; try discriminate. auto.
    + autorewrite with bus. simpl.
      split; [|reflexivity]. unfold never_ranges. rewrite Hst.
      repeat split; try discriminate; auto.
  - contradiction Hnar. reflexivity.
  - unfold Process_switch. rewrite Hst. autorewrite with bus.
    destruct (u32 (tick w) <? idx inst); autorewrite with bus; simpl;
      (split; [|reflexivity]); unfold never_ranges; simpl;
      rewrite ?Hst; repeat split; try discriminate;
      destruct Hcfg as [Hc|Hc]; try discriminate Hc; auto.
  - unfold Process_switch. rewrite Hst.
    destruct (idx inst >=? len inst).
    + simpl. split; [|reflexivity]. unfold never_ranges. simpl.
      repeat split; try discriminate.
      destruct Hcfg as [Hc|Hc]; [discriminate Hc | auto].
    + split; [|apply frame_loop_no_ranging].
      destruct (frame_loop_fields (Z.to_nat (len inst - idx inst)) inst w)
        as [v Hv].
      rewrite Hv. unfold never_ranges. simpl. rewrite Hst.
      repeat split; try discriminate.
      destruct Hcfg as [Hc|Hc]; [discriminate Hc | auto].
  - unfold Process_switch. rewrite Hst. rewrite bind_Transmit10. cbv zeta.
    destruct (fifo_full _); destruct (idx inst =? 0);
      autorewrite with bus; simpl;
      (split; [|reflexivity]); unfold never_ranges; simpl;
      rewrite ?Hst; repeat split; try discriminate;
      destruct Hcfg as [Hc|Hc]; try discriminate Hc; auto.
Qed.

Lemma never_ranges_host_step (c : HostCall) (inst : RADIO_Instance) (d : Device) :
  never_ranges inst ->
  never_ranges (fst (fst (host_step c inst d))) /\
  writes_to ADDR_PLLRANGING (snd (host_step c inst d)) = [].
Proof.
  intros Hinv. destruct c as [now|data len0|f]; simpl.
  - unfold poll. rewrite RADIO_Process_Some.
    destruct (never_ranges_Process inst (mkWorld now d) Hinv) as [H1 H2].
    destruct (Process_switch inst (mkWorld now d)) as [[i' w'] l'].
    simpl in *. auto.
  - split; [|reflexivity].
    destruct data as [bytes|]; [|exact Hinv].
    destruct (RADIO_State_eqb (state inst) RADIO_STATE_IDLE
              && negb (len0 =? 0) && (len0 <? RADIO_FRAME_LENGTH)) eqn:E;
      [|exact Hinv].
    apply andb_prop in E. destruct E as [E _].
    apply andb_prop in E. destruct E as [E _].
    apply RADIO_State_eqb_eq in E.
    destruct Hinv as (H1 & H2 & H3). unfold never_ranges. simpl.
    repeat split; try discriminate.
    destruct H2 as [Hc|Hc]; [congruence | auto].
  - split; [exact Hinv | reflexivity].
Qed.

Lemma never_ranges_host (calls : list HostCall) :
  forall (inst : RADIO_Instance) (d : Device),
    never_ranges inst ->
    never_ranges (fst (fst (host calls inst d))) /\
    writes_to ADDR_PLLRANGING (snd (host calls inst d)) = [].
Proof.
  induction calls as [|c cs IH]; intros inst d Hinv; simpl.
  - auto.
  - destruct (never_ranges_host_step c inst d Hinv) as [H1 H2].
    destruct (host_step c inst d) as [[i1 d1] l1]. simpl in H1, H2.
    destruct (IH i1 d1 H1) as [H3 H4].
    destruct (host cs i1 d1) as [[i2 d2] l2]. simpl in *.
    split; [exact H3|]. rewrite writes_to_app, H2, H4. reflexivity.
Qed.

(** C1, on the code.  Whatever the host does after RADIO_Init (calls of
    RADIO_Process at any ticks, calls of RADIO_SetFrame, a device that
    behaves in any way), the instance never enters WAIT_AR and the
    PLL-ranging register is never written: no transmission of the run,
    the first one included, is preceded by an auto-ranging. *)
Theorem ranging_never_issued_from_Init (mem : RADIO_Instance)
    (s : SPI_Init_Struct) (calls : list HostCall) (d : Device) :
  exists inst,
    RADIO_Init (Some mem) (Some s) = Some inst /\
    state inst = RADIO_STATE_CONFIGURE /\
    state (fst (fst (host calls inst d))) <> RADIO_STATE_WAIT_AR /\
    writes_to ADDR_PLLRANGING (snd (host calls inst d)) = [].
Proof.
  eexists. split; [reflexivity|]. split; [reflexivity|].
  match goal with
  | |- context [host calls ?i d] =>
      destruct (never_ranges_host calls i d) as [(H1 & _) H2]
  end.
  - unfold never_ranges. simpl. repeat split; try discriminate. auto.
  - split; assumption.
Qed.

End Reachability.

(** ** A whole transmission *)

Section Polls.
Context {P : Platform}.

Lemma poll_eq (now : Z) (inst : RADIO_Instance) (d : Device) :
  poll now inst d =
    let '(i, w, l) := Process_switch inst (mkWorld now d) in (i, dev w, l).
Proof.
  unfold poll. rewrite RADIO_Process_Some.
  destruct (Process_switch inst (mkWorld now d)) as [[i w] l]. reflexivity.
Qed.

Lemma poll_START_TX now (inst : RADIO_Instance) d :
  state inst = RADIO_STATE_START_TX ->
  poll now inst d =
    (mkInstance (spi inst) RADIO_STATE_WAIT_TX (frame inst)
       (u32 (u32 now + STARTUP_DELAY)) (len inst) (nextAR inst),
     snd (reg_write (spi inst) ADDR_PWRMODE PWRMODE_SYNTHTX d),
     [RegWrite ADDR_PWRMODE PWRMODE_SYNTHTX
        (fst (reg_write (spi inst) ADDR_PWRMODE PWRMODE_SYNTHTX d))]).
Proof.
  intros Hst. rewrite poll_eq. unfold Process_switch. rewrite Hst.
  autorewrite with bus. reflexivity.
Qed.

Lemma poll_WAIT_TX_wait now (inst : RADIO_Instance) d :
  state inst = RADIO_STATE_WAIT_TX -> u32 now <= idx inst ->
  poll now inst d = (inst, d, []).
Proof.
  intros Hst H. rewrite poll_eq. unfold Process_switch. rewrite Hst.
  autorewrite with bus. cbn [tick].
  replace (u32 now >? idx inst) with false
    by (symmetry; rewrite Z.gtb_ltb; apply Z.ltb_ge; lia).
  reflexivity.
Qed.

Lemma poll_WAIT_TX_go now (inst : RADIO_Instance) d :
  state inst = RADIO_STATE_WAIT_TX ->
  idx inst < u32 now -> nextAR inst < u32 now ->
  poll now inst d =
    (mkInstance (spi inst) RADIO_STATE_PREAMBLE (frame inst)
       (u32 (u32 now + PREAMBLE_DURATION)) (len inst) (nextAR inst),
     snd (reg_write (spi inst) ADDR_PWRMODE PWRMODE_FULLTX d),
     [RegWrite ADDR_PWRMODE PWRMODE_FULLTX
        (fst (reg_write (spi inst) ADDR_PWRMODE PWRMODE_FULLTX d))]).
Proof.
  intros Hst H1 H2. rewrite poll_eq. unfold Process_switch. rewrite Hst.
  autorewrite with bus. cbn [tick].
  replace (u32 now >? idx inst) with true by (symmetry; apply Z.gtb_lt; lia).
  autorewrite with bus. cbn [tick].
  replace (u32 now >? nextAR inst) with true by (symmetry; apply Z.gtb_lt; lia).
  autorewrite with bus. reflexivity.
Qed.

Lemma poll_PREAMBLE_send now (inst : RADIO_Instance) d :
  state inst = RADIO_STATE_PREAMBLE -> u32 now < idx inst ->
  poll now inst d =
    (inst, snd (reg_write (spi inst) ADDR_FIFODATA PREAMBLE_MSG d),
     [RegWrite ADDR_FIFODATA PREAMBLE_MSG
        (fst (reg_write (spi inst) ADDR_FIFODATA PREAMBLE_MSG d))]).
Proof.
  intros Hst H. rewrite poll_eq. unfold Process_switch. rewrite Hst.
  autorewrite with bus. cbn [tick].
  replace (u32 now <? idx inst) with true by (symmetry; apply Z.ltb_lt; lia).
  autorewrite with bus. reflexivity.
Qed.

Lemma poll_PREAMBLE_end now (inst : RADIO_Instance) d :
  state inst = RADIO_STATE_PREAMBLE -> idx inst <= u32 now ->
  poll now inst d =
    (mkInstance (spi inst) RADIO_STATE_FRAME (frame inst) 0 (len inst)
       (nextAR inst), d, []).
Proof.
  intros Hst H. rewrite poll_eq. unfold Process_switch. rewrite Hst.
  autorewrite with bus. cbn [tick].
  replace (u32 now <? idx inst) with false by (symmetry; apply Z.ltb_ge; lia).
  reflexivity.
Qed.

Lemma poll_FRAME_end now (inst : RADIO_Instance) d :
  state inst = RADIO_STATE_FRAME -> len inst <= idx inst ->
  poll now inst d =
    (mkInstance (spi inst) RADIO_STATE_POSTAMBLE (frame inst) 0 (len inst)
       (nextAR inst), d, []).
Proof.
  intros Hst H. rewrite poll_eq. unfold Process_switch. rewrite Hst.
  replace (idx inst >=? len inst) with true
    by (symmetry; rewrite Z.geb_leb; apply Z.leb_le; lia).
  reflexivity.
Qed.

Lemma poll_FRAME_push now (inst : RADIO_Instance) d :
  state inst = RADIO_STATE_FRAME ->
  0 <= idx inst < len inst -> len inst < 2 ^ 32 ->
  exists (k : nat) (taken refused : list BusOp) (d' : Device),
    poll now inst d =
      (set_idx inst (idx inst + Z.of_nat k), d', taken ++ refused) /\
    sent (frame_slice inst (idx inst) k) taken /\
    ((idx inst + Z.of_nat k = len inst /\ refused = []) \/
     (idx inst + Z.of_nat k < len inst /\
      sym_reject (frame_at inst (idx inst + Z.of_nat k)) refused)) /\
    (if fifo_full (fst (reg_write (spi inst) ADDR_FIFOCTRL
                          (sym_hi (frame_at inst (idx inst))) d))
     then k = 0%nat /\
          d' = snd (reg_write (spi inst) ADDR_FIFOCTRL
                      (sym_hi (frame_at inst (idx inst))) d)
     else (1 <= k)%nat).
Proof.
  intros Hst Hidx Hlen. rewrite poll_eq. unfold Process_switch. rewrite Hst.
  replace (idx inst >=? len inst) with false
    by (symmetry; rewrite Z.geb_leb; apply Z.leb_gt; lia).
  destruct (frame_loop_spec (Z.to_nat (len inst - idx inst)) inst (mkWorld now d))
    as (k & oa & orj & Hi & Ht & Hops & Hsent & Hend & Hfirst); try lia.
  cbv zeta in Hi, Ht, Hops, Hfirst.
  destruct (frame_loop _ inst (mkWorld now d)) as [[i' w'] l'].
  simpl in Hi, Ht, Hops, Hfirst. subst i' l'.
  exists k, oa, orj, (dev w'). split; [reflexivity|]. split; [exact Hsent|].
  split.
  - destruct Hend as [(H1 & H2 & H3)|(H1 & H2)].
    + left. split; [apply H3; lia | exact H2].
    + right. split; assumption.
  - specialize (Hfirst (proj2 Hidx)).
    unfold write_status in Hfirst. cbn [dev] in Hfirst.
    destruct (fifo_full _).
    + destruct Hfirst as [Hk Hw]. split; [exact Hk|]. rewrite Hw. reflexivity.
    + exact Hfirst.
Qed.

Lemma Transmit10_attempt (inst : RADIO_Instance) (b : Z) (w : World) :
  sym_attempt b (snd (Transmit10 inst b w)).
Proof.
  rewrite Transmit10_step. cbv zeta. fold (sym_hi b) (sym_lo b).
  destruct (fifo_full _) eqn:E.
  - right. eexists. split; [exact E | reflexivity].
  - left. do 2 eexists. split; [exact E | reflexivity].
Qed.

Lemma poll_POSTAMBLE_first now (inst : RADIO_Instance) d :
  state inst = RADIO_STATE_POSTAMBLE -> idx inst = 0 ->
  exists (d' : Device) (p : list BusOp),
    poll now inst d = (set_idx inst 1, d', p) /\ sym_attempt 0 p.
Proof.
  intros Hst Hz. rewrite poll_eq. unfold Process_switch. rewrite Hst.
  pose proof (Transmit10_attempt inst 0 (mkWorld now d)) as Ha.
  unfold bind. destruct (Transmit10 inst 0 (mkWorld now d)) as [[r w1] l1].
  rewrite Hz. simpl in *. rewrite app_nil_r. eauto.
Qed.

Lemma poll_POSTAMBLE_last now (inst : RADIO_Instance) d :
  state inst = RADIO_STATE_POSTAMBLE -> idx inst <> 0 ->
  exists (d' : Device) (p : list BusOp) (off : BusOp),
    poll now inst d =
      (mkInstance (spi inst) RADIO_STATE_IDLE (frame inst) 0 (len inst)
         (nextAR inst), d', p ++ [off]) /\
    sym_attempt 0 p /\ is_write ADDR_PWRMODE PWRMODE_STANDBY off.
Proof.
  intros Hst Hz. rewrite poll_eq. unfold Process_switch. rewrite Hst.
  pose proof (Transmit10_attempt inst 0 (mkWorld now d)) as Ha.
  unfold bind at 1. destruct (Transmit10 inst 0 (mkWorld now d)) as [[r w1] l1].
  destruct (Z.eqb_spec (idx inst) 0) as [E|_]; [contradiction|].
  autorewrite with bus. simpl in *.
  do 3 eexists. split; [reflexivity|]. split; [exact Ha|].
  eexists. reflexivity.
Qed.

End Polls.

Section Transmission.
Context {P : Platform}.
Variable clk : nat -> Z.
Variable elapse : Device -> Device.

Lemma run_one k inst d i1 d1 l1 :
  poll (clk k) inst d = (i1, d1, l1) ->
  run clk elapse 1 k inst d = (i1, elapse d1, l1).
Proof. intros H. simpl. rewrite H, app_nil_r. reflexivity. Qed.

Lemma run_trans n m k inst d i1 d1 l1 i2 d2 l2 :
  run clk elapse n k inst d = (i1, d1, l1) ->
  run clk elapse m (k + n) i1 d1 = (i2, d2, l2) ->
  run clk elapse (n + m) k inst d = (i2, d2, l1 ++ l2).
Proof.
  revert k inst d i1 d1 l1. induction n as [|n IH]; intros k inst d i1 d1 l1 H1 H2.
  - simpl in H1. injection H1 as <- <- <-. rewrite Nat.add_0_r in H2.
    simpl. exact H2.
  - simpl in H1. simpl.
    destruct (poll (clk k) inst d) as [[ia da] la].
    destruct (run clk elapse n (S k) ia (elapse da)) as [[ib db] lb] eqn:E.
    injection H1 as <- <- <-.
    replace (k + S n)%nat with (S k + n)%nat in H2 by lia.
    rewrite (IH (S k) ia (elapse da) ib db lb E H2).
    rewrite app_assoc. reflexivity.
Qed.

(** Polls that only wait for the start-up deadline. *)
Lemma run_WAIT_TX_wait (a : nat) :
  forall (k : nat) (inst : RADIO_Instance) (d : Device),
    state inst = RADIO_STATE_WAIT_TX ->
    (forall j, (k <= j < k + a)%nat -> tick_at clk j <= idx inst) ->
    run clk elapse a k inst d = (inst, Nat.iter a elapse d, []).
Proof.
  induction a as [|a IH]; intros k inst d Hst Hw; [reflexivity|].
  simpl run. rewrite poll_WAIT_TX_wait; [|exact Hst|apply Hw; lia].
  rewrite IH; [|exact Hst|intros j Hj; apply Hw; lia].
  rewrite <- Nat.iter_succ_r. reflexivity.
Qed.

(** Polls before the preamble deadline: one raw preamble byte each. *)
Lemma run_PREAMBLE_send (b : nat) :
  forall (k : nat) (inst : RADIO_Instance) (d : Device),
    state inst = RADIO_STATE_PREAMBLE ->
    (forall j, (k <= j < k + b)%nat -> tick_at clk j < idx inst) ->
    exists (d' : Device) (pre : list BusOp),
      run clk elapse b k inst d = (inst, d', pre) /\
      length pre = b /\
      Forall (is_write ADDR_FIFODATA PREAMBLE_MSG) pre.
Proof.
  induction b as [|b IH]; intros k inst d Hst Hw.
  - exists d, []. repeat split. constructor.
  - simpl run. rewrite poll_PREAMBLE_send; [|exact Hst|apply Hw; lia].
    destruct (IH (S k) inst
                (elapse (snd (reg_write (spi inst) ADDR_FIFODATA PREAMBLE_MSG d))))
      as (d' & pre & Hr & Hl & Hf); [exact Hst|intros j Hj; apply Hw; lia|].
    rewrite Hr. do 2 eexists. split; [reflexivity|]. split.
    + simpl. rewrite Hl. reflexivity.
    + simpl. constructor; [eexists; reflexivity | exact Hf].
Qed.

Lemma frame_trace_poll inst (k : nat) (rest : nat) taken refused t :
  sent (frame_slice inst (idx inst) k) taken ->
  ((idx inst + Z.of_nat k = len inst /\ refused = []) \/
   (idx inst + Z.of_nat k < len inst /\
    sym_reject (frame_at inst (idx inst + Z.of_nat k)) refused)) ->
  rest = Z.to_nat (len inst - (idx inst + Z.of_nat k)) ->
  frame_trace (frame_slice inst (idx inst + Z.of_nat k) rest) t ->
  frame_trace (frame_slice inst (idx inst) (k + rest)) ((taken ++ refused) ++ t).
Proof.
  intros Hsent Hend Hrest Ht.
  rewrite frame_slice_app, <- app_assoc.
  apply sent_frame_trace; [exact Hsent|].
  destruct Hend as [(_ & ->)|(Hlt & Hrej)]; [exact Ht|].
  destruct rest as [|rest]; [lia|].
  rewrite frame_slice_S in Ht |- *. apply ft_reject; assumption.
Qed.

(** The FRAME phase: from any cursor position the polls push what is
    left of the frame and reach POSTAMBLE. *)
Lemma run_FRAME (r : nat) :
  forall (inst : RADIO_Instance) (d : Device) (k : nat),
    state inst = RADIO_STATE_FRAME ->
    0 <= idx inst <= len inst -> len inst < 2 ^ 32 ->
    (Z.to_nat (len inst - idx inst) <= r)%nat ->
    fifo_relents elapse (spi inst) ->
    exists (n : nat) (d' : Device) (frm : list BusOp),
      run clk elapse n k inst d =
        (mkInstance (spi inst) RADIO_STATE_POSTAMBLE (frame inst) 0
           (len inst) (nextAR inst), d', frm) /\
      frame_trace
        (frame_slice inst (idx inst) (Z.to_nat (len inst - idx inst))) frm.
Proof.
  induction r as [|r IHr]; intros inst d k Hst Hidx Hlen Hr Hfair.
  - (* nothing left *)
    exists 1%nat, (elapse d), []. split.
    + apply run_one. apply poll_FRAME_end; [exact Hst|lia].
    + replace (Z.to_nat (len inst - idx inst)) with 0%nat by lia. constructor.
  - destruct (Z.eq_dec (idx inst) (len inst)) as [Heq|Hne].
    { exists 1%nat, (elapse d), []. split.
      + apply run_one. apply poll_FRAME_end; [exact Hst|lia].
      + replace (Z.to_nat (len inst - idx inst)) with 0%nat by lia. constructor. }
    set (b := frame_at inst (idx inst)).
    (* a poll that moves the cursor, then the rest by induction *)
    assert (Hprogress : forall d0 k0,
      fifo_full (fst (reg_write (spi inst) ADDR_FIFOCTRL (sym_hi b) d0)) = false ->
      exists (n : nat) (d' : Device) (frm : list BusOp),
        run clk elapse n k0 inst d0 =
          (mkInstance (spi inst) RADIO_STATE_POSTAMBLE (frame inst) 0
             (len inst) (nextAR inst), d', frm) /\
        frame_trace
          (frame_slice inst (idx inst) (Z.to_nat (len inst - idx inst))) frm).
    { intros d0 k0 Hfree.
      destruct (poll_FRAME_push (clk k0) inst d0 Hst) as
        (j & taken & refused & d1 & Hp & Hsent & Hend & Hfirst); [lia|exact Hlen|].
      fold b in Hfirst. rewrite Hfree in Hfirst.
      assert (Hj : idx inst + Z.of_nat j <= len inst) by (destruct Hend; lia).
      destruct (IHr (set_idx inst (idx inst + Z.of_nat j)) (elapse d1) (k0 + 1)%nat)
        as (n & d' & frm & Hrun & Htr);
        [exact Hst | simpl; lia | exact Hlen | simpl; lia | exact Hfair |].
      exists (1 + n)%nat, d', ((taken ++ refused) ++ frm). split.
      - eapply run_trans; [apply run_one; exact Hp | exact Hrun].
      - simpl idx in Htr. simpl len in Htr. rewrite frame_slice_set_idx in Htr.
        replace (Z.to_nat (len inst - idx inst))
          with (j + Z.to_nat (len inst - (idx inst + Z.of_nat j)))%nat by lia.
        eapply frame_trace_poll; eauto. }
    destruct (Hfair (sym_hi b) d) as [m Hm].
    revert d k Hm. induction m as [|m IHm]; intros d k Hm.
    + apply Hprogress. exact Hm.
    + destruct (fifo_full (fst (reg_write (spi inst) ADDR_FIFOCTRL (sym_hi b) d)))
        eqn:Hfull; [|apply Hprogress; exact Hfull].
      (* refused at once: the same byte at the next poll *)
      destruct (poll_FRAME_push (clk k) inst d Hst) as
        (j & taken & refused & d1 & Hp & Hsent & Hend & Hfirst); [lia|exact Hlen|].
      fold b in Hfirst. rewrite Hfull in Hfirst. destruct Hfirst as [-> ->].
      rewrite Nat.iter_succ_r in Hm.
      destruct (IHm (retry elapse (spi inst) (sym_hi b) d) (k + 1)%nat Hm)
        as (n & d' & frm & Hrun & Htr).
      simpl Z.of_nat in Hp, Hend. rewrite Z.add_0_r in Hp, Hend.
      rewrite set_idx_same in Hp.
      exists (1 + n)%nat, d', ((taken ++ refused) ++ frm). split.
      * eapply run_trans; [apply run_one; exact Hp | exact Hrun].
      * inversion Hsent; subst. simpl app.
        destruct Hend as [(Habs & _)|(_ & Hrej)]; [lia|].
        fold b in Hrej.
        destruct (Z.to_nat (len inst - idx inst)) as [|q] eqn:Eq; [lia|].
        rewrite frame_slice_S in Htr |- *. fold b in Htr |- *.
        apply ft_reject; assumption.
Qed.

End Transmission.

Section WholeTransmission.
Context {P : Platform}.
Variable clk : nat -> Z.
Variable elapse : Device -> Device.

Lemma run_then n m k k' inst d i1 d1 l1 i2 d2 l2 :
  k' = (k + n)%nat ->
  run clk elapse n k inst d = (i1, d1, l1) ->
  run clk elapse m k' i1 d1 = (i2, d2, l2) ->
  run clk elapse (n + m) k inst d = (i2, d2, l1 ++ l2).
Proof. intros ->. apply run_trans. Qed.

Lemma nth_prefix_seq (l rest : list Z) :
  map (fun j => nth j (l ++ rest) 0) (seq 0 (length l)) = l.
Proof.
  induction l as [|x l IH]; [reflexivity|].
  simpl. f_equal. rewrite <- seq_shift, map_map. exact IH.
Qed.

(** After [memcpy], the first [n] bytes of the buffer are the first
    [n] bytes of the source. *)
Lemma frame_slice_memcpy (i : RADIO_Instance) (data : list Z) (n : Z) :
  (Z.to_nat n <= length data)%nat ->
  frame_slice (set_frame i (memcpy (frame i) data n)) 0 (Z.to_nat n) =
    firstn (Z.to_nat n) data.
Proof.
  intros Hn. unfold frame_slice, frame_at, memcpy. simpl frame.
  etransitivity;
    [|apply (nth_prefix_seq (firstn (Z.to_nat n) data)
               (skipn (Z.to_nat n) (frame i)))].
  rewrite length_firstn, Nat.min_l by exact Hn.
  apply map_ext. intros j. rewrite Z.add_0_l, Nat2Z.id. reflexivity.
Qed.

(** C3, as the code has it.  Take an IDLE instance, a frame with
    1 <= length < RADIO_FRAME_LENGTH held in a buffer of at least
    [length] bytes, a clock that stays at or below the start-up
    deadline for [a] polls and then passes it at a tick past the
    auto-range deadline (no ranging is due, as on every run from
    RADIO_Init), that stays before the preamble deadline for the next
    [b] polls and then reaches it, and a FIFO whose back-pressure ends.
    Then RADIO_SetFrame is accepted and finitely many polls bring the
    instance back to IDLE, cursor 0, having done exactly this on the
    bus, in this order: the synth-tx power mode, the full-tx power
    mode, [b] raw writes of the preamble byte to the FIFO-data register
    (one per poll, no symbol encoding), the frame as [length] symbols,
    one per byte, each offered again until the FIFO takes it, two
    attempts of the terminating zero symbol (one per POSTAMBLE call,
    taken or not, never retried), and the standby power mode. *)
Theorem transmission_returns_to_IDLE
    (inst : RADIO_Instance) (data : list Z) (len0 : Z) (d : Device)
    (a b : nat) :
  state inst = RADIO_STATE_IDLE ->
  1 <= len0 < RADIO_FRAME_LENGTH -> len0 < 2 ^ 16 ->
  (Z.to_nat len0 <= length data)%nat ->
  (forall k, (1 <= k <= a)%nat ->
     tick_at clk k <= u32 (tick_at clk 0 + STARTUP_DELAY)) ->
  u32 (tick_at clk 0 + STARTUP_DELAY) < tick_at clk (S a) ->
  nextAR inst < tick_at clk (S a) ->
  (forall k, (a + 2 <= k <= a + 1 + b)%nat ->
     tick_at clk k < u32 (tick_at clk (S a) + PREAMBLE_DURATION)) ->
  u32 (tick_at clk (S a) + PREAMBLE_DURATION) <= tick_at clk (a + 2 + b) ->
  fifo_relents elapse (spi inst) ->
  exists (tx : RADIO_Instance) (n : nat) (d' : Device)
         (synth full : BusOp) (pre frm p1 p2 : list BusOp) (off : BusOp),
    RADIO_SetFrame (Some inst) (Some data) len0 = Some tx /\
    run clk elapse n 0 tx d =
      (mkInstance (spi inst) RADIO_STATE_IDLE (frame tx) 0 len0 (nextAR inst),
       d', [synth; full] ++ pre ++ frm ++ p1 ++ p2 ++ [off]) /\
    is_write ADDR_PWRMODE PWRMODE_SYNTHTX synth /\
    is_write ADDR_PWRMODE PWRMODE_FULLTX full /\
    length pre = b /\
    Forall (is_write ADDR_FIFODATA PREAMBLE_MSG) pre /\
    frame_trace (firstn (Z.to_nat len0) data) frm /\
    sym_attempt 0 p1 /\ sym_attempt 0 p2 /\
    is_write ADDR_PWRMODE PWRMODE_STANDBY off.
Proof.
  intros Hst Hlen H16 Hdata Hwait Hgo Hnoar Hpre Hend Hfair.
  set (tx := mkInstance (spi inst) RADIO_STATE_START_TX
               (memcpy (frame inst) data len0) 0 len0 (nextAR inst)).
  assert (Hset : RADIO_SetFrame (Some inst) (Some data) len0 = Some tx).
  { unfold RADIO_SetFrame. rewrite Hst.
    replace (len0 =? 0) with false by (symmetry; apply Z.eqb_neq; lia).
    replace (len0 <? RADIO_FRAME_LENGTH) with true
      by (symmetry; apply Z.ltb_lt; lia).
    reflexivity. }
  (* poll 0: START_TX *)
  pose proof (run_one clk elapse 0 tx d _ _ _
                (poll_START_TX (clk 0) tx d eq_refl)) as R0.
  fold (tick_at clk 0) in R0. cbn [spi frame len nextAR tx] in R0.
  set (i1 := mkInstance (spi inst) RADIO_STATE_WAIT_TX
               (memcpy (frame inst) data len0)
               (u32 (tick_at clk 0 + STARTUP_DELAY)) len0 (nextAR inst)) in R0.
  (* polls 1 .. a: the start-up deadline is not passed *)
  match type of R0 with _ = (_, ?dd, _) => set (d1 := dd) in R0 end.
  pose proof (run_WAIT_TX_wait clk elapse a 1 i1 d1 eq_refl) as R1.
  specialize (R1 ltac:(intros j Hj; apply Hwait; lia)).
  (* poll a + 1: full tx, PREAMBLE *)
  pose proof (run_one clk elapse (S a) i1 (Nat.iter a elapse d1) _ _ _
                (poll_WAIT_TX_go (clk (S a)) i1 _ eq_refl Hgo Hnoar)) as R2.
  fold (tick_at clk (S a)) in R2. cbn [spi frame len nextAR i1] in R2.
  set (i2 := mkInstance (spi inst) RADIO_STATE_PREAMBLE
               (memcpy (frame inst) data len0)
               (u32 (tick_at clk (S a) + PREAMBLE_DURATION)) len0 (nextAR inst)) in R2.
  match type of R2 with _ = (_, ?dd, _) => set (d2 := dd) in R2 end.
  (* polls a + 2 .. a + 1 + b: one preamble byte each *)
  destruct (run_PREAMBLE_send clk elapse b (a + 2) i2 d2 eq_refl)
    as (d3 & pre & R3 & Hpl & Hpf);
    [intros j Hj; apply Hpre; lia|].
  (* poll a + 2 + b: the preamble deadline is reached *)
  pose proof (run_one clk elapse (a + 2 + b) i2 d3 _ _ _
                (poll_PREAMBLE_end (clk (a + 2 + b)) i2 d3 eq_refl Hend)) as R4.
  cbn [spi frame len nextAR i2] in R4.
  set (i3 := mkInstance (spi inst) RADIO_STATE_FRAME
               (memcpy (frame inst) data len0) 0 len0 (nextAR inst)) in R4.
  (* the frame *)
  destruct (run_FRAME clk elapse (Z.to_nat len0) i3 (elapse d3) (a + 3 + b))
    as (nf & d4 & frm & R5 & Hfrm);
    [reflexivity | simpl; lia | simpl; lia | simpl; lia | exact Hfair |].
  cbn [spi frame len nextAR idx i3] in R5, Hfrm.
  rewrite Z.sub_0_r in Hfrm.
  change (frame_slice i3 0 (Z.to_nat len0))
    with (frame_slice (set_frame inst (memcpy (frame inst) data len0)) 0
            (Z.to_nat len0)) in Hfrm.
  rewrite frame_slice_memcpy in Hfrm by exact Hdata.
  set (i4 := mkInstance (spi inst) RADIO_STATE_POSTAMBLE
               (memcpy (frame inst) data len0) 0 len0 (nextAR inst)) in R5.
  (* POSTAMBLE, twice *)
  destruct (poll_POSTAMBLE_first (clk (a + 3 + b + nf)) i4 d4 eq_refl eq_refl)
    as (d5 & p1 & R6 & Hp1).
  apply (run_one clk elapse) in R6.
  destruct (poll_POSTAMBLE_last (clk (a + 3 + b + nf + 1)) (set_idx i4 1)
              (elapse d5) eq_refl ltac:(simpl; lia))
    as (d6 & p2 & off & R7 & Hp2 & Hoff).
  apply (run_one clk elapse) in R7.
  cbn [spi frame len nextAR set_idx i4] in R7.
  (* all the polls in a row *)
  pose proof (run_then _ _ _ _ _ _ _ _ _ _ _ _ eq_refl R6 R7) as R67.
  pose proof (run_then _ _ _ _ _ _ _ _ _ _ _ _ eq_refl R5 R67) as R57.
  assert (E4 : (a + 3 + b = a + 2 + b + 1)%nat) by lia.
  assert (E2 : (a + 2 = S a + 1)%nat) by lia.
  pose proof (run_then _ _ _ _ _ _ _ _ _ _ _ _ E4 R4 R57) as R47.
  pose proof (run_then _ _ _ _ _ _ _ _ _ _ _ _ eq_refl R3 R47) as R37.
  pose proof (run_then _ _ _ _ _ _ _ _ _ _ _ _ E2 R2 R37) as R27.
  pose proof (run_then _ _ _ _ _ _ _ _ _ _ _ _ eq_refl R1 R27) as R17.
  pose proof (run_then _ _ _ _ _ _ _ _ _ _ _ _ eq_refl R0 R17) as R07.
  exists tx. do 9 eexists.
  split; [exact Hset|].
  split; [exact R07|].
  split; [eexists; reflexivity|].
  split; [eexists; reflexivity|].
  repeat split; assumption.
Qed.

End WholeTransmission.

(** ** The theorems on the simulated transceiver *)

Import Sim.

Ltac by_computation := vm_compute; first [reflexivity | congruence].

Lemma sim_level_retry (hi : Z) (d : Sim.SimDevice) :
  Sim.level (retry Sim.drain tt hi d) = Nat.pred (Sim.level d).
Proof. reflexivity. Qed.

Lemma sim_level_retries (hi : Z) (m : nat) (d : Sim.SimDevice) :
  Sim.level (Nat.iter m (retry Sim.drain tt hi) d) = (Sim.level d - m)%nat.
Proof.
  induction m as [|m IH].
  - simpl. lia.
  - rewrite Nat.iter_succ, sim_level_retry, IH. lia.
Qed.

Lemma sim_not_full (hi : Z) (d : Sim.SimDevice) :
  Sim.level d = 0%nat ->
  fifo_full (fst (reg_write tt ADDR_FIFOCTRL hi d)) = false.
Proof. destruct d as [p l q r f]. simpl. intros ->. reflexivity. Qed.

(** The simulated FIFO drains between polls, so its back-pressure ends. *)
Lemma sim_fifo_relents : fifo_relents Sim.drain tt.
Proof.
  intros hi d. exists (Sim.level d).
  apply sim_not_full. rewrite sim_level_retries. lia.
Qed.

(** The first transmission after RADIO_Init on the simulated transceiver:
    configuration at tick 0, IDLE at tick 100, a frame of one byte
    accepted, START_TX at tick 200, and at tick 300 WAIT_TX goes straight
    to PREAMBLE: after the 17 configuration writes the bus sees the two
    power-mode writes and the first preamble byte, and no write of the
    PLL-ranging register. *)
Example first_transmission_on_sim :
  exists boot,
    RADIO_Init (Some Sim.blank) (Some tt) = Some boot /\
    let r := host (P := Sim.platform) [HostProcess 0; HostProcess 100;
                   HostSetFrame (Some [0xFF]) 1;
                   HostProcess 200; HostProcess 300; HostProcess 400]
               boot (Sim.fresh 0) in
    state (fst (fst r)) = RADIO_STATE_PREAMBLE /\
    skipn 17 (reg_writes (snd r)) =
      [(ADDR_PWRMODE, PWRMODE_SYNTHTX); (ADDR_PWRMODE, PWRMODE_FULLTX);
       (ADDR_FIFODATA, PREAMBLE_MSG)] /\
    writes_to ADDR_PLLRANGING (snd r) = [].
Proof.
  eexists. split; [reflexivity|]. vm_compute. repeat split.
Qed.

Lemma WAIT_TX_branches_witness :
  state Sim.waiting_tx = RADIO_STATE_WAIT_TX /\
  u32 10 > idx Sim.waiting_tx /\ u32 10 <= nextAR Sim.waiting_tx /\
  RADIO_Process (Some Sim.waiting_tx) (Sim.world 10 (Sim.fresh 0)) =
    (Some (set_state Sim.waiting_tx RADIO_STATE_WAIT_AR),
     after_write Sim.waiting_tx ADDR_PLLRANGING CONF_PLLRANGING
       (Sim.world 10 (Sim.fresh 0)),
     [write_op Sim.waiting_tx ADDR_PLLRANGING CONF_PLLRANGING
        (Sim.world 10 (Sim.fresh 0))]).
Proof.
  split; [reflexivity|]. split; [by_computation|]. split; [by_computation|].
  destruct (WAIT_TX_branches Sim.waiting_tx (Sim.world 10 (Sim.fresh 0)) eq_refl)
    as (_ & H & _).
  apply H; by_computation.
Defined.

Lemma SetFrame_accepts_iff_witness :
  0 <= 3 < 2 ^ 16 /\
  RADIO_SetFrame (Some Sim.idle) (Some [1; 0; 7]) 3 =
    Some (mkInstance tt RADIO_STATE_START_TX
            (firstn (Z.to_nat 3) [1; 0; 7] ++ skipn (Z.to_nat 3) (frame Sim.idle))
            0 3 (nextAR Sim.idle)).
Proof.
  assert (H16 : 0 <= 3 < 2 ^ 16) by (split; by_computation).
  split; [exact H16|].
  destruct (SetFrame_accepts_iff (Some Sim.idle) (Some [1; 0; 7]) 3 H16)
    as (_ & H & _).
  apply (H Sim.idle [1; 0; 7]); try reflexivity. split; by_computation.
Defined.

Lemma Transmit10_symbol_and_backpressure_witness :
  Z.land (write_status Sim.in_frame ADDR_FIFOCTRL (Z.shiftr (symbol 1) 8)
            (Sim.world 0 (Sim.fresh 0))) STATE_S3_FIFO_FULL = 0 /\
  fst (fst (Transmit10 Sim.in_frame 1 (Sim.world 0 (Sim.fresh 0)))) = 1.
Proof.
  assert (Hclear : Z.land (write_status Sim.in_frame ADDR_FIFOCTRL
                             (Z.shiftr (symbol 1) 8) (Sim.world 0 (Sim.fresh 0)))
                     STATE_S3_FIFO_FULL = 0) by reflexivity.
  split; [exact Hclear|].
  destruct (Transmit10_symbol_and_backpressure Sim.in_frame
              (Sim.world 0 (Sim.fresh 0))) as (_ & _ & _ & _ & _ & H).
  destruct (H 1) as [Htaken _]. rewrite (Htaken Hclear). reflexivity.
Defined.


Lemma WAIT_AR_branches_witness :
  state Sim.waiting_ar = RADIO_STATE_WAIT_AR /\
  Z.land (read_value Sim.waiting_ar ADDR_PLLRANGING (Sim.world 10 Sim.failed_pll))
         MASK_PLLRANGING_ERROR <> 0 /\
  RADIO_Process (Some Sim.waiting_ar) (Sim.world 10 Sim.failed_pll) =
    (Some (set_state Sim.waiting_ar RADIO_STATE_CONFIGURE),
     after_read Sim.waiting_ar ADDR_PLLRANGING (Sim.world 10 Sim.failed_pll),
     [read_op Sim.waiting_ar ADDR_PLLRANGING (Sim.world 10 Sim.failed_pll)]).
Proof.
  split; [reflexivity|]. split; [by_computation|].
  destruct (WAIT_AR_branches Sim.waiting_ar (Sim.world 10 Sim.failed_pll))
    as [H _].
  destruct (H eq_refl) as [Herr _]. apply Herr. by_computation.
Defined.


Lemma PREAMBLE_raw_byte_witness :
  state Sim.in_preamble = RADIO_STATE_PREAMBLE /\
  u32 200 < idx Sim.in_preamble /\
  RADIO_Process (Some Sim.in_preamble) (Sim.world 200 (Sim.fresh 0)) =
    (Some Sim.in_preamble,
     after_write Sim.in_preamble ADDR_FIFODATA PREAMBLE_MSG (Sim.world 200 (Sim.fresh 0)),
     [write_op Sim.in_preamble ADDR_FIFODATA PREAMBLE_MSG (Sim.world 200 (Sim.fresh 0))]).
Proof.
  split; [reflexivity|]. split; [by_computation|].
  destruct (PREAMBLE_raw_byte Sim.in_preamble (Sim.world 200 (Sim.fresh 0)) eq_refl)
    as [H _].
  apply H. by_computation.
Defined.

(** Against C9 as it is worded: a PREAMBLE call before the deadline makes
    one write, of the byte 0x55 to the FIFO-data register, and no write
    of the FIFO-control register: no symbol attempt, not 8. *)
Lemma PREAMBLE_symbols_counterexample :
  state Sim.in_preamble = RADIO_STATE_PREAMBLE /\
  u32 200 < idx Sim.in_preamble /\
  reg_writes (snd (RADIO_Process (Some Sim.in_preamble) (Sim.world 200 (Sim.fresh 0))))
    = [(ADDR_FIFODATA, PREAMBLE_MSG)] /\
  ~ spec_preamble_attempts
      (snd (RADIO_Process (Some Sim.in_preamble) (Sim.world 200 (Sim.fresh 0)))).
Proof.
  split; [reflexivity|]. split; [by_computation|]. split; [by_computation|].
  unfold spec_preamble_attempts. vm_compute. discriminate.
Qed.

Lemma transmission_returns_to_IDLE_witness :
  state Sim.idle = RADIO_STATE_IDLE /\
  fifo_relents Sim.drain (spi Sim.idle) /\
  exists (tx : RADIO_Instance) (n : nat) (d' : Device)
         (synth full : BusOp) (pre frm p1 p2 : list BusOp) (off : BusOp),
    RADIO_SetFrame (Some Sim.idle) (Some [1; 0; 7]) 3 = Some tx /\
    run Sim.every_100ms Sim.drain n 0 tx (Sim.fresh 0) =
      (mkInstance (spi Sim.idle) RADIO_STATE_IDLE (frame tx) 0 3 (nextAR Sim.idle),
       d', [synth; full] ++ pre ++ frm ++ p1 ++ p2 ++ [off]) /\
    is_write ADDR_PWRMODE PWRMODE_SYNTHTX synth /\
    is_write ADDR_PWRMODE PWRMODE_FULLTX full /\
    length pre = 1%nat /\
    Forall (is_write ADDR_FIFODATA PREAMBLE_MSG) pre /\
    frame_trace (firstn (Z.to_nat 3) [1; 0; 7]) frm /\
    sym_attempt 0 p1 /\ sym_attempt 0 p2 /\
    is_write ADDR_PWRMODE PWRMODE_STANDBY off.
Proof.
  split; [reflexivity|]. split; [exact sim_fifo_relents|].
  apply (transmission_returns_to_IDLE (P := Sim.platform)
           Sim.every_100ms Sim.drain Sim.idle
           [1; 0; 7] 3 (Sim.fresh 0) 0 1).
  - reflexivity.
  - split; by_computation.
  - by_computation.
  - cbn. lia.
  - intros k Hk. lia.
  - by_computation.
  - by_computation.
  - intros k Hk. assert (k = 2%nat) as -> by lia. by_computation.
  - by_computation.
  - exact sim_fifo_relents.
Defined.

(** Against C3 as it is worded: a frame of one byte, 0xFF, on a FIFO that
    takes every symbol.  Eight polls bring the instance back to IDLE.  The
    preamble is one raw byte written to the FIFO-data register, and the
    FIFO takes three symbols in all: one for the frame byte and two
    terminating zero symbols, where the specification has preamble
    symbols, 8 symbols for the byte and one terminating symbol. *)
Lemma transmission_symbols_counterexample :
  RADIO_SetFrame (Some Sim.idle) (Some [0xFF]) 1 = Some Sim.one_byte /\
  state (fst (fst (run Sim.every_100ms Sim.drain 8 0 Sim.one_byte (Sim.fresh 0))))
    = RADIO_STATE_IDLE /\
  reg_writes (snd (run Sim.every_100ms Sim.drain 8 0 Sim.one_byte (Sim.fresh 0))) =
    [ (ADDR_PWRMODE, PWRMODE_SYNTHTX); (ADDR_PWRMODE, PWRMODE_FULLTX);
      (ADDR_FIFODATA, PREAMBLE_MSG);
      (ADDR_FIFOCTRL, sym_hi 0xFF); (ADDR_FIFODATA, sym_lo 0xFF);
      (ADDR_FIFOCTRL, sym_hi 0); (ADDR_FIFODATA, sym_lo 0);
      (ADDR_FIFOCTRL, sym_hi 0); (ADDR_FIFODATA, sym_lo 0);
      (ADDR_PWRMODE, PWRMODE_STANDBY) ] /\
  symbols_taken (snd (run Sim.every_100ms Sim.drain 8 0 Sim.one_byte (Sim.fresh 0))) =
    [sym_hi 0xFF; sym_hi 0; sym_hi 0] /\
  ~ spec_transmission_symbols 1
      (snd (run Sim.every_100ms Sim.drain 8 0 Sim.one_byte (Sim.fresh 0))).
Proof.
  split; [by_computation|]. split; [by_computation|]. split; [by_computation|].
  split; [by_computation|].
  assert (Htaken : symbols_taken
            (snd (run Sim.every_100ms Sim.drain 8 0 Sim.one_byte (Sim.fresh 0))) =
          [sym_hi 0xFF; sym_hi 0; sym_hi 0]) by by_computation.
  intros (pre & frm & Heq & Hlen).
  rewrite Htaken in Heq.
  apply (f_equal (@length Z)) in Heq.
  rewrite !length_app, Hlen in Heq. simpl in Heq. lia.
Qed.

(** * Further properties of radio.c *)

(** ** Register access on the SPI wire *)

Lemma land_below_bit7 (x : Z) : 0 <= x < 128 -> Z.land 128 x = 0.
Proof.
  intros Hx. apply Z.bits_inj'. intros n Hn.
  rewrite Z.land_spec, Z.bits_0.
  destruct (Z.eq_dec n 7) as [->|Hne].
  - replace (Z.testbit x 7) with false; [apply andb_false_r|].
    symmetry. destruct (Z.eq_dec x 0) as [->|Hx0]; [apply Z.bits_0|].
    apply Z.bits_above_log2; [lia|].
    apply Z.log2_lt_pow2; lia.
  - change 128 with (2 ^ 7). rewrite Z.pow2_bits_false by lia. reflexivity.
Qed.

Lemma write_address_byte (addr : Z) :
  Z.lor SPI_WRITE (Z.land addr 0x7F) = SPI_WRITE + addr mod 128.
Proof.
  change 0x7F with (Z.ones 7). rewrite Z.land_ones by lia.
  change (2 ^ 7) with 128. change SPI_WRITE with 128.
  assert (Hm : 0 <= addr mod 128 < 128) by (apply Z.mod_pos_bound; lia).
  rewrite <- Z.lxor_lor by (apply land_below_bit7; exact Hm).
  symmetry. apply Z.add_nocarry_lxor. apply land_below_bit7. exact Hm.
Qed.

Lemma read_address_byte (addr : Z) :
  Z.lor SPI_READ (Z.land addr 0x7F) = addr mod 128.
Proof.
  change 0x7F with (Z.ones 7). rewrite Z.land_ones by lia.
  change SPI_READ with 0. rewrite Z.lor_0_l. reflexivity.
Qed.

Section Wire.
Variable B : Platform.

Lemma framed_ret {A} (a : A) : framed (B := B) (ret (P := Recorder B) a).
Proof. intros w. unfold ret. simpl. rewrite app_nil_r. reflexivity. Qed.

Lemma framed_bind {A C} (m : @Bus (Recorder B) A) (k : A -> @Bus (Recorder B) C) :
  framed m -> (forall a, framed (k a)) -> framed (bind m k).
Proof.
  intros Hm Hk w. unfold bind.
  specialize (Hm w). destruct (m w) as [[a w1] l1].
  specialize (Hk a w1). destruct (k a w1) as [[c w2] l2].
  simpl in *. rewrite Hk, Hm, flat_map_app, app_assoc. reflexivity.
Qed.

Lemma framed_HAL_GetTick : framed (B := B) (HAL_GetTick (P := Recorder B)).
Proof. intros w. unfold HAL_GetTick. simpl. rewrite app_nil_r. reflexivity. Qed.

Lemma SetReg_wire (inst : @RADIO_Instance (Recorder B)) (addr data : Z)
    (w : @World (Recorder B)) :
  wire (snd (fst (SetReg inst addr data w))) =
    wire w ++ [CsEnable; Transfer (SPI_WRITE + addr mod 128) SPI_TIMEOUT;
               Transfer data SPI_TIMEOUT; CsDisable] /\
  (exists st, snd (SetReg inst addr data w) = [RegWrite addr data st]) /\
  fst (fst (SetReg inst addr data w)) =
    fst (@SPI_WriteRead B (spi inst) (SPI_WRITE + addr mod 128) SPI_TIMEOUT
           (@SPI_CS_Enable B (spi inst) (fst (dev w)))).
Proof.
  rewrite SetReg_eq. unfold reg_write, wire. rewrite write_address_byte.
  cbn. repeat split.
  - rewrite <- !app_assoc. reflexivity.
  - eexists. reflexivity.
Qed.

Lemma GetReg_wire (inst : @RADIO_Instance (Recorder B)) (addr : Z)
    (w : @World (Recorder B)) :
  wire (snd (fst (GetReg inst addr w))) =
    wire w ++ [CsEnable; Transfer (addr mod 128) SPI_TIMEOUT;
               Transfer 0xff SPI_TIMEOUT; CsDisable] /\
  (exists st v, snd (GetReg inst addr w) = [RegRead addr st v]) /\
  snd (fst (fst (GetReg inst addr w))) =
    fst (@SPI_WriteRead B (spi inst) 0xff SPI_TIMEOUT
           (snd (@SPI_WriteRead B (spi inst) (addr mod 128) SPI_TIMEOUT
                   (@SPI_CS_Enable B (spi inst) (fst (dev w)))))).
Proof.
  rewrite GetReg_eq. unfold reg_read, wire. rewrite read_address_byte.
  cbn. repeat split.
  - rewrite <- !app_assoc. reflexivity.
  - do 2 eexists. reflexivity.
Qed.

Lemma framed_SetReg (inst : @RADIO_Instance (Recorder B)) (addr data : Z) :
  framed (SetReg inst addr data).
Proof.
  intros w. destruct (SetReg_wire inst addr data w) as (Hw & (st & Hops) & _).
  rewrite Hw, Hops. simpl. reflexivity.
Qed.

Lemma framed_GetReg (inst : @RADIO_Instance (Recorder B)) (addr : Z) :
  framed (GetReg inst addr).
Proof.
  intros w. destruct (GetReg_wire inst addr w) as (Hw & (st & v & Hops) & _).
  rewrite Hw, Hops. simpl. reflexivity.
Qed.

Create HintDb wire.
#[local] Hint Resolve framed_ret framed_HAL_GetTick framed_SetReg framed_GetReg : wire.

Ltac framed_tac :=
  repeat (cbv beta zeta;
          first [ solve [auto with wire]
                | match goal with
                  | |- framed (if ?c then _ else _) => destruct c
                  | |- framed (bind _ _) => apply framed_bind; [ | intro ]
                  end ]).

Lemma framed_Transmit10 (inst : @RADIO_Instance (Recorder B)) (data : Z) :
  framed (Transmit10 inst data).
Proof. unfold Transmit10. framed_tac. Qed.

Lemma framed_DumpRegister_from (inst : @RADIO_Instance (Recorder B)) (n : nat) :
  forall i : Z, framed (DumpRegister_from inst n i).
Proof.
  induction n as [|n IH]; intros i; simpl DumpRegister_from; framed_tac.
Qed.

#[local] Hint Resolve framed_Transmit10 framed_DumpRegister_from : wire.

Lemma framed_frame_loop (fuel : nat) :
  forall inst : @RADIO_Instance (Recorder B), framed (frame_loop fuel inst).
Proof.
  induction fuel as [|fuel IH]; intros inst; simpl frame_loop; framed_tac.
Qed.

#[local] Hint Resolve framed_frame_loop : wire.

Lemma framed_Process_switch (inst : @RADIO_Instance (Recorder B)) :
  framed (Process_switch inst).
Proof.
  unfold Process_switch, DumpRegister. destruct (state inst); framed_tac.
Qed.

(** X1.  On the SPI wire [SetReg] is: chip select, the byte
    128 + addr mod 128, the data byte, chip deselect; [GetReg] is: chip
    select, the byte addr mod 128, the byte 0xff, chip deselect; all
    transfers with the time-out 100.  The address byte of a write is in
    128..255 and that of a read in 0..127, so no write looks like a read,
    and an address and the same address plus 128 name one register.
    [SetReg] returns what the device answers to the address byte;
    [GetReg] stores what it answers to the 0xff. *)
Theorem register_access_on_the_wire
    (inst : @RADIO_Instance (Recorder B)) (addr data : Z)
    (w : @World (Recorder B)) :
  wire (snd (fst (SetReg inst addr data w))) =
    wire w ++ [CsEnable; Transfer (128 + addr mod 128) 100;
               Transfer data 100; CsDisable] /\
  wire (snd (fst (GetReg inst addr w))) =
    wire w ++ [CsEnable; Transfer (addr mod 128) 100;
               Transfer 0xff 100; CsDisable] /\
  128 <= 128 + addr mod 128 < 256 /\ 0 <= addr mod 128 < 128 /\
  fst (fst (SetReg inst addr data w)) =
    fst (@SPI_WriteRead B (spi inst) (128 + addr mod 128) 100
           (@SPI_CS_Enable B (spi inst) (fst (dev w)))) /\
  snd (fst (fst (GetReg inst addr w))) =
    fst (@SPI_WriteRead B (spi inst) 0xff 100
           (snd (@SPI_WriteRead B (spi inst) (addr mod 128) 100
                   (@SPI_CS_Enable B (spi inst) (fst (dev w)))))).
Proof.
  destruct (SetReg_wire inst addr data w) as (Hs & _ & Hst).
  destruct (GetReg_wire inst addr w) as (Hg & _ & Hv).
  assert (Hm : 0 <= addr mod 128 < 128) by (apply Z.mod_pos_bound; lia).
  split; [exact Hs|]. split; [exact Hg|].
  split; [lia|]. split; [exact Hm|]. split; [exact Hst | exact Hv].
Qed.

(** X2.  Whatever the state, what one call of RADIO_Process does on the
    SPI bus is the register transactions it reports, one after the other:
    chip select is asserted and released once per transaction, with
    exactly two transfers in between, and the call ends with chip select
    released.  A call on a null instance does nothing. *)
Theorem Process_on_the_wire
    (inst : @RADIO_Instance (Recorder B)) (w : @World (Recorder B)) :
  wire (snd (fst (RADIO_Process (Some inst) w))) =
    wire w ++ flat_map spi_frame (snd (RADIO_Process (Some inst) w)) /\
  length (flat_map spi_frame (snd (RADIO_Process (Some inst) w))) =
    (4 * length (snd (RADIO_Process (Some inst) w)))%nat /\
  RADIO_Process (P := Recorder B) None w = (None, w, []).
Proof.
  split; [|split; [|reflexivity]].
  - rewrite RADIO_Process_Some.
    pose proof (framed_Process_switch inst w) as H.
    destruct (Process_switch inst w) as [[i' w'] l]. exact H.
  - induction (snd (RADIO_Process (Some inst) w)) as [|op l IH]; [reflexivity|].
    change (flat_map spi_frame (op :: l)) with (spi_frame op ++ flat_map spi_frame l).
    rewrite length_app, IH. destruct op; simpl; lia.
Qed.

End Wire.

(** ** What one call can and cannot do *)

Section PerCall.
Context {P : Platform}.

Lemma frame_loop_length (fuel : nat) :
  forall (inst : RADIO_Instance) (w : World),
    (length (snd (frame_loop fuel inst w)) <= 2 * fuel)%nat.
Proof.
  induction fuel as [|fuel IH]; intros inst w; simpl frame_loop.
  - simpl. lia.
  - destruct (idx inst <? len inst); [|simpl; lia].
    rewrite bind_Transmit10. cbv zeta.
    destruct (fifo_full _).
    + change (0 =? 0) with true. cbv iota. rewrite cons_op_ret. simpl. lia.
    + change (1 =? 0) with false. cbv iota.
      match goal with
      | |- context [frame_loop fuel ?i ?w0] =>
          specialize (IH i w0);
          destruct (frame_loop fuel i w0) as [[i' w'] l']
      end.
      simpl in *. lia.
Qed.

Lemma DumpRegister_from_addresses inst (n : nat) :
  forall (i : Z) (w : World),
    map op_addr (snd (DumpRegister_from inst n i w)) =
      map (fun j => i + Z.of_nat j) (seq 0 n) /\
    snd (fst (DumpRegister_from inst n i w)) =
      mkWorld (tick w) (dev (snd (fst (DumpRegister_from inst n i w)))).
Proof.
  induction n as [|n IH]; intros i w; simpl DumpRegister_from.
  - split; [reflexivity|]. destruct w; reflexivity.
  - rewrite bind_GetReg.
    destruct (IH (i + 1) (after_read inst i w)) as [Ha Hw].
    destruct (DumpRegister_from inst n (i + 1) _) as [[u w'] l].
    simpl in *. split; [|exact Hw].
    rewrite Z.add_0_r. f_equal.
    rewrite Ha, <- seq_shift, map_map. apply map_ext. intros j. lia.
Qed.

(** A call leaves the bus handle, the frame buffer and the frame length
    alone, and moves the state along the graph [may_step]. *)
Lemma Process_switch_keeps (inst : RADIO_Instance) (w : World) :
  spi (fst (fst (Process_switch inst w))) = spi inst /\
  frame (fst (fst (Process_switch inst w))) = frame inst /\
  len (fst (fst (Process_switch inst w))) = len inst /\
  may_step (state inst) (state (fst (fst (Process_switch inst w)))) = true.
Proof.
  destruct (state inst) eqn:Hst.
  - rewrite CONFIGURE_result by exact Hst. repeat split.
  - unfold Process_switch. rewrite Hst. autorewrite with bus.
    destruct (u32 (tick w) >? idx inst); simpl; rewrite ?Hst; repeat split.
  - unfold Process_switch. rewrite Hst. simpl. rewrite ?Hst. repeat split.
  - unfold Process_switch. rewrite Hst. autorewrite with bus. simpl.
    rewrite ?Hst. repeat split.
  - unfold Process_switch. rewrite Hst. autorewrite with bus.
    destruct (u32 (tick w) >? idx inst); autorewrite with bus;
      [destruct (u32 (tick w) >? nextAR inst); autorewrite with bus|];
      simpl; rewrite ?Hst; repeat split.
  - unfold Process_switch. rewrite Hst. autorewrite with bus.
    destruct (negb _); [|destruct (Z.land _ MASK_PLLRANGING_START =? 0)];
      autorewrite with bus; simpl; rewrite ?Hst; repeat split.
  - unfold Process_switch. rewrite Hst. autorewrite with bus.
    destruct (u32 (tick w) <? idx inst); autorewrite with bus;
      simpl; rewrite ?Hst; repeat split.
  - unfold Process_switch. rewrite Hst.
    destruct (idx inst >=? len inst); [simpl; repeat split|].
    destruct (frame_loop_fields (Z.to_nat (len inst - idx inst)) inst w) as [v Hv].
    rewrite Hv. simpl. rewrite ?Hst. repeat split.
  - unfold Process_switch. rewrite Hst. rewrite bind_Transmit10. cbv zeta.
    destruct (fifo_full _); destruct (idx inst =? 0);
      autorewrite with bus; simpl; rewrite ?Hst; repeat split.
Qed.

Lemma Process_switch_length (inst : RADIO_Instance) (w : World) :
  (length (snd (Process_switch inst w)) <= ops_bound inst)%nat /\
  (state inst = RADIO_STATE_CONFIGURE ->
   length (snd (Process_switch inst w)) = 98%nat).
Proof.
  unfold ops_bound.
  destruct (state inst) eqn:Hst.
  - assert (H98 : length (snd (Process_switch inst w)) = 98%nat).
    { unfold Process_switch. rewrite Hst. autorewrite with bus. unfold bind.
      match goal with
      | |- context [DumpRegister ?j ?w1] =>
          destruct (DumpRegister_from_addresses j (Z.to_nat (MAX_ADDR + 1)) 0 w1)
            as [Ha _];
          fold (DumpRegister j) in Ha;
          destruct (DumpRegister j w1) as [[u wd] ld]
      end.
      apply (f_equal (@length Z)) in Ha.
      rewrite !length_map, length_seq in Ha. simpl in Ha.
      simpl. rewrite app_nil_r, Ha. reflexivity. }
    split; [|intros _; exact H98]. rewrite H98. vm_compute. apply le_n.
  - split; [|discriminate]. unfold Process_switch. rewrite Hst.
    autorewrite with bus. destruct (u32 (tick w) >? idx inst); simpl; lia.
  - split; [|discriminate]. unfold Process_switch. rewrite Hst. simpl. lia.
  - split; [|discriminate]. unfold Process_switch. rewrite Hst.
    autorewrite with bus. simpl. lia.
  - split; [|discriminate]. unfold Process_switch. rewrite Hst.
    autorewrite with bus.
    destruct (u32 (tick w) >? idx inst); autorewrite with bus;
      [destruct (u32 (tick w) >? nextAR inst); autorewrite with bus|];
      simpl; lia.
  - split; [|discriminate]. unfold Process_switch. rewrite Hst.
    autorewrite with bus.
    destruct (negb _); [|destruct (Z.land _ MASK_PLLRANGING_START =? 0)];
      autorewrite with bus; simpl; lia.
  - split; [|discriminate]. unfold Process_switch. rewrite Hst.
    autorewrite with bus.
    destruct (u32 (tick w) <? idx inst); autorewrite with bus; simpl; lia.
  - split; [|discriminate]. unfold Process_switch. rewrite Hst.
    destruct (idx inst >=? len inst); [simpl; lia|].
    apply frame_loop_length.
  - split; [|discriminate]. unfold Process_switch. rewrite Hst.
    rewrite bind_Transmit10. cbv zeta.
    destruct (fifo_full _); destruct (idx inst =? 0);
      autorewrite with bus; simpl; lia.
Qed.

Lemma poll_IDLE now (inst : RADIO_Instance) d :
  state inst = RADIO_STATE_IDLE -> poll now inst d = (inst, d, []).
Proof.
  intros Hst. rewrite poll_eq. unfold Process_switch. rewrite Hst. reflexivity.
Qed.

(** X3.  One call of RADIO_Process never changes the bus handle, the
    frame buffer or the frame length, and a host call on an instance that
    is not IDLE does not change them either, RADIO_SetFrame included: a
    frame that is being sent cannot be overwritten. *)
Theorem frame_in_flight_is_kept (c : HostCall) (inst : RADIO_Instance)
    (d : Device) :
  state inst <> RADIO_STATE_IDLE \/ (exists now, c = HostProcess now) ->
  spi (fst (fst (host_step c inst d))) = spi inst /\
  frame (fst (fst (host_step c inst d))) = frame inst /\
  len (fst (fst (host_step c inst d))) = len inst.
Proof.
  intros H.
  assert (Hp : forall now,
    spi (fst (fst (poll now inst d))) = spi inst /\
    frame (fst (fst (poll now inst d))) = frame inst /\
    len (fst (fst (poll now inst d))) = len inst).
  { intros now. rewrite poll_eq.
    destruct (Process_switch_keeps inst (mkWorld now d)) as (H1 & H2 & H3 & _).
    destruct (Process_switch inst (mkWorld now d)) as [[i' w'] l'].
    simpl in *. auto. }
  destruct c as [now|data len0|f]; simpl.
  - apply Hp.
  - destruct H as [Hne|(now & Hc)]; [|discriminate Hc].
    destruct data as [bytes|]; [|auto].
    destruct (RADIO_State_eqb (state inst) RADIO_STATE_IDLE) eqn:E; [|auto].
    apply RADIO_State_eqb_eq in E. contradiction.
  - auto.
Qed.

(** X4.  One call of RADIO_Process makes a bounded number of register
    transactions: exactly 98 in CONFIGURE (17 writes and the 81 reads of
    the register dump), at most two per byte left of the frame in FRAME,
    at most 3 in POSTAMBLE, at most 2 in WAIT_AR, at most 1 in START_TX,
    WAIT_TX and PREAMBLE, and none in IDLE and WAIT_CONF. *)
Theorem Process_transactions_bounded (inst : RADIO_Instance) (w : World) :
  (length (snd (RADIO_Process (Some inst) w)) <= ops_bound inst)%nat /\
  (state inst = RADIO_STATE_CONFIGURE ->
   length (snd (RADIO_Process (Some inst) w)) = 98%nat).
Proof.
  rewrite RADIO_Process_Some.
  destruct (Process_switch_length inst w) as [H1 H2].
  destruct (Process_switch inst w) as [[i' w'] l']. simpl in *. auto.
Qed.

(** X5.  An IDLE instance is quiet: however often RADIO_Process is
    called, at whatever ticks and whatever the device does between the
    calls, the instance stays as it is and nothing goes over the bus
    (the switch has no case for IDLE). *)
Theorem IDLE_is_quiet (clk : nat -> Z) (elapse : Device -> Device)
    (n k : nat) (inst : RADIO_Instance) (d : Device) :
  state inst = RADIO_STATE_IDLE ->
  run clk elapse n k inst d = (inst, Nat.iter n elapse d, []).
Proof.
  intros Hst. revert k d. induction n as [|n IH]; intros k d; [reflexivity|].
  simpl run. rewrite poll_IDLE by exact Hst. rewrite IH.
  rewrite <- Nat.iter_succ_r. reflexivity.
Qed.

(** X6.  The register dump of CONFIGURE reads the 81 registers 0x00 to
    0x50, each once and in rising order (the FIFO-data and the
    PLL-ranging register among them), writes nothing and leaves the tick
    alone. *)
Theorem DumpRegister_reads_every_register (inst : RADIO_Instance) (w : World) :
  map op_addr (snd (DumpRegister inst w)) = map Z.of_nat (seq 0 81) /\
  reg_writes (snd (DumpRegister inst w)) = [] /\
  tick (snd (fst (DumpRegister inst w))) = tick w /\
  In ADDR_FIFODATA (map op_addr (snd (DumpRegister inst w))) /\
  In ADDR_PLLRANGING (map op_addr (snd (DumpRegister inst w))).
Proof.
  unfold DumpRegister.
  destruct (DumpRegister_from_addresses inst (Z.to_nat (MAX_ADDR + 1)) 0 w)
    as [Ha Hw].
  assert (Hall : map op_addr (snd (DumpRegister_from inst (Z.to_nat (MAX_ADDR + 1)) 0 w))
                 = map Z.of_nat (seq 0 81)).
  { rewrite Ha. reflexivity. }
  split; [exact Hall|].
  split; [apply DumpRegister_from_reads|].
  split; [rewrite Hw; reflexivity|].
  rewrite Hall. split; vm_compute; tauto.
Qed.

End PerCall.

(** ** Phases outside the transmission itself *)

Section MorePolls.
Context {P : Platform}.

Lemma poll_CONFIGURE now (inst : RADIO_Instance) d :
  state inst = RADIO_STATE_CONFIGURE ->
  exists (d' : Device) (ops : list BusOp),
    poll now inst d =
      (mkInstance (spi inst) RADIO_STATE_WAIT_CONF (frame inst)
         (u32 (u32 now + CONFIGURATION_DELAY)) (len inst) 0, d', ops) /\
    reg_writes ops = CONFIGURATION.
Proof.
  intros Hst. rewrite poll_eq.
  pose proof (CONFIGURE_result inst (mkWorld now d) Hst) as Hr.
  pose proof (CONFIGURE_reg_writes inst (mkWorld now d) Hst) as Hw.
  destruct (Process_switch inst (mkWorld now d)) as [[i' w'] l'].
  simpl in *. subst i'. eauto.
Qed.

Lemma poll_WAIT_CONF_wait now (inst : RADIO_Instance) d :
  state inst = RADIO_STATE_WAIT_CONF -> u32 now <= idx inst ->
  poll now inst d = (inst, d, []).
Proof.
  intros Hst H. rewrite poll_eq. unfold Process_switch. rewrite Hst.
  autorewrite with bus. cbn [tick].
  replace (u32 now >? idx inst) with false
    by (symmetry; rewrite Z.gtb_ltb; apply Z.ltb_ge; lia).
  reflexivity.
Qed.

Lemma poll_WAIT_CONF_go now (inst : RADIO_Instance) d :
  state inst = RADIO_STATE_WAIT_CONF -> idx inst < u32 now ->
  poll now inst d = (set_state inst RADIO_STATE_IDLE, d, []).
Proof.
  intros Hst H. rewrite poll_eq. unfold Process_switch. rewrite Hst.
  autorewrite with bus. cbn [tick].
  replace (u32 now >? idx inst) with true by (symmetry; apply Z.gtb_lt; lia).
  reflexivity.
Qed.

Lemma poll_WAIT_AR_error now (inst : RADIO_Instance) d :
  state inst = RADIO_STATE_WAIT_AR ->
  Z.land (ranging_value (spi inst) d) MASK_PLLRANGING_ERROR <> 0 ->
  exists rd,
    poll now inst d =
      (set_state inst RADIO_STATE_CONFIGURE,
       snd (reg_read (spi inst) ADDR_PLLRANGING d), [rd]) /\
    reg_writes [rd] = [].
Proof.
  intros Hst He. rewrite poll_eq. unfold Process_switch. rewrite Hst.
  autorewrite with bus. cbn [dev]. fold (ranging_value (spi inst) d).
  destruct (Z.eqb_spec (Z.land (ranging_value (spi inst) d) MASK_PLLRANGING_ERROR) 0);
    [contradiction|].
  cbv beta iota delta [negb]. rewrite cons_op_ret.
  eexists. split; reflexivity.
Qed.

Lemma poll_WAIT_AR_busy now (inst : RADIO_Instance) d :
  state inst = RADIO_STATE_WAIT_AR ->
  Z.land (ranging_value (spi inst) d) MASK_PLLRANGING_ERROR = 0 ->
  Z.land (ranging_value (spi inst) d) MASK_PLLRANGING_START <> 0 ->
  exists rd,
    poll now inst d = (inst, snd (reg_read (spi inst) ADDR_PLLRANGING d), [rd]) /\
    reg_writes [rd] = [] /\ op_addr rd = ADDR_PLLRANGING.
Proof.
  intros Hst He Hs. rewrite poll_eq. unfold Process_switch. rewrite Hst.
  autorewrite with bus. cbn [dev]. fold (ranging_value (spi inst) d).
  rewrite He. change (0 =? 0) with true. cbv beta iota delta [negb].
  destruct (Z.eqb_spec (Z.land (ranging_value (spi inst) d) MASK_PLLRANGING_START) 0);
    [contradiction|].
  rewrite cons_op_ret. eexists. repeat split.
Qed.

Lemma poll_WAIT_AR_done now (inst : RADIO_Instance) d :
  state inst = RADIO_STATE_WAIT_AR ->
  Z.land (ranging_value (spi inst) d) MASK_PLLRANGING_ERROR = 0 ->
  Z.land (ranging_value (spi inst) d) MASK_PLLRANGING_START = 0 ->
  exists rd full d',
    poll now inst d =
      (mkInstance (spi inst) RADIO_STATE_PREAMBLE (frame inst)
         (u32 (u32 now + PREAMBLE_DURATION)) (len inst)
         (u32 (u32 now + AR_INTERVAL)), d', [rd; full]) /\
    op_addr rd = ADDR_PLLRANGING /\ reg_writes [rd] = [] /\
    is_write ADDR_PWRMODE PWRMODE_FULLTX full.
Proof.
  intros Hst He Hs. rewrite poll_eq. unfold Process_switch. rewrite Hst.
  autorewrite with bus. cbn [dev]. fold (ranging_value (spi inst) d).
  rewrite He, Hs. change (0 =? 0) with true. cbv beta iota delta [negb].
  autorewrite with bus. cbn [tick].
  do 3 eexists. split; [reflexivity|]. repeat split. eexists. reflexivity.
Qed.

End MorePolls.

Section Phases.
Context {P : Platform}.
Variable clk : nat -> Z.
Variable elapse : Device -> Device.

(** Polls that only wait for the configuration deadline. *)
Lemma run_WAIT_CONF_wait (a : nat) :
  forall (k : nat) (inst : RADIO_Instance) (d : Device),
    state inst = RADIO_STATE_WAIT_CONF ->
    (forall j, (k <= j < k + a)%nat -> tick_at clk j <= idx inst) ->
    run clk elapse a k inst d = (inst, Nat.iter a elapse d, []).
Proof.
  induction a as [|a IH]; intros k inst d Hst Hw; [reflexivity|].
  simpl run. rewrite poll_WAIT_CONF_wait; [|exact Hst|apply Hw; lia].
  rewrite IH; [|exact Hst|intros j Hj; apply Hw; lia].
  rewrite <- Nat.iter_succ_r. reflexivity.
Qed.

(** From CONFIGURE to IDLE: the configuration, [a] polls of waiting, and
    the poll that sees the deadline passed. *)
Lemma run_CONFIGURE_to_IDLE (a k : nat) (inst : RADIO_Instance) (d : Device) :
  state inst = RADIO_STATE_CONFIGURE ->
  (forall j, (k < j <= k + a)%nat ->
     tick_at clk j <= u32 (tick_at clk k + CONFIGURATION_DELAY)) ->
  u32 (tick_at clk k + CONFIGURATION_DELAY) < tick_at clk (k + a + 1) ->
  exists (d' : Device) (ops : list BusOp),
    run clk elapse (a + 2) k inst d =
      (mkInstance (spi inst) RADIO_STATE_IDLE (frame inst)
         (u32 (tick_at clk k + CONFIGURATION_DELAY)) (len inst) 0, d', ops) /\
    reg_writes ops = CONFIGURATION.
Proof.
  intros Hst Hwait Hgo.
  destruct (poll_CONFIGURE (clk k) inst d Hst) as (d1 & ops & Hp & Hw).
  fold (tick_at clk k) in Hp.
  set (i1 := mkInstance (spi inst) RADIO_STATE_WAIT_CONF (frame inst)
               (u32 (tick_at clk k + CONFIGURATION_DELAY)) (len inst) 0) in Hp.
  pose proof (run_one clk elapse k inst d _ _ _ Hp) as R0.
  pose proof (run_WAIT_CONF_wait a (k + 1) i1 (elapse d1) eq_refl) as R1.
  specialize (R1 ltac:(intros j Hj; apply Hwait; lia)).
  pose proof (run_one clk elapse (k + 1 + a) i1 (Nat.iter a elapse (elapse d1)) _ _ _
                (poll_WAIT_CONF_go (clk (k + 1 + a)) i1 _ eq_refl
                   ltac:(unfold tick_at in Hgo |- *;
                         replace (k + 1 + a)%nat with (k + a + 1)%nat by lia;
                         exact Hgo))) as R2.
  pose proof (run_trans clk elapse _ _ _ _ _ _ _ _ _ _ _ R1 R2) as R12.
  pose proof (run_trans clk elapse _ _ _ _ _ _ _ _ _ _ _ R0 R12) as R012.
  replace (1 + (a + 1))%nat with (a + 2)%nat in R012 by lia.
  do 2 eexists. split; [exact R012|].
  rewrite !app_nil_r. exact Hw.
Qed.

(** X7.  Booting.  After RADIO_Init, whatever the memory of the instance
    held before, the first poll writes the configuration; the instance
    then waits as long as the tick is not past the configuration
    deadline, and the first poll that sees it past makes the instance
    IDLE.  Nothing but the configuration has been written, the frame
    length is 0 and the auto-range deadline is 0. *)
Theorem boot_reaches_IDLE (mem : RADIO_Instance) (s : SPI_Init_Struct)
    (d : Device) (a : nat) :
  (forall j, (0 < j <= a)%nat ->
     tick_at clk j <= u32 (tick_at clk 0 + CONFIGURATION_DELAY)) ->
  u32 (tick_at clk 0 + CONFIGURATION_DELAY) < tick_at clk (a + 1) ->
  exists (inst : RADIO_Instance) (d' : Device) (ops : list BusOp),
    RADIO_Init (Some mem) (Some s) = Some inst /\
    run clk elapse (a + 2) 0 inst d =
      (mkInstance s RADIO_STATE_IDLE (frame mem)
         (u32 (tick_at clk 0 + CONFIGURATION_DELAY)) 0 0, d', ops) /\
    reg_writes ops = CONFIGURATION.
Proof.
  intros Hwait Hgo.
  eexists. 
  destruct (run_CONFIGURE_to_IDLE a 0
              (set_state (set_len (set_idx (set_spi mem s) 0) 0) RADIO_STATE_CONFIGURE)
              d eq_refl)
    as (d' & ops & Hrun & Hw).
  - intros j Hj. apply Hwait. lia.
  - exact Hgo.
  - exists d', ops. split; [reflexivity|]. split; [exact Hrun | exact Hw].
Qed.

(** X8.  A ranging error drops the frame.  For an instance in WAIT_AR,
    when the poll reads the error flag, the next polls write the
    configuration again and bring the instance to IDLE: the bus has seen
    a read of the PLL-ranging register and the configuration, nothing
    has been written to the FIFO, and the frame that was to be sent and
    its length are still in the instance, unsent. *)
Theorem ranging_error_drops_the_frame (inst : RADIO_Instance) (d : Device)
    (a : nat) :
  state inst = RADIO_STATE_WAIT_AR ->
  Z.land (ranging_value (spi inst) d) MASK_PLLRANGING_ERROR <> 0 ->
  (forall j, (1 < j <= 1 + a)%nat ->
     tick_at clk j <= u32 (tick_at clk 1 + CONFIGURATION_DELAY)) ->
  u32 (tick_at clk 1 + CONFIGURATION_DELAY) < tick_at clk (a + 2) ->
  exists (d' : Device) (ops : list BusOp),
    run clk elapse (a + 3) 0 inst d =
      (mkInstance (spi inst) RADIO_STATE_IDLE (frame inst)
         (u32 (tick_at clk 1 + CONFIGURATION_DELAY)) (len inst) 0, d', ops) /\
    reg_writes ops = CONFIGURATION /\
    writes_to ADDR_FIFOCTRL ops = [] /\ writes_to ADDR_FIFODATA ops = [].
Proof.
  intros Hst He Hwait Hgo.
  destruct (poll_WAIT_AR_error (clk 0) inst d Hst He) as (rd & Hp & Hrd).
  pose proof (run_one clk elapse 0 inst d _ _ _ Hp) as R0.
  destruct (run_CONFIGURE_to_IDLE a 1 (set_state inst RADIO_STATE_CONFIGURE)
              (elapse (snd (reg_read (spi inst) ADDR_PLLRANGING d))) eq_refl)
    as (d' & ops & R1 & Hw).
  - intros j Hj. apply Hwait. lia.
  - replace (1 + a + 1)%nat with (a + 2)%nat by lia. exact Hgo.
  - pose proof (run_trans clk elapse _ _ _ _ _ _ _ _ _ _ _ R0 R1) as R01.
    replace (1 + (a + 2))%nat with (a + 3)%nat in R01 by lia.
    exists d', ([rd] ++ ops). split; [exact R01|].
    assert (Hall : reg_writes ([rd] ++ ops) = CONFIGURATION).
    { rewrite reg_writes_app, Hrd, Hw. reflexivity. }
    split; [exact Hall|].
    rewrite !writes_to_reg_writes, Hall. split; reflexivity.
Qed.

End Phases.

Section Deadlines.
Context {P : Platform}.
Variable clk : nat -> Z.
Variable elapse : Device -> Device.

Lemma tick_at_range (k : nat) : 0 <= tick_at clk k < 2 ^ 32.
Proof. apply u32_range. Qed.

(** X9.  The PLL ranging is polled.  In WAIT_AR every poll reads the
    PLL-ranging register once; as long as the value read has the start
    bit set and the error bit clear the instance stays as it is, and the
    first poll that reads both bits clear writes the full-tx power mode
    and enters PREAMBLE, with the auto-range deadline AR_INTERVAL and the
    preamble deadline PREAMBLE_DURATION after the tick of that poll. *)
Theorem ranging_is_polled (m : nat) :
  forall (k : nat) (inst : RADIO_Instance) (d : Device),
    state inst = RADIO_STATE_WAIT_AR ->
    (forall j, (j < m)%nat ->
       let v := ranging_value (spi inst) (Nat.iter j (reread elapse (spi inst)) d) in
       Z.land v MASK_PLLRANGING_ERROR = 0 /\ Z.land v MASK_PLLRANGING_START <> 0) ->
    (let v := ranging_value (spi inst) (Nat.iter m (reread elapse (spi inst)) d) in
     Z.land v MASK_PLLRANGING_ERROR = 0 /\ Z.land v MASK_PLLRANGING_START = 0) ->
    exists (d' : Device) (reads : list BusOp) (full : BusOp),
      run clk elapse (m + 1) k inst d =
        (mkInstance (spi inst) RADIO_STATE_PREAMBLE (frame inst)
           (u32 (tick_at clk (k + m) + PREAMBLE_DURATION)) (len inst)
           (u32 (tick_at clk (k + m) + AR_INTERVAL)), d', reads ++ [full]) /\
      length reads = (m + 1)%nat /\
      Forall (fun op => op_addr op = ADDR_PLLRANGING /\ reg_writes [op] = []) reads /\
      is_write ADDR_PWRMODE PWRMODE_FULLTX full.
Proof.
  induction m as [|m IH]; intros k inst d Hst Hbusy Hdone.
  - simpl in Hdone. destruct Hdone as [He Hs].
    destruct (poll_WAIT_AR_done (clk k) inst d Hst He Hs)
      as (rd & full & d' & Hp & Ha & Hr & Hf).
    apply (run_one clk elapse) in Hp.
    rewrite Nat.add_0_r. fold (tick_at clk k) in Hp.
    exists (elapse d'), [rd], full. split; [exact Hp|].
    split; [reflexivity|]. split; [|exact Hf].
    constructor; [split; assumption | constructor].
  - destruct (Hbusy 0%nat ltac:(lia)) as [He Hs]. simpl in He, Hs.
    destruct (poll_WAIT_AR_busy (clk k) inst d Hst He Hs) as (rd & Hp & Hr & Ha).
    apply (run_one clk elapse) in Hp.
    destruct (IH (k + 1)%nat inst (reread elapse (spi inst) d) Hst)
      as (d' & reads & full & Hrun & Hl & Hall & Hf).
    + intros j Hj. rewrite <- Nat.iter_succ_r. apply Hbusy. lia.
    + rewrite <- Nat.iter_succ_r. exact Hdone.
    + pose proof (run_trans clk elapse _ _ _ _ _ _ _ _ _ _ _ Hp Hrun) as R.
      replace (1 + (m + 1))%nat with (S m + 1)%nat in R by lia.
      replace (k + 1 + m)%nat with (k + S m)%nat in R by lia.
      exists d', (rd :: reads), full. split; [exact R|].
      split; [simpl; rewrite Hl; reflexivity|]. split; [|exact Hf].
      constructor; [split; assumption | exact Hall].
Qed.

Lemma poll_POSTAMBLE_refused now (inst : RADIO_Instance) d :
  state inst = RADIO_STATE_POSTAMBLE ->
  fifo_full (fst (reg_write (spi inst) ADDR_FIFOCTRL (sym_hi 0) d)) = true ->
  exists st off,
    poll now inst d =
      (if idx inst =? 0
       then (set_idx inst (u32 (idx inst + 1)),
             snd (reg_write (spi inst) ADDR_FIFOCTRL (sym_hi 0) d),
             [RegWrite ADDR_FIFOCTRL (sym_hi 0) st])
       else (mkInstance (spi inst) RADIO_STATE_IDLE (frame inst) 0 (len inst)
               (nextAR inst),
             snd (reg_write (spi inst) ADDR_PWRMODE PWRMODE_STANDBY
                    (snd (reg_write (spi inst) ADDR_FIFOCTRL (sym_hi 0) d))),
             [RegWrite ADDR_FIFOCTRL (sym_hi 0) st; off])) /\
    is_write ADDR_PWRMODE PWRMODE_STANDBY off.
Proof.
  intros Hst Hfull. rewrite poll_eq. unfold Process_switch. rewrite Hst.
  rewrite bind_Transmit10. cbv zeta. unfold write_status. cbn [dev].
  rewrite Hfull.
  exists (fst (reg_write (spi inst) ADDR_FIFOCTRL (sym_hi 0) d)),
    (RegWrite ADDR_PWRMODE PWRMODE_STANDBY
       (fst (reg_write (spi inst) ADDR_PWRMODE PWRMODE_STANDBY
               (snd (reg_write (spi inst) ADDR_FIFOCTRL (sym_hi 0) d))))).
  split; [|eexists; reflexivity].
  destruct (idx inst =? 0); autorewrite with bus; reflexivity.
Qed.

(** X10.  POSTAMBLE takes two calls, whatever the FIFO says.  Each call
    offers the terminating zero symbol once, and the second one then
    writes the standby power mode and makes the instance IDLE with the
    cursor at 0.  The symbol is not offered again when it is refused:
    with the FIFO full at both calls nothing reaches the FIFO-data
    register, and the transmitter is put to standby all the same. *)
Theorem POSTAMBLE_ends_after_two_calls (k : nat) (inst : RADIO_Instance)
    (d : Device) :
  state inst = RADIO_STATE_POSTAMBLE -> idx inst = 0 ->
  exists (d' : Device) (p1 p2 : list BusOp) (off : BusOp),
    run clk elapse 2 k inst d =
      (mkInstance (spi inst) RADIO_STATE_IDLE (frame inst) 0 (len inst)
         (nextAR inst), d', p1 ++ p2 ++ [off]) /\
    sym_attempt 0 p1 /\ sym_attempt 0 p2 /\
    is_write ADDR_PWRMODE PWRMODE_STANDBY off /\
    (fifo_full (fst (reg_write (spi inst) ADDR_FIFOCTRL (sym_hi 0) d)) = true ->
     fifo_full (fst (reg_write (spi inst) ADDR_FIFOCTRL (sym_hi 0)
                       (retry elapse (spi inst) (sym_hi 0) d))) = true ->
     writes_to ADDR_FIFODATA (p1 ++ p2 ++ [off]) = []).
Proof.
  intros Hst Hz.
  destruct (poll_POSTAMBLE_first (clk k) inst d Hst Hz) as (d1 & p1 & R1 & H1).
  pose proof R1 as R1'. apply (run_one clk elapse) in R1'.
  destruct (poll_POSTAMBLE_last (clk (k + 1)) (set_idx inst 1) (elapse d1)
              Hst ltac:(simpl; lia))
    as (d2 & p2 & off & R2 & H2 & Hoff).
  pose proof R2 as R2'. apply (run_one clk elapse) in R2'.
  pose proof (run_trans clk elapse _ _ _ _ _ _ _ _ _ _ _ R1' R2') as R.
  exists (elapse d2), p1, p2, off.
  split; [exact R|]. split; [exact H1|]. split; [exact H2|]. split; [exact Hoff|].
  intros Hf1 Hf2.
  destruct (poll_POSTAMBLE_refused (clk k) inst d Hst Hf1) as (st1 & o1 & Q1 & _).
  rewrite Hz in Q1. change (0 =? 0) with true in Q1. cbv iota in Q1.
  rewrite R1 in Q1.
  pose proof (f_equal (fun x => snd (fst x)) Q1) as Hd1.
  pose proof (f_equal snd Q1) as Hp1. simpl in Hd1, Hp1. subst d1 p1.
  destruct (poll_POSTAMBLE_refused (clk (k + 1)) (set_idx inst 1)
              (retry elapse (spi inst) (sym_hi 0) d) Hst Hf2)
    as (st2 & o2 & Q2 & (st3 & Ho2)).
  change (idx (set_idx inst 1) =? 0) with false in Q2. cbv iota in Q2.
  unfold retry in Q2. rewrite R2 in Q2.
  pose proof (f_equal snd Q2) as Hp2. simpl in Hp2.
  rewrite Hp2, Ho2. reflexivity.
Qed.

(** An instance that waits in WAIT_CONF or WAIT_TX is left as it is, and
    nothing goes over the bus, as long as no poll sees a tick past its
    deadline. *)
Lemma run_waiting (n : nat) :
  forall (k : nat) (inst : RADIO_Instance) (d : Device),
    state inst = RADIO_STATE_WAIT_CONF \/ state inst = RADIO_STATE_WAIT_TX ->
    (forall j, (k <= j < k + n)%nat -> tick_at clk j <= idx inst) ->
    run clk elapse n k inst d = (inst, Nat.iter n elapse d, []).
Proof.
  intros k inst d [Hst|Hst] Hw.
  - apply run_WAIT_CONF_wait; assumption.
  - apply run_WAIT_TX_wait; assumption.
Qed.

(** X11.  The configuration delay is kept.  When CONFIGURE runs at a
    tick t with t + CONFIGURATION_DELAY below 2^32, the instance is still
    in WAIT_CONF after every poll made at a tick up to
    t + CONFIGURATION_DELAY: it does not become IDLE, and accepts no
    frame, before the delay is over. *)
Theorem configuration_delay_is_kept (n k : nat) (inst : RADIO_Instance)
    (d : Device) :
  state inst = RADIO_STATE_CONFIGURE ->
  tick_at clk k + CONFIGURATION_DELAY < 2 ^ 32 ->
  (forall j, (k < j <= k + n)%nat ->
     tick_at clk j <= tick_at clk k + CONFIGURATION_DELAY) ->
  state (fst (fst (run clk elapse (S n) k inst d))) = RADIO_STATE_WAIT_CONF /\
  forall data len0,
    RADIO_SetFrame (Some (fst (fst (run clk elapse (S n) k inst d)))) data len0 =
      Some (fst (fst (run clk elapse (S n) k inst d))).
Proof.
  intros Hst Hnw Hw.
  destruct (poll_CONFIGURE (clk k) inst d Hst) as (d1 & ops & Hp & _).
  fold (tick_at clk k) in Hp.
  pose proof (tick_at_range k) as Hr.
  rewrite (u32_small (tick_at clk k + CONFIGURATION_DELAY)) in Hp
    by (unfold CONFIGURATION_DELAY in *; lia).
  apply (run_one clk elapse) in Hp.
  match type of Hp with _ = (?i, _, _) => set (i1 := i) in Hp end.
  pose proof (run_waiting n (k + 1) i1 (elapse d1) (or_introl eq_refl)) as R.
  specialize (R ltac:(intros j Hj; simpl; apply Hw; lia)).
  pose proof (run_trans clk elapse _ _ _ _ _ _ _ _ _ _ _ Hp R) as R'.
  change (1 + n)%nat with (S n) in R'. rewrite R'. simpl.
  split; [reflexivity|]. intros data len0. destruct data; reflexivity.
Qed.

(** X12.  The start-up delay is kept.  When START_TX writes the synth-tx
    power mode at a tick t with t + STARTUP_DELAY below 2^32, the
    instance is still in WAIT_TX after every poll made at a tick up to
    t + STARTUP_DELAY, and the only write so far is that power mode:
    neither the full-tx power mode nor the ranging command is written
    before the delay is over. *)
Theorem startup_delay_is_kept (n k : nat) (inst : RADIO_Instance)
    (d : Device) :
  state inst = RADIO_STATE_START_TX ->
  tick_at clk k + STARTUP_DELAY < 2 ^ 32 ->
  (forall j, (k < j <= k + n)%nat ->
     tick_at clk j <= tick_at clk k + STARTUP_DELAY) ->
  state (fst (fst (run clk elapse (S n) k inst d))) = RADIO_STATE_WAIT_TX /\
  reg_writes (snd (run clk elapse (S n) k inst d)) =
    [(ADDR_PWRMODE, PWRMODE_SYNTHTX)].
Proof.
  intros Hst Hnw Hw.
  pose proof (poll_START_TX (clk k) inst d Hst) as Hp.
  fold (tick_at clk k) in Hp.
  pose proof (tick_at_range k) as Hr.
  rewrite (u32_small (tick_at clk k + STARTUP_DELAY)) in Hp
    by (unfold STARTUP_DELAY in *; lia).
  apply (run_one clk elapse) in Hp.
  match type of Hp with _ = (?i, _, _) => set (i1 := i) in Hp end.
  pose proof (run_waiting n (k + 1) i1
                (elapse (snd (reg_write (spi inst) ADDR_PWRMODE PWRMODE_SYNTHTX d)))
                (or_intror eq_refl)) as R.
  specialize (R ltac:(intros j Hj; simpl; apply Hw; lia)).
  pose proof (run_trans clk elapse _ _ _ _ _ _ _ _ _ _ _ Hp R) as R'.
  change (1 + n)%nat with (S n) in R'. rewrite R'. simpl.
  split; reflexivity.
Qed.

(** X13.  The deadlines wrap with the 32-bit tick.  When CONFIGURE runs
    at tick 2^32 - 6, or START_TX at tick 2^32 - 2, the deadline stored
    is 2^32 - 1, which no tick is past: whatever the clock does from
    then on, every later poll leaves the instance waiting, in WAIT_CONF
    or in WAIT_TX, and nothing more goes over the bus. *)
Theorem deadline_at_the_last_tick_hangs (n k : nat) (inst : RADIO_Instance)
    (d : Device) :
  (state inst = RADIO_STATE_CONFIGURE /\
   tick_at clk k = 2 ^ 32 - 1 - CONFIGURATION_DELAY) \/
  (state inst = RADIO_STATE_START_TX /\
   tick_at clk k = 2 ^ 32 - 1 - STARTUP_DELAY) ->
  state (fst (fst (run clk elapse (S n) k inst d))) =
    (if RADIO_State_eqb (state inst) RADIO_STATE_CONFIGURE
     then RADIO_STATE_WAIT_CONF else RADIO_STATE_WAIT_TX) /\
  idx (fst (fst (run clk elapse (S n) k inst d))) = 2 ^ 32 - 1 /\
  snd (run clk elapse (S n) k inst d) = snd (run clk elapse 1 k inst d).
Proof.
  assert (Hmax : forall j, tick_at clk j <= 2 ^ 32 - 1)
    by (intros j; pose proof (tick_at_range j); lia).
  intros [[Hst Ht]|[Hst Ht]].
  - destruct (poll_CONFIGURE (clk k) inst d Hst) as (d1 & ops & Hp & _).
    fold (tick_at clk k) in Hp. rewrite Ht in Hp.
    change (u32 (2 ^ 32 - 1 - CONFIGURATION_DELAY + CONFIGURATION_DELAY))
      with (2 ^ 32 - 1) in Hp.
    apply (run_one clk elapse) in Hp.
    match type of Hp with _ = (?i, _, _) => set (i1 := i) in Hp end.
    pose proof (run_waiting n (k + 1) i1 (elapse d1) (or_introl eq_refl)) as R.
    specialize (R ltac:(intros j Hj; apply Hmax)).
    pose proof (run_trans clk elapse _ _ _ _ _ _ _ _ _ _ _ Hp R) as R'.
    change (1 + n)%nat with (S n) in R'. rewrite R', Hp, Hst. simpl.
    rewrite app_nil_r. repeat split.
  - pose proof (poll_START_TX (clk k) inst d Hst) as Hp.
    fold (tick_at clk k) in Hp. rewrite Ht in Hp.
    change (u32 (2 ^ 32 - 1 - STARTUP_DELAY + STARTUP_DELAY))
      with (2 ^ 32 - 1) in Hp.
    apply (run_one clk elapse) in Hp.
    match type of Hp with _ = (?i, _, _) => set (i1 := i) in Hp end.
    pose proof (run_waiting n (k + 1) i1
                  (elapse (snd (reg_write (spi inst) ADDR_PWRMODE PWRMODE_SYNTHTX d)))
                  (or_intror eq_refl)) as R.
    specialize (R ltac:(intros j Hj; apply Hmax)).
    pose proof (run_trans clk elapse _ _ _ _ _ _ _ _ _ _ _ Hp R) as R'.
    change (1 + n)%nat with (S n) in R'. rewrite R', Hp, Hst. simpl.
    repeat split.
Qed.

End Deadlines.

(** ** Bounds, the frame buffer and what of it is sent *)

Section Bounds.
Context {P : Platform}.

Ltac bounds_tac :=
  repeat split;
  first [ assumption | apply u32_range | lia | discriminate
        | intros; lia | intros; congruence ].

Lemma in_bounds_Process (inst : RADIO_Instance) (w : World) :
  in_bounds inst -> in_bounds (fst (fst (Process_switch inst w))).
Proof.
  intros (Hlen & H16 & Hidx & Hfr).
  assert (Hu : forall z, 0 <= u32 z < 2 ^ 32) by apply u32_range.
  assert (Hl0 : 0 <= len inst) by (destruct Hlen; lia).
  destruct (state inst) eqn:Hst.
  - rewrite CONFIGURE_result by exact Hst. unfold in_bounds. simpl.
    bounds_tac.
  - unfold Process_switch. rewrite Hst. autorewrite with bus.
    destruct (u32 (tick w) >? idx inst); simpl; unfold in_bounds; simpl;
      rewrite ?Hst; bounds_tac.
  - unfold Process_switch. rewrite Hst. simpl. unfold in_bounds.
    rewrite Hst. bounds_tac.
  - unfold Process_switch. rewrite Hst. autorewrite with bus. simpl.
    unfold in_bounds. simpl.
    bounds_tac.
  - unfold Process_switch. rewrite Hst. autorewrite with bus.
    destruct (u32 (tick w) >? idx inst); autorewrite with bus;
      [destruct (u32 (tick w) >? nextAR inst); autorewrite with bus|];
      simpl; unfold in_bounds; simpl; rewrite ?Hst;
      bounds_tac.
  - unfold Process_switch. rewrite Hst. autorewrite with bus.
    destruct (negb _); [|destruct (Z.land _ MASK_PLLRANGING_START =? 0)];
      autorewrite with bus; simpl; unfold in_bounds; simpl; rewrite ?Hst;
      bounds_tac.
  - unfold Process_switch. rewrite Hst. autorewrite with bus.
    destruct (u32 (tick w) <? idx inst); autorewrite with bus;
      simpl; unfold in_bounds; simpl; rewrite ?Hst;
      bounds_tac.
  - specialize (Hfr eq_refl).
    unfold Process_switch. rewrite Hst.
    destruct (idx inst >=? len inst).
    + simpl. unfold in_bounds. simpl.
      bounds_tac.
    + destruct (frame_loop_spec (Z.to_nat (len inst - idx inst)) inst w)
        as (k & oa & orj & Hi & _ & _ & _ & Hend & _); try lia.
      cbv zeta in Hi. rewrite Hi. unfold in_bounds. simpl.
      assert (Hk : idx inst + Z.of_nat k <= len inst) by (destruct Hend; lia).
      bounds_tac.
  - unfold Process_switch. rewrite Hst. rewrite bind_Transmit10. cbv zeta.
    destruct (fifo_full _); destruct (idx inst =? 0);
      autorewrite with bus; simpl; unfold in_bounds; simpl;
      bounds_tac.
Qed.

Lemma in_bounds_host_step (c : HostCall) (inst : RADIO_Instance) (d : Device) :
  uint16_call c -> in_bounds inst -> in_bounds (fst (fst (host_step c inst d))).
Proof.
  intros Hc Hinv. destruct c as [now|data len0|f]; simpl.
  - rewrite poll_eq. pose proof (in_bounds_Process inst (mkWorld now d) Hinv) as H.
    destruct (Process_switch inst (mkWorld now d)) as [[i' w'] l']. exact H.
  - simpl in Hc. destruct data as [bytes|]; [|exact Hinv].
    destruct (RADIO_State_eqb (state inst) RADIO_STATE_IDLE); [|exact Hinv].
    destruct (Z.eqb_spec len0 0); [exact Hinv|].
    destruct (Z.ltb_spec len0 RADIO_FRAME_LENGTH); [|exact Hinv].
    simpl. unfold in_bounds. simpl. bounds_tac.
  - exact Hinv.
Qed.

Lemma in_bounds_host (calls : list HostCall) :
  forall (inst : RADIO_Instance) (d : Device),
    Forall uint16_call calls -> in_bounds inst ->
    in_bounds (fst (fst (host calls inst d))).
Proof.
  induction calls as [|c cs IH]; intros inst d Hc Hinv; simpl; [exact Hinv|].
  inversion Hc as [|c' cs' Hc1 Hc2]; subst.
  pose proof (in_bounds_host_step c inst d Hc1 Hinv) as H1.
  destruct (host_step c inst d) as [[i1 d1] l1]. simpl in H1.
  specialize (IH i1 d1 Hc2 H1).
  destruct (host cs i1 d1) as [[i2 d2] l2]. exact IH.
Qed.

(** X14.  Along every run from RADIO_Init in which the lengths given to
    RADIO_SetFrame are uint16_t values, the frame length is 0 or below
    RADIO_FRAME_LENGTH, the cursor is a uint32_t, and in FRAME the cursor
    is not past the length.  So the byte frame[idx] that the loop of
    FRAME reads, under its test idx < len, is always inside the buffer
    of RADIO_FRAME_LENGTH bytes. *)
Theorem cursor_stays_inside_the_frame (mem : RADIO_Instance)
    (s : SPI_Init_Struct) (calls : list HostCall) (d : Device) :
  Forall uint16_call calls ->
  exists inst,
    RADIO_Init (Some mem) (Some s) = Some inst /\
    in_bounds (fst (fst (host calls inst d))) /\
    (state (fst (fst (host calls inst d))) = RADIO_STATE_FRAME ->
     idx (fst (fst (host calls inst d))) < len (fst (fst (host calls inst d))) ->
     0 <= idx (fst (fst (host calls inst d))) < RADIO_FRAME_LENGTH).
Proof.
  intros Hc. eexists. split; [reflexivity|].
  match goal with
  | |- in_bounds (fst (fst (host calls ?i d))) /\ _ =>
      assert (Hinv : in_bounds (fst (fst (host calls i d))))
  end.
  { apply in_bounds_host; [exact Hc|].
    unfold in_bounds. simpl. bounds_tac. }
  split; [exact Hinv|].
  destruct Hinv as (Hlen & _ & Hidx & _). intros _ Hlt.
  destruct Hlen; lia.
Qed.

(** X15.  RADIO_SetFrame stores the frame.  When it accepts [len0] bytes
    taken from a buffer that holds at least that many, the frame buffer
    keeps its size, its first [len0] bytes are those of the data, in
    order, and every byte after them is what it was before. *)
Theorem SetFrame_stores_the_frame (i : RADIO_Instance) (bytes : list Z)
    (len0 : Z) :
  state i = RADIO_STATE_IDLE -> 0 < len0 < RADIO_FRAME_LENGTH ->
  (Z.to_nat len0 <= length bytes)%nat ->
  (Z.to_nat len0 <= length (frame i))%nat ->
  exists tx,
    RADIO_SetFrame (Some i) (Some bytes) len0 = Some tx /\
    len tx = len0 /\
    length (frame tx) = length (frame i) /\
    (forall j, 0 <= j < len0 -> frame_at tx j = nth (Z.to_nat j) bytes 0) /\
    (forall j, len0 <= j -> frame_at tx j = frame_at i j).
Proof.
  intros Hst Hlen Hb Hf.
  exists (mkInstance (spi i) RADIO_STATE_START_TX
            (memcpy (frame i) bytes len0) 0 len0 (nextAR i)).
  split.
  { unfold RADIO_SetFrame. rewrite Hst.
    replace (len0 =? 0) with false by (symmetry; apply Z.eqb_neq; lia).
    replace (len0 <? RADIO_FRAME_LENGTH) with true
      by (symmetry; apply Z.ltb_lt; lia).
    reflexivity. }
  split; [reflexivity|].
  unfold frame_at, memcpy. simpl frame.
  assert (Hn : length (firstn (Z.to_nat len0) bytes) = Z.to_nat len0)
    by (rewrite length_firstn; lia).
  split; [|split].
  - rewrite length_app, Hn, length_skipn. lia.
  - intros j Hj. rewrite app_nth1 by (rewrite Hn; lia).
    rewrite nth_firstn.
    replace (Z.to_nat j <? Z.to_nat len0)%nat with true
      by (symmetry; apply Nat.ltb_lt; lia).
    reflexivity.
  - intros j Hj. rewrite app_nth2 by (rewrite Hn; lia).
    rewrite Hn, nth_skipn. f_equal. lia.
Qed.

End Bounds.

Section ZeroPattern.
Context {P : Platform}.

Lemma Transmit10_zero_pattern (i1 i2 : RADIO_Instance) (b1 b2 : Z) (w : World) :
  spi i1 = spi i2 -> (b1 =? 0) = (b2 =? 0) ->
  Transmit10 i1 b1 w = Transmit10 i2 b2 w.
Proof.
  intros Hs Hb. rewrite !Transmit10_eq. unfold symbol. rewrite Hs, Hb.
  reflexivity.
Qed.

Lemma same_zero_pattern_set_idx (i1 i2 : RADIO_Instance) (v : Z) :
  same_zero_pattern i1 i2 -> same_zero_pattern (set_idx i1 v) (set_idx i2 v).
Proof.
  intros (H1 & H2 & H3 & H4 & H5 & H6). unfold same_zero_pattern. simpl.
  repeat split; assumption.
Qed.

Lemma frame_loop_zero_pattern (fuel : nat) :
  forall (i1 i2 : RADIO_Instance) (w : World),
    same_zero_pattern i1 i2 ->
    snd (frame_loop fuel i1 w) = snd (frame_loop fuel i2 w) /\
    snd (fst (frame_loop fuel i1 w)) = snd (fst (frame_loop fuel i2 w)) /\
    same_zero_pattern (fst (fst (frame_loop fuel i1 w)))
                      (fst (fst (frame_loop fuel i2 w))).
Proof.
  induction fuel as [|fuel IH]; intros i1 i2 w Hz; simpl frame_loop.
  - split; [reflexivity|]. split; [reflexivity|]. exact Hz.
  - pose proof Hz as (Hs & Hst & Hi & Hl & Hn & Hf).
    rewrite <- Hi, <- Hl.
    destruct (idx i1 <? len i1);
      [|split; [reflexivity|]; split; [reflexivity|]; exact Hz].
    unfold bind.
    rewrite (Transmit10_zero_pattern i1 i2 (frame_at i1 (idx i1))
               (frame_at i2 (idx i1)) w Hs (Hf (idx i1))).
    destruct (Transmit10 i2 (frame_at i2 (idx i1)) w) as [[ok w1] l1].
    destruct (ok =? 0).
    + simpl. split; [reflexivity|]. split; [reflexivity|]. exact Hz.
    + destruct (IH (set_idx i1 (u32 (idx i1 + 1))) (set_idx i2 (u32 (idx i1 + 1))) w1
                  (same_zero_pattern_set_idx i1 i2 _ Hz)) as (H1 & H2 & H3).
      destruct (frame_loop fuel (set_idx i1 _) w1) as [[a1 b1] c1].
      destruct (frame_loop fuel (set_idx i2 _) w1) as [[a2 b2] c2].
      simpl in *. subst. split; [reflexivity|]. split; [reflexivity|]. exact H3.
Qed.

Lemma bind_same_but_frame {A} (f : list Z) (m1 m2 : Bus A)
    (k1 k2 : A -> Bus RADIO_Instance) (w : World) :
  m1 w = m2 w ->
  (forall a w', k1 a w' =
     (set_frame (fst (fst (k2 a w'))) f, snd (fst (k2 a w')), snd (k2 a w'))) ->
  bind m1 k1 w =
    (set_frame (fst (fst (bind m2 k2 w))) f, snd (fst (bind m2 k2 w)),
     snd (bind m2 k2 w)).
Proof.
  intros Hm Hk. unfold bind. rewrite Hm.
  destruct (m2 w) as [[a w1] l1]. rewrite Hk.
  destruct (k2 a w1) as [[b w2] l2]. reflexivity.
Qed.

(** Outside FRAME a call does not look at the frame buffer. *)
Lemma Process_switch_set_frame (i : RADIO_Instance) (f : list Z) (w : World) :
  state i <> RADIO_STATE_FRAME ->
  Process_switch (set_frame i f) w =
    (set_frame (fst (fst (Process_switch i w))) f,
     snd (fst (Process_switch i w)), snd (Process_switch i w)).
Proof.
  intros Hne. unfold Process_switch.
  change (state (set_frame i f)) with (state i).
  destruct (state i) eqn:Hst; try contradiction.
  - repeat (cbv beta zeta;
            apply bind_same_but_frame;
            [ first [ unfold DumpRegister; apply DumpRegister_from_spi; reflexivity
                    | reflexivity ]
            | intros ? ? ]).
    reflexivity.
  - autorewrite with bus. change (idx (set_frame i f)) with (idx i).
    destruct (u32 (tick w) >? idx i); reflexivity.
  - reflexivity.
  - autorewrite with bus. reflexivity.
  - autorewrite with bus.
    change (idx (set_frame i f)) with (idx i).
    change (nextAR (set_frame i f)) with (nextAR i).
    destruct (u32 (tick w) >? idx i); autorewrite with bus;
      [destruct (u32 (tick w) >? nextAR i); autorewrite with bus|];
      reflexivity.
  - autorewrite with bus. change (spi (set_frame i f)) with (spi i).
    destruct (negb _); [|destruct (Z.land _ MASK_PLLRANGING_START =? 0)];
      autorewrite with bus; reflexivity.
  - autorewrite with bus. change (idx (set_frame i f)) with (idx i).
    destruct (u32 (tick w) <? idx i); autorewrite with bus; reflexivity.
  - rewrite !bind_Transmit10. cbv zeta.
    unfold write_status. change (spi (set_frame i f)) with (spi i).
    change (idx (set_frame i f)) with (idx i).
    destruct (fifo_full _); destruct (idx i =? 0);
      autorewrite with bus; reflexivity.
Qed.

Lemma same_zero_pattern_set_frame (i1 i2 : RADIO_Instance) :
  same_zero_pattern i1 i2 -> i2 = set_frame i1 (frame i2).
Proof.
  intros (H1 & H2 & H3 & H4 & H5 & _). destruct i1, i2. simpl in *. subst.
  reflexivity.
Qed.

Lemma poll_zero_pattern now (i1 i2 : RADIO_Instance) (d : Device) :
  same_zero_pattern i1 i2 ->
  snd (poll now i1 d) = snd (poll now i2 d) /\
  snd (fst (poll now i1 d)) = snd (fst (poll now i2 d)) /\
  same_zero_pattern (fst (fst (poll now i1 d))) (fst (fst (poll now i2 d))).
Proof.
  intros Hz. rewrite !poll_eq.
  destruct (RADIO_State_eqb (state i1) RADIO_STATE_FRAME) eqn:E.
  - apply RADIO_State_eqb_eq in E.
    pose proof Hz as (Hs & Hst & Hi & Hl & Hn & Hf).
    unfold Process_switch. rewrite <- Hst, E, <- Hi, <- Hl.
    destruct (idx i1 >=? len i1).
    + simpl. repeat split; try assumption.
    + destruct (frame_loop_zero_pattern (Z.to_nat (len i1 - idx i1)) i1 i2
                  (mkWorld now d) Hz) as (H1 & H2 & H3).
      destruct (frame_loop _ i1 _) as [[a1 b1] c1].
      destruct (frame_loop _ i2 _) as [[a2 b2] c2].
      simpl in *. subst. split; [reflexivity|]. split; [reflexivity|]. exact H3.
  - assert (Hne : state i1 <> RADIO_STATE_FRAME).
    { intros H. apply RADIO_State_eqb_eq in H. congruence. }
    rewrite (same_zero_pattern_set_frame i1 i2 Hz) at 1 2 3.
    rewrite Process_switch_set_frame by exact Hne.
    destruct (Process_switch_keeps i1 (mkWorld now d)) as (K1 & K2 & K3 & _).
    destruct (Process_switch i1 (mkWorld now d)) as [[a1 b1] c1].
    simpl in *. repeat split; try reflexivity.
    destruct Hz as (_ & _ & _ & _ & _ & Hf).
    intros j. unfold frame_at in *. simpl. rewrite K2. apply Hf.
Qed.

(** X16.  Of a frame byte the radio is told only whether it is zero.  Two
    instances that differ at most in their frame buffers, with zero bytes
    at the same places, make the same bus operations at every poll and
    leave the same device, whatever the clock and the device do: frames
    that differ only in the values of their non-zero bytes go out as the
    same symbols. *)
Theorem only_zero_or_not_is_sent (clk : nat -> Z) (elapse : Device -> Device)
    (n : nat) :
  forall (k : nat) (i1 i2 : RADIO_Instance) (d : Device),
    same_zero_pattern i1 i2 ->
    snd (run clk elapse n k i1 d) = snd (run clk elapse n k i2 d) /\
    snd (fst (run clk elapse n k i1 d)) = snd (fst (run clk elapse n k i2 d)) /\
    same_zero_pattern (fst (fst (run clk elapse n k i1 d)))
                      (fst (fst (run clk elapse n k i2 d))).
Proof.
  induction n as [|n IH]; intros k i1 i2 d Hz; simpl run.
  - split; [reflexivity|]. split; [reflexivity|]. exact Hz.
  - destruct (poll_zero_pattern (clk k) i1 i2 d Hz) as (H1 & H2 & H3).
    destruct (poll (clk k) i1 d) as [[a1 b1] c1].
    destruct (poll (clk k) i2 d) as [[a2 b2] c2].
    simpl in H1, H2, H3. subst.
    destruct (IH (S k) a1 a2 (elapse b2) H3) as (J1 & J2 & J3).
    destruct (run clk elapse n (S k) a1 (elapse b2)) as [[x1 y1] z1].
    destruct (run clk elapse n (S k) a2 (elapse b2)) as [[x2 y2] z2].
    simpl in *. subst. split; [reflexivity|]. split; [reflexivity|]. exact J3.
Qed.

End ZeroPattern.

(** X17.  The state graph.  One call of RADIO_Process moves the state
    only along [may_step]: CONFIGURE goes to WAIT_CONF; WAIT_CONF stays
    or goes to IDLE; IDLE stays; START_TX goes to WAIT_TX; WAIT_TX stays
    or goes to WAIT_AR or PREAMBLE; WAIT_AR stays or goes to CONFIGURE or
    PREAMBLE; PREAMBLE stays or goes to FRAME; FRAME stays or goes to
    POSTAMBLE; POSTAMBLE stays or goes to IDLE.  Every one of these moves
    is made by some call on the simulated transceiver. *)
Theorem state_graph :
  (forall (P : Platform) (now : Z) (inst : RADIO_Instance) (d : Device),
     may_step (state inst) (state (fst (fst (poll now inst d)))) = true) /\
  (forall a b : RADIO_State,
     may_step a b = true ->
     state (fst (SimMore.edge_case a b)) = a /\
     state (fst (fst (poll (tick (snd (SimMore.edge_case a b)))
                        (fst (SimMore.edge_case a b))
                        (dev (snd (SimMore.edge_case a b)))))) = b).
Proof.
  split.
  - intros P now inst d. rewrite poll_eq.
    destruct (Process_switch_keeps inst (mkWorld now d)) as (_ & _ & _ & H).
    destruct (Process_switch inst (mkWorld now d)) as [[i' w'] l']. exact H.
  - intros a b. destruct a, b; intros H; try discriminate H;
      split; vm_compute; reflexivity.
Qed.

(** ** Operands and initialisation *)

Section Operands.
Context {P : Platform}.

Lemma ops_all_ret Q {A} (a : A) : ops_all Q (ret a).
Proof. intros w. constructor. Qed.

Lemma ops_all_HAL_GetTick Q : ops_all Q HAL_GetTick.
Proof. intros w. constructor. Qed.

Lemma ops_all_bind Q {A C} (m : Bus A) (k : A -> Bus C) :
  ops_all Q m -> (forall a, ops_all Q (k a)) -> ops_all Q (bind m k).
Proof.
  intros Hm Hk w. unfold bind.
  specialize (Hm w). destruct (m w) as [[a w1] l1].
  specialize (Hk a w1). destruct (k a w1) as [[c w2] l2].
  simpl in *. apply Forall_app. split; assumption.
Qed.

Lemma ops_all_SetReg (Q : BusOp -> Prop) inst addr data :
  (forall st, Q (RegWrite addr data st)) -> ops_all Q (SetReg inst addr data).
Proof.
  intros H w. rewrite SetReg_eq. simpl. constructor; [apply H | constructor].
Qed.

Lemma ops_all_GetReg (Q : BusOp -> Prop) inst addr :
  (forall st v, Q (RegRead addr st v)) -> ops_all Q (GetReg inst addr).
Proof.
  intros H w. rewrite GetReg_eq. simpl. constructor; [apply H | constructor].
Qed.

Ltac operands_tac :=
  repeat (cbv beta zeta;
          match goal with
          | |- ops_all _ (ret _) => apply ops_all_ret
          | |- ops_all _ HAL_GetTick => apply ops_all_HAL_GetTick
          | |- ops_all _ (SetReg _ _ _) =>
              apply ops_all_SetReg; intros; vm_compute; intuition congruence
          | |- ops_all _ (GetReg _ _) =>
              apply ops_all_GetReg; intros; vm_compute; intuition congruence
          | |- ops_all _ (if ?c then _ else _) => destruct c
          | |- ops_all _ (bind _ _) => apply ops_all_bind; [ | intro ]
          | _ => solve [auto]
          end).

Lemma byte_operands_Transmit10 inst data :
  ops_all byte_operands (Transmit10 inst data).
Proof. unfold Transmit10. destruct (data =? 0); operands_tac. Qed.

Lemma byte_operands_DumpRegister_from inst (n : nat) :
  forall i : Z,
    0 <= i -> i + Z.of_nat n <= MAX_ADDR + 1 ->
    ops_all byte_operands (DumpRegister_from inst n i).
Proof.
  induction n as [|n IH]; intros i H0 Hn; simpl DumpRegister_from.
  - apply ops_all_ret.
  - apply ops_all_bind.
    + apply ops_all_GetReg. intros st v. unfold byte_operands. simpl. lia.
    + intros _. apply IH; lia.
Qed.

Lemma byte_operands_frame_loop (fuel : nat) :
  forall inst, ops_all byte_operands (frame_loop fuel inst).
Proof.
  pose proof byte_operands_Transmit10 as HT.
  induction fuel as [|fuel IH]; intros inst; simpl frame_loop; operands_tac.
Qed.

Lemma byte_operands_Process_switch inst :
  ops_all byte_operands (Process_switch inst).
Proof.
  pose proof byte_operands_Transmit10 as HT.
  pose proof byte_operands_frame_loop as HL.
  assert (HD : forall i, ops_all byte_operands (DumpRegister i)).
  { intros i. apply byte_operands_DumpRegister_from; vm_compute; congruence. }
  unfold Process_switch. destruct (state inst); operands_tac.
Qed.

(** X18.  Every register the driver addresses is in the register map of
    the device, 0x00 to MAX_ADDR = 0x50, and every value it writes is a
    byte: the mask 0x7F in SetReg and GetReg never changes an address,
    and the uint8_t parameters never cut a value. *)
Theorem Process_operands_fit (inst : RADIO_Instance) (w : World) :
  Forall byte_operands (snd (RADIO_Process (Some inst) w)) /\
  Forall (fun op => op_addr op mod 128 = op_addr op)
         (snd (RADIO_Process (Some inst) w)).
Proof.
  assert (H : Forall byte_operands (snd (RADIO_Process (Some inst) w))).
  { rewrite RADIO_Process_Some.
    pose proof (byte_operands_Process_switch inst w) as H.
    destruct (Process_switch inst w) as [[i' w'] l']. exact H. }
  split; [exact H|].
  eapply Forall_impl; [|exact H].
  intros op [Ha _]. apply Z.mod_small. unfold MAX_ADDR in Ha. lia.
Qed.

(** X19.  RADIO_Init needs both pointers: with a null instance or a null
    bus handle it changes nothing, so an instance keeps whatever state it
    had.  With both, the instance enters CONFIGURE with the cursor and
    the frame length at 0 and the given bus handle, whatever it held
    before; the frame buffer and the auto-range deadline are not
    touched, and a second call changes nothing more. *)
Theorem RADIO_Init_needs_both_pointers :
  (forall inst : option RADIO_Instance, RADIO_Init inst None = inst) /\
  (forall s : option SPI_Init_Struct, RADIO_Init None s = None) /\
  (forall (i : RADIO_Instance) (s : SPI_Init_Struct),
     RADIO_Init (Some i) (Some s) =
       Some (mkInstance s RADIO_STATE_CONFIGURE (frame i) 0 0 (nextAR i)) /\
     RADIO_Init (RADIO_Init (Some i) (Some s)) (Some s) =
       RADIO_Init (Some i) (Some s)) /\
  (forall (i j : RADIO_Instance) (s : SPI_Init_Struct),
     frame i = frame j -> nextAR i = nextAR j ->
     RADIO_Init (Some i) (Some s) = RADIO_Init (Some j) (Some s)).
Proof.
  split; [intros [i|]; reflexivity|].
  split; [intros [s|]; reflexivity|].
  split; [intros i s; split; reflexivity|].
  intros i j s Hf Hn.
  change (Some (mkInstance s RADIO_STATE_CONFIGURE (frame i) 0 0 (nextAR i)) =
          Some (mkInstance s RADIO_STATE_CONFIGURE (frame j) 0 0 (nextAR j))).
  rewrite Hf, Hn. reflexivity.
Qed.

End Operands.

(** ** The further properties on the simulated transceiver *)

Lemma frame_in_flight_is_kept_witness :
  state Sim.in_frame <> RADIO_STATE_IDLE /\
  frame (fst (fst (host_step (HostSetFrame (Some [9; 9]) 2) Sim.in_frame
                     (Sim.fresh 0)))) = frame Sim.in_frame /\
  len (fst (fst (host_step (HostSetFrame (Some [9; 9]) 2) Sim.in_frame
                   (Sim.fresh 0)))) = len Sim.in_frame.
Proof.
  assert (H : state Sim.in_frame <> RADIO_STATE_IDLE) by discriminate.
  split; [exact H|].
  destruct (frame_in_flight_is_kept (HostSetFrame (Some [9; 9]) 2) Sim.in_frame
              (Sim.fresh 0) (or_introl H)) as (_ & H2 & H3).
  split; [exact H2 | exact H3].
Defined.

Lemma Process_transactions_bounded_witness :
  state Sim.configuring = RADIO_STATE_CONFIGURE /\
  length (snd (RADIO_Process (Some Sim.configuring) (Sim.world 7 (Sim.fresh 0))))
    = 98%nat.
Proof.
  split; [reflexivity|].
  destruct (Process_transactions_bounded Sim.configuring (Sim.world 7 (Sim.fresh 0)))
    as [_ H].
  apply H. reflexivity.
Defined.

Lemma IDLE_is_quiet_witness :
  state Sim.idle = RADIO_STATE_IDLE /\
  run Sim.every_100ms Sim.drain 5 0 Sim.idle (SimMore.filled 2) =
    (Sim.idle, Nat.iter 5 Sim.drain (SimMore.filled 2), []).
Proof.
  split; [reflexivity|].
  apply (IDLE_is_quiet (P := Sim.platform)). reflexivity.
Defined.

Lemma boot_reaches_IDLE_witness :
  u32 (tick_at Sim.every_100ms 0 + CONFIGURATION_DELAY) < tick_at Sim.every_100ms 1 /\
  exists (inst : RADIO_Instance) (d' : Device) (ops : list BusOp),
    RADIO_Init (Some Sim.blank) (Some tt) = Some inst /\
    run Sim.every_100ms Sim.drain 2 0 inst (Sim.fresh 0) =
      (mkInstance tt RADIO_STATE_IDLE (frame Sim.blank)
         (u32 (tick_at Sim.every_100ms 0 + CONFIGURATION_DELAY)) 0 0, d', ops) /\
    reg_writes ops = CONFIGURATION.
Proof.
  assert (H : u32 (tick_at Sim.every_100ms 0 + CONFIGURATION_DELAY)
              < tick_at Sim.every_100ms 1) by by_computation.
  split; [exact H|].
  apply (boot_reaches_IDLE (P := Sim.platform) Sim.every_100ms Sim.drain
           Sim.blank tt (Sim.fresh 0) 0).
  - intros j Hj. lia.
  - exact H.
Defined.

Lemma ranging_error_drops_the_frame_witness :
  state SimMore.ranging_a_frame = RADIO_STATE_WAIT_AR /\
  Z.land (ranging_value (spi SimMore.ranging_a_frame) Sim.failed_pll)
         MASK_PLLRANGING_ERROR <> 0 /\
  exists (d' : Device) (ops : list BusOp),
    run Sim.every_100ms Sim.drain 3 0 SimMore.ranging_a_frame Sim.failed_pll =
      (mkInstance tt RADIO_STATE_IDLE [1; 0; 7]
         (u32 (tick_at Sim.every_100ms 1 + CONFIGURATION_DELAY)) 3 0, d', ops) /\
    reg_writes ops = CONFIGURATION /\
    writes_to ADDR_FIFOCTRL ops = [] /\ writes_to ADDR_FIFODATA ops = [].
Proof.
  assert (He : Z.land (ranging_value (spi SimMore.ranging_a_frame) Sim.failed_pll)
                      MASK_PLLRANGING_ERROR <> 0) by by_computation.
  split; [reflexivity|]. split; [exact He|].
  apply (ranging_error_drops_the_frame (P := Sim.platform) Sim.every_100ms
           Sim.drain SimMore.ranging_a_frame Sim.failed_pll 0 eq_refl He).
  - intros j Hj. lia.
  - by_computation.
Defined.

Lemma ranging_is_polled_witness :
  state Sim.waiting_ar = RADIO_STATE_WAIT_AR /\
  exists (d' : Device) (reads : list BusOp) (full : BusOp),
    run Sim.every_100ms SimMore.finish_ranging 2 0 Sim.waiting_ar
        (SimMore.pll MASK_PLLRANGING_START) =
      (mkInstance (spi Sim.waiting_ar) RADIO_STATE_PREAMBLE (frame Sim.waiting_ar)
         (u32 (tick_at Sim.every_100ms 1 + PREAMBLE_DURATION)) (len Sim.waiting_ar)
         (u32 (tick_at Sim.every_100ms 1 + AR_INTERVAL)), d', reads ++ [full]) /\
    length reads = 2%nat /\
    Forall (fun op => op_addr op = ADDR_PLLRANGING /\ reg_writes [op] = []) reads /\
    is_write ADDR_PWRMODE PWRMODE_FULLTX full.
Proof.
  split; [reflexivity|].
  apply (ranging_is_polled (P := Sim.platform) Sim.every_100ms
           SimMore.finish_ranging 1 0 Sim.waiting_ar
           (SimMore.pll MASK_PLLRANGING_START) eq_refl).
  - intros j Hj. assert (j = 0%nat) as -> by lia. split; by_computation.
  - split; by_computation.
Defined.

Lemma POSTAMBLE_ends_after_two_calls_witness :
  state SimMore.in_postamble = RADIO_STATE_POSTAMBLE /\
  idx SimMore.in_postamble = 0 /\
  fifo_full (fst (reg_write (spi SimMore.in_postamble) ADDR_FIFOCTRL (sym_hi 0)
                    (SimMore.filled 5))) = true /\
  exists (d' : Device) (p1 p2 : list BusOp) (off : BusOp),
    run Sim.every_100ms Sim.drain 2 0 SimMore.in_postamble (SimMore.filled 5) =
      (mkInstance (spi SimMore.in_postamble) RADIO_STATE_IDLE
         (frame SimMore.in_postamble) 0 (len SimMore.in_postamble)
         (nextAR SimMore.in_postamble), d', p1 ++ p2 ++ [off]) /\
    writes_to ADDR_FIFODATA (p1 ++ p2 ++ [off]) = [].
Proof.
  split; [reflexivity|]. split; [reflexivity|]. split; [reflexivity|].
  destruct (POSTAMBLE_ends_after_two_calls (P := Sim.platform) Sim.every_100ms
              Sim.drain 0 SimMore.in_postamble (SimMore.filled 5) eq_refl eq_refl)
    as (d' & p1 & p2 & off & Hrun & _ & _ & _ & Hlost).
  exists d', p1, p2, off. split; [exact Hrun|].
  apply Hlost; reflexivity.
Defined.

Lemma configuration_delay_is_kept_witness :
  state Sim.configuring = RADIO_STATE_CONFIGURE /\
  tick_at SimMore.every_ms 0 + CONFIGURATION_DELAY < 2 ^ 32 /\
  state (fst (fst (run SimMore.every_ms Sim.drain 6 0 Sim.configuring (Sim.fresh 0))))
    = RADIO_STATE_WAIT_CONF.
Proof.
  split; [reflexivity|]. split; [by_computation|].
  apply (configuration_delay_is_kept (P := Sim.platform) SimMore.every_ms
           Sim.drain 5 0 Sim.configuring (Sim.fresh 0) eq_refl).
  - by_computation.
  - intros j Hj.
    assert (j = 1 \/ j = 2 \/ j = 3 \/ j = 4 \/ j = 5)%nat as Hc by lia.
    destruct Hc as [->|[->|[->|[->| ->]]]]; by_computation.
Defined.

Lemma startup_delay_is_kept_witness :
  state Sim.one_byte = RADIO_STATE_START_TX /\
  tick_at SimMore.every_ms 0 + STARTUP_DELAY < 2 ^ 32 /\
  state (fst (fst (run SimMore.every_ms Sim.drain 2 0 Sim.one_byte (Sim.fresh 0))))
    = RADIO_STATE_WAIT_TX.
Proof.
  split; [reflexivity|]. split; [by_computation|].
  apply (startup_delay_is_kept (P := Sim.platform) SimMore.every_ms
           Sim.drain 1 0 Sim.one_byte (Sim.fresh 0) eq_refl).
  - by_computation.
  - intros j Hj. assert (j = 1%nat) as -> by lia. by_computation.
Defined.

Lemma deadline_at_the_last_tick_hangs_witness :
  state Sim.configuring = RADIO_STATE_CONFIGURE /\
  tick_at SimMore.late_clock 0 = 2 ^ 32 - 1 - CONFIGURATION_DELAY /\
  state (fst (fst (run SimMore.late_clock Sim.drain 1000 0 Sim.configuring
                     (Sim.fresh 0)))) = RADIO_STATE_WAIT_CONF.
Proof.
  assert (Ht : tick_at SimMore.late_clock 0 = 2 ^ 32 - 1 - CONFIGURATION_DELAY)
    by reflexivity.
  split; [reflexivity|]. split; [exact Ht|].
  destruct (deadline_at_the_last_tick_hangs (P := Sim.platform) SimMore.late_clock
              Sim.drain 999 0 Sim.configuring (Sim.fresh 0)
              (or_introl (conj eq_refl Ht))) as [H _].
  exact H.
Defined.

Lemma cursor_stays_inside_the_frame_witness :
  Forall uint16_call SimMore.some_calls /\
  exists inst,
    RADIO_Init (Some Sim.blank) (Some tt) = Some inst /\
    in_bounds (fst (fst (host SimMore.some_calls inst (Sim.fresh 0)))).
Proof.
  assert (H : Forall (uint16_call (P := Sim.platform)) SimMore.some_calls).
  { unfold SimMore.some_calls. repeat constructor; by_computation. }
  split; [exact H|].
  destruct (cursor_stays_inside_the_frame Sim.blank tt SimMore.some_calls
              (Sim.fresh 0) H) as (inst & Hi & Hb & _).
  exists inst. split; [exact Hi | exact Hb].
Defined.

Lemma SetFrame_stores_the_frame_witness :
  state Sim.idle = RADIO_STATE_IDLE /\
  exists tx,
    RADIO_SetFrame (Some Sim.idle) (Some [1; 0; 7]) 3 = Some tx /\
    len tx = 3 /\
    length (frame tx) = length (frame Sim.idle) /\
    (forall j, 0 <= j < 3 -> frame_at tx j = nth (Z.to_nat j) [1; 0; 7] 0) /\
    (forall j, 3 <= j -> frame_at tx j = frame_at Sim.idle j).
Proof.
  split; [reflexivity|].
  apply (SetFrame_stores_the_frame Sim.idle [1; 0; 7] 3 eq_refl).
  - split; by_computation.
  - cbn. lia.
  - cbn. lia.
Defined.

Lemma only_zero_or_not_is_sent_witness :
  same_zero_pattern Sim.in_frame SimMore.in_frame_other /\
  snd (run Sim.every_100ms Sim.drain 4 0 Sim.in_frame (Sim.fresh 0)) =
    snd (run Sim.every_100ms Sim.drain 4 0 SimMore.in_frame_other (Sim.fresh 0)).
Proof.
  assert (H : same_zero_pattern Sim.in_frame SimMore.in_frame_other).
  { unfold same_zero_pattern. repeat split. intros j. unfold frame_at. simpl.
    destruct (Z.to_nat j) as [|[|[|[|n]]]]; reflexivity. }
  split; [exact H|].
  destruct (only_zero_or_not_is_sent (P := Sim.platform) Sim.every_100ms
              Sim.drain 4 0 Sim.in_frame SimMore.in_frame_other (Sim.fresh 0) H)
    as [Hops _].
  exact Hops.
Defined.

Lemma state_graph_witness :
  may_step RADIO_STATE_WAIT_AR RADIO_STATE_CONFIGURE = true /\
  state (fst (fst (poll
    (tick (snd (SimMore.edge_case RADIO_STATE_WAIT_AR RADIO_STATE_CONFIGURE)))
    (fst (SimMore.edge_case RADIO_STATE_WAIT_AR RADIO_STATE_CONFIGURE))
    (dev (snd (SimMore.edge_case RADIO_STATE_WAIT_AR RADIO_STATE_CONFIGURE))))))
    = RADIO_STATE_CONFIGURE.
Proof.
  split; [reflexivity|].
  destruct state_graph as [_ H].
  destruct (H RADIO_STATE_WAIT_AR RADIO_STATE_CONFIGURE eq_refl) as [_ H2].
  exact H2.
Defined.

Lemma RADIO_Init_needs_both_pointers_witness :
  frame Sim.in_frame = frame SimMore.in_postamble /\
  nextAR Sim.in_frame = nextAR SimMore.in_postamble /\
  RADIO_Init (Some Sim.in_frame) (Some tt) =
    RADIO_Init (Some SimMore.in_postamble) (Some tt).
Proof.
  split; [reflexivity|]. split; [reflexivity|].
  destruct (RADIO_Init_needs_both_pointers (P := Sim.platform)) as (_ & _ & _ & H).
  apply H; reflexivity.
Defined.
